(** * Code quality checker: a shallow embedding of [codeQualityChecker.py]

    The development follows [src/Developer_Productivity/codeQualityChecker.py]:
    Python numbers ([int] as [Z], [float] as the kernel's binary64 floats),
    the syntax tree as the detectors see it through [isinstance], the
    breadth-first [ast.walk], the detectors, the metrics, the score and the
    aggregation of [run_analysis].

    What the checker gets from outside is a parameter: the text of each
    file (or the failure to read it), what [ast.parse] makes of a text,
    what the flake8 subprocess yields, and the list of files that
    [find_python_files] returns.  The calls to [print] are left out. *)

From Stdlib Require Import ZArith List String Ascii Bool Lia Permutation Sorted.
From Stdlib Require Import Floats DecimalString DecimalPos.
Import ListNotations.

Set Warnings "-inexact-float,-register-all,-notation-for-abbreviation".
Local Open Scope string_scope.
Local Open Scope list_scope.
Local Open Scope Z_scope.

(** ** Python numbers *)

(** The values of the numeric expressions of the checker: an [int] or a
    [float] (IEEE 754 binary64). *)
Inductive pynum : Type :=
| PInt (z : Z)
| PFloat (x : float).

Module PyNum.

(** [float(z)]: the double nearest to the integer (ties to even).  Python
    raises [OverflowError] from 2^1024 on, a magnitude that no count of
    lines or of syntax nodes reaches; the conversion here yields an
    infinity there. *)
Definition float_of_Z (z : Z) : float :=
  SF2Prim (binary_normalize prec emax z 0 false).

Definition to_float (a : pynum) : float :=
  match a with
  | PInt z => float_of_Z z
  | PFloat x => x
  end.

(** Binary arithmetic: exact on two ints, binary64 as soon as one operand
    is a float. *)
Definition arith (fz : Z -> Z -> Z) (ff : float -> float -> float)
  (a b : pynum) : pynum :=
  match a, b with
  | PInt x, PInt y => PInt (fz x y)
  | _, _ => PFloat (ff (to_float a) (to_float b))
  end.

Definition add : pynum -> pynum -> pynum := arith Z.add PrimFloat.add.
Definition sub : pynum -> pynum -> pynum := arith Z.sub PrimFloat.sub.
Definition mul : pynum -> pynum -> pynum := arith Z.mul PrimFloat.mul.

(** [a / b], true division: always a float.  Its one use in the checker is
    guarded by [len(self.metrics) > 0]. *)
Definition truediv (a b : pynum) : pynum :=
  PFloat (PrimFloat.div (to_float a) (to_float b)).

(** The exact order between an integer and a float, as Python compares
    them (no conversion of the integer): [Some c] is the comparison of
    [z] with [x], [None] when [x] is a NaN. *)
Definition compare_Z_SF (z : Z) (x : spec_float) : option comparison :=
  match x with
  | S754_zero _ => Some (z ?= 0)
  | S754_infinity false => Some Lt
  | S754_infinity true => Some Gt
  | S754_nan => None
  | S754_finite s m e =>
      let v := if s then Z.neg m else Z.pos m in
      Some (match e with
            | Z0 => z ?= v
            | Zpos p => z ?= v * 2 ^ Zpos p
            | Zneg p => z * 2 ^ Zpos p ?= v
            end)
  end.

(** [a < b]. *)
Definition ltb (a b : pynum) : bool :=
  match a, b with
  | PInt x, PInt y => x <? y
  | PFloat x, PFloat y => PrimFloat.ltb x y
  | PInt x, PFloat y =>
      match compare_Z_SF x (Prim2SF y) with Some Lt => true | _ => false end
  | PFloat x, PInt y =>
      match compare_Z_SF y (Prim2SF x) with Some Gt => true | _ => false end
  end.


(** The builtin [max(a, b)]: the first argument unless the second is
    strictly greater. *)
Definition max (a b : pynum) : pynum := if ltb a b then b else a.

(** The builtin [min(a, b)]: the first argument unless the second is
    strictly smaller. *)
Definition min (a b : pynum) : pynum := if ltb b a then b else a.

(** The builtin [sum] over numbers: addition from the int [0], left to
    right (CPython up to 3.11; from 3.12 on the float additions are
    compensated, which can change the last place of a sum of three or
    more floats). *)
Definition sum (l : list pynum) : pynum := fold_left add l (PInt 0).

(** The quotient [num / den] ([den] positive) rounded to the nearest
    integer, ties to even. *)
Definition round_half_even (num den : Z) : Z :=
  let q := num / den in
  let r := num mod den in
  match 2 * r ?= den with
  | Lt => q
  | Gt => q + 1
  | Eq => if Z.even q then q else q + 1
  end.

(** The exact value of the finite float [(-1)^s * m * 2^e] times one
    hundred, rounded to the nearest integer, ties to even. *)
Definition hundredths (s : bool) (m : positive) (e : Z) : Z :=
  let n := match e with
           | Z0 => Zpos m * 100
           | Zpos p => Zpos m * 2 ^ Zpos p * 100
           | Zneg p => round_half_even (Zpos m * 100) (2 ^ Zpos p)
           end in
  if s then - n else n.

(** [round(x, 2)] on a float: the decimal with two places nearest to the
    exact value of [x] (ties to even), then the double nearest to that
    decimal.  Below 2^53 hundredths the quotient of the two exactly
    represented integers is that double; from there on [x] is within
    half a unit in the last place of the decimal and is returned. *)
Definition round2_float (x : float) : float :=
  match Prim2SF x with
  | S754_finite s m e =>
      let n := hundredths s m e in
      if Z.abs n <? 2 ^ 53 then
        if n =? 0 then (if s then (-0)%float else 0%float)
        else PrimFloat.div (float_of_Z n) 100%float
      else x
  | _ => x
  end.

(** [round(a, 2)]: an int is returned as it is. *)
Definition round2 (a : pynum) : pynum :=
  match a with
  | PInt z => PInt z
  | PFloat x => PFloat (round2_float x)
  end.

End PyNum.

Declare Scope pynum_scope.
Delimit Scope pynum_scope with py.
Bind Scope pynum_scope with pynum.
Infix "+" := PyNum.add : pynum_scope.
Infix "-" := PyNum.sub : pynum_scope.
Infix "*" := PyNum.mul : pynum_scope.
Infix "/" := PyNum.truediv : pynum_scope.


(** ** The syntax tree

    The node classes the checker tells apart with [isinstance], with the
    fields [ast.iter_child_nodes] goes through, in the order of [_fields];
    every other class of node is an [Other] with its children.  The [op]
    of a [BoolOp] and the [ctx] of a [Name] are nodes too ([And()],
    [Or()], [Load()] and [Del()] are [Other []]). *)
Inductive ast : Type :=
| Module (body : list ast)
| FunctionDef (name : string) (lineno : Z) (args : ast) (body : list ast)
    (decorator_list : list ast) (returns : option ast)
| AsyncFunctionDef (name : string) (lineno : Z) (args : ast)
    (body : list ast) (decorator_list : list ast) (returns : option ast)
| ClassDef (name : string) (lineno : Z) (bases keywords : list ast)
    (body : list ast) (decorator_list : list ast)
| If (test : ast) (body orelse : list ast)
| While (test : ast) (body orelse : list ast)
| For (target iter : ast) (body orelse : list ast)
| AsyncFor (target iter : ast) (body orelse : list ast)
| ExceptHandler (type : option ast) (body : list ast)
| BoolOp (op : ast) (values : list ast)
| Name (id : string) (ctx : ast) (lineno : Z)
| Store
| Other (children : list ast).

Definition opt_list {A : Type} (o : option A) : list A :=
  match o with
  | Some a => [a]
  | None => []
  end.

(** [ast.iter_child_nodes(node)]: the nodes held by the fields of [node],
    field after field. *)
Definition iter_child_nodes (node : ast) : list ast :=
  match node with
  | Module body => body
  | FunctionDef _ _ args body decorator_list returns
  | AsyncFunctionDef _ _ args body decorator_list returns =>
      args :: body ++ decorator_list ++ opt_list returns
  | ClassDef _ _ bases keywords body decorator_list =>
      bases ++ keywords ++ body ++ decorator_list
  | If test body orelse
  | While test body orelse => test :: body ++ orelse
  | For target iter body orelse
  | AsyncFor target iter body orelse => target :: iter :: body ++ orelse
  | ExceptHandler type body => opt_list type ++ body
  | BoolOp op values => op :: values
  | Name _ ctx _ => [ctx]
  | Store => []
  | Other children => children
  end.

(** The number of nodes of a tree. *)
Fixpoint size (node : ast) : nat :=
  let sizes (l : list ast) : nat := list_sum (map size l) in
  let osize (o : option ast) : nat :=
    match o with
    | Some n => size n
    | None => 0%nat
    end in
  S (match node with
     | Module body => sizes body
     | FunctionDef _ _ args body decorator_list returns
     | AsyncFunctionDef _ _ args body decorator_list returns =>
         size args + sizes body + sizes decorator_list + osize returns
     | ClassDef _ _ bases keywords body decorator_list =>
         sizes bases + sizes keywords + sizes body + sizes decorator_list
     | If test body orelse
     | While test body orelse => size test + sizes body + sizes orelse
     | For target iter body orelse
     | AsyncFor target iter body orelse =>
         size target + size iter + sizes body + sizes orelse
     | ExceptHandler type body => osize type + sizes body
     | BoolOp op values => size op + sizes values
     | Name _ ctx _ => size ctx
     | Store => 0
     | Other children => sizes children
     end)%nat.

(** The loop of [ast.walk]: pop the first node of the queue, push its
    children at the end, yield it.  Every turn takes a node off a finite
    forest, so [fuel] bounds the turns. *)
Fixpoint walk_loop (fuel : nat) (todo : list ast) : list ast :=
  match fuel with
  | O => []
  | S fuel' =>
      match todo with
      | [] => []
      | node :: rest => node :: walk_loop fuel' (rest ++ iter_child_nodes node)
      end
  end.

(** [ast.walk(node)]: [node] and its descendants, breadth first. *)
Definition walk (node : ast) : list ast := walk_loop (size node) [node].

(** The nodes of a tree, parent before children, depth first: what
    [walk] yields, in another order. *)
Fixpoint subtree_nodes (node : ast) : list ast :=
  let forest (l : list ast) : list ast := flat_map subtree_nodes l in
  let oforest (o : option ast) : list ast :=
    match o with
    | Some n => subtree_nodes n
    | None => []
    end in
  node ::
  match node with
  | Module body => forest body
  | FunctionDef _ _ args body decorator_list returns
  | AsyncFunctionDef _ _ args body decorator_list returns =>
      subtree_nodes args ++ forest body ++ forest decorator_list
      ++ oforest returns
  | ClassDef _ _ bases keywords body decorator_list =>
      forest bases ++ forest keywords ++ forest body ++ forest decorator_list
  | If test body orelse
  | While test body orelse =>
      subtree_nodes test ++ forest body ++ forest orelse
  | For target iter body orelse
  | AsyncFor target iter body orelse =>
      subtree_nodes target ++ subtree_nodes iter ++ forest body
      ++ forest orelse
  | ExceptHandler type body => oforest type ++ forest body
  | BoolOp op values => subtree_nodes op ++ forest values
  | Name _ ctx _ => subtree_nodes ctx
  | Store => []
  | Other children => forest children
  end.

(** The tree with every [async def] replaced by a node of no
    particular class that holds the same children. *)
Fixpoint erase_async (node : ast) : ast :=
  let erase_all (l : list ast) : list ast := map erase_async l in
  let erase_opt (o : option ast) : option ast :=
    match o with
    | Some n => Some (erase_async n)
    | None => None
    end in
  match node with
  | Module body => Module (erase_all body)
  | FunctionDef name lineno args body decorator_list returns =>
      FunctionDef name lineno (erase_async args) (erase_all body)
        (erase_all decorator_list) (erase_opt returns)
  | AsyncFunctionDef _ _ args body decorator_list returns =>
      Other (erase_async args :: erase_all body ++ erase_all decorator_list
             ++ opt_list (erase_opt returns))
  | ClassDef name lineno bases keywords body decorator_list =>
      ClassDef name lineno (erase_all bases) (erase_all keywords)
        (erase_all body) (erase_all decorator_list)
  | If test body orelse =>
      If (erase_async test) (erase_all body) (erase_all orelse)
  | While test body orelse =>
      While (erase_async test) (erase_all body) (erase_all orelse)
  | For target iter body orelse =>
      For (erase_async target) (erase_async iter) (erase_all body)
        (erase_all orelse)
  | AsyncFor target iter body orelse =>
      AsyncFor (erase_async target) (erase_async iter) (erase_all body)
        (erase_all orelse)
  | ExceptHandler type body => ExceptHandler (erase_opt type) (erase_all body)
  | BoolOp op values => BoolOp (erase_async op) (erase_all values)
  | Name id ctx lineno => Name id (erase_async ctx) lineno
  | Store => Store
  | Other children => Other (erase_all children)
  end.

Definition is_AsyncFunctionDef (node : ast) : bool :=
  match node with
  | AsyncFunctionDef _ _ _ _ _ _ => true
  | _ => false
  end.

(** The sum of a list of ints. *)
Definition sum_Z (l : list Z) : Z := fold_right Z.add 0 l.

(** ** Cyclomatic complexity *)

(** What one node adds in the loop of [_calculate_complexity]. *)
Definition complexity_increment (child : ast) : Z :=
  match child with
  | If _ _ _ | While _ _ _ | For _ _ _ _ | AsyncFor _ _ _ _ => 1
  | ExceptHandler _ _ => 1
  | BoolOp _ values => Z.of_nat (List.length values) - 1
  | _ => 0
  end.

(** [_calculate_complexity(node)]. *)
Definition _calculate_complexity (node : ast) : Z :=
  fold_left (fun complexity child => complexity + complexity_increment child)
    (walk node) 1.

Definition is_FunctionDef (node : ast) : bool :=
  match node with
  | FunctionDef _ _ _ _ _ _ => true
  | _ => false
  end.

Definition is_ClassDef (node : ast) : bool :=
  match node with
  | ClassDef _ _ _ _ _ _ => true
  | _ => false
  end.

(** [node.body] of a class definition. *)
Definition class_body (node : ast) : list ast :=
  match node with
  | ClassDef _ _ _ _ body _ => body
  | _ => []
  end.

(** [_calculate_class_complexity(node)]. *)
Definition _calculate_class_complexity (node : ast) : Z :=
  fold_left
    (fun complexity item =>
       if is_FunctionDef item then complexity + _calculate_complexity item
       else complexity)
    (class_body node) 0.

(** ** Strings

    Source text and identifiers are taken to be ASCII, one [ascii] per
    character; [len] is [String.length]. *)

Definition is_ascii_upper (c : ascii) : bool :=
  let n := nat_of_ascii c in (65 <=? n)%nat && (n <=? 90)%nat.

Definition is_ascii_lower (c : ascii) : bool :=
  let n := nat_of_ascii c in (97 <=? n)%nat && (n <=? 122)%nat.

(** The characters [str.strip] removes: tab, line feed, vertical tab,
    form feed, carriage return, the four separators 28 to 31, space. *)
Definition is_whitespace (c : ascii) : bool :=
  let n := nat_of_ascii c in
  ((9 <=? n)%nat && (n <=? 13)%nat) || ((28 <=? n)%nat && (n <=? 32)%nat).

Definition is_newline (c : ascii) : bool := Ascii.eqb c "010"%char.

Fixpoint string_exists (p : ascii -> bool) (s : string) : bool :=
  match s with
  | EmptyString => false
  | String c s' => p c || string_exists p s'
  end.

Fixpoint string_forall (p : ascii -> bool) (s : string) : bool :=
  match s with
  | EmptyString => true
  | String c s' => p c && string_forall p s'
  end.

Definition is_space_or_tab (c : ascii) : bool :=
  Ascii.eqb c " "%char || Ascii.eqb c "009"%char.

(** [s.islower()]: some cased character, and no upper-case one. *)
Definition islower (s : string) : bool :=
  string_exists is_ascii_lower s && negb (string_exists is_ascii_upper s).

(** [s.isupper()]: some cased character, and no lower-case one. *)
Definition isupper (s : string) : bool :=
  string_exists is_ascii_upper s && negb (string_exists is_ascii_lower s).

(** ['_' in s]. *)
Definition has_underscore (s : string) : bool :=
  string_exists (Ascii.eqb "_"%char) s.

(** Removal of the trailing characters that satisfy [p]. *)
Fixpoint rstrip_chars (p : ascii -> bool) (s : string) : string :=
  match s with
  | EmptyString => EmptyString
  | String c s' =>
      match rstrip_chars p s' with
      | EmptyString => if p c then EmptyString else String c EmptyString
      | r => String c r
      end
  end.

(** Removal of the leading characters that satisfy [p]. *)
Fixpoint lstrip_chars (p : ascii -> bool) (s : string) : string :=
  match s with
  | EmptyString => EmptyString
  | String c s' => if p c then lstrip_chars p s' else s
  end.

(** [s.rstrip('\n')], [s.rstrip()] and [s.strip()]. *)
Definition rstrip_newline (s : string) : string := rstrip_chars is_newline s.
Definition rstrip (s : string) : string := rstrip_chars is_whitespace s.
Definition strip (s : string) : string :=
  rstrip_chars is_whitespace (lstrip_chars is_whitespace s).

(** [s.startswith('#')]. *)
Definition startswith_hash (s : string) : bool :=
  match s with
  | String c _ => Ascii.eqb c "#"%char
  | EmptyString => false
  end.

Definition is_empty (s : string) : bool :=
  match s with
  | EmptyString => true
  | String _ _ => false
  end.

(** [len(s)] as a Python int. *)
Definition len (s : string) : Z := Z.of_nat (String.length s).

(** [str(n)] for an int: its decimal digits, with a minus sign below
    zero. *)
Definition str_int (n : Z) : string := NilZero.string_of_int (Z.to_int n).

(** ** Issues, metrics, report *)

Record CodeIssue : Type := mkCodeIssue {
  file_path : string;
  line_number : Z;
  issue_type : string;
  severity : string;
  message : string;
  suggestion : option string
}.

Record CodeMetrics : Type := mkCodeMetrics {
  lines_of_code : Z;
  comment_lines : Z;
  blank_lines : Z;
  function_count : Z;
  class_count : Z;
  complexity : pynum;
  maintainability_index : pynum
}.

(** The summary dictionary of a report; the two counters are
    [defaultdict(int)], keys in the order of their first increment. *)
Record Summary : Type := mkSummary {
  summary_total_files : Z;
  summary_total_issues : Z;
  issues_by_severity : list (string * Z);
  issues_by_type : list (string * Z);
  quality_score : pynum
}.

Record QualityReport : Type := mkQualityReport {
  project_path : string;
  total_files : Z;
  total_issues : Z;
  metrics : CodeMetrics;
  issues : list CodeIssue;
  summary : Summary
}.

(** The configuration, every key present (as [_get_default_config]
    builds it); [severity_weights] is a dict from severity to int. *)
Record Config : Type := mkConfig {
  max_line_length : Z;
  max_function_complexity : Z;
  max_class_complexity : Z;
  severity_weights : list (string * Z)
}.

Definition _get_default_config : Config :=
  {| max_line_length := 79;
     max_function_complexity := 10;
     max_class_complexity := 20;
     severity_weights := [("error", 3); ("warning", 2); ("info", 1)] |}.

(** ** Dictionaries with string keys, in insertion order *)

Fixpoint dict_get {V : Type} (d : list (string * V)) (k : string) : option V :=
  match d with
  | [] => None
  | (k', v) :: d' => if String.eqb k' k then Some v else dict_get d' k
  end.

(** [d.get(k, default)]. *)
Definition dict_get_default {V : Type} (d : list (string * V)) (k : string)
  (default : V) : V :=
  match dict_get d k with
  | Some v => v
  | None => default
  end.

(** [d[k] = v]: the value of an existing key is replaced where the key
    stands, a new key goes to the end. *)
Fixpoint dict_set {V : Type} (d : list (string * V)) (k : string) (v : V)
  : list (string * V) :=
  match d with
  | [] => [(k, v)]
  | (k', v') :: d' =>
      if String.eqb k' k then (k', v) :: d' else (k', v') :: dict_set d' k v
  end.

(** [d.values()]. *)
Definition dict_values {V : Type} (d : list (string * V)) : list V :=
  map snd d.

(** [d[k] += 1] on a [defaultdict(int)]. *)
Definition counter_incr (d : list (string * Z)) (k : string)
  : list (string * Z) :=
  dict_set d k (dict_get_default d k 0 + 1).

(** ** Files, the parser and the external tool *)

(** What opening and reading a file gives: its lines, each with its
    line feed (the last one maybe without), or an exception ([OSError],
    [UnicodeDecodeError]) with its text, after the lines that an
    iteration over the file had yielded before it. *)
Inductive read_result : Type :=
| ReadOk (lines : list string)
| ReadError (yielded : list string) (msg : string).

Record source_file : Type := mkSourceFile {
  path : string;
  contents : read_result
}.

(** What [ast.parse] does with a text: a tree, a [SyntaxError] with
    its [lineno], its [msg] and its [str(e)], or another exception with
    its [str(e)]. *)
Inductive parse_result : Type :=
| Parsed (tree : ast)
| ParseSyntaxError (lineno : option Z) (msg : string) (str_e : string)
| ParseException (str_e : string).

(** One entry of the output of flake8 as [run_external_tools] decodes
    it. *)
Record flake8_entry : Type := mkFlake8Entry {
  entry_filename : string;
  entry_line_number : Z;
  entry_severity : string;
  entry_message : string
}.

(** What [run_external_tools] meets: the tool is missing, times out or
    fails to start (swallowed), it returns 0, it reports entries, or the
    decoding of its output raises an exception the function does not
    catch. *)
Inductive tool_outcome : Type :=
| ToolUnavailable
| ToolClean
| ToolEntries (entries : list flake8_entry)
| ToolRaised (msg : string).

(** A value or an exception that goes up to the caller. *)
Inductive outcome (A : Type) : Type :=
| Returned (a : A)
| Raised (msg : string).
Arguments Returned {A} a.
Arguments Raised {A} msg.

(** [f.read()] and [''.join(f.readlines())]. *)
Definition join_lines (lines : list string) : string :=
  String.concat EmptyString lines.

(** The tree of a file, or the text of the exception that reading or
    parsing it raises. *)
Definition read_and_parse (ast_parse : string -> parse_result)
  (file : source_file) : outcome ast :=
  match contents file with
  | ReadError _ msg => Raised msg
  | ReadOk lines =>
      match ast_parse (join_lines lines) with
      | Parsed tree => Returned tree
      | ParseSyntaxError _ _ str_e => Raised str_e
      | ParseException str_e => Raised str_e
      end
  end.

(** The number of elements of a list that satisfy [p], as an int. *)
Definition count {A : Type} (p : A -> bool) (l : list A) : Z :=
  Z.of_nat (List.length (filter p l)).

(** ** The checker *)

Section Checker.

(** The parser and the external tool as the checker finds them, and
    [self.config]. *)
Variable ast_parse : string -> parse_result.
Variable flake8 : string -> tool_outcome.
Variable config : Config.

(** [analyze_syntax(file_path)]. *)
Definition analyze_syntax (file : source_file) : list CodeIssue :=
  match contents file with
  | ReadError _ msg =>
      [mkCodeIssue (path file) 0 "parsing_error" "error"
         ("Failed to parse file: " ++ msg)%string
         (Some "Check file encoding and content")]
  | ReadOk lines =>
      match ast_parse (join_lines lines) with
      | Parsed _ => []
      | ParseSyntaxError lineno msg _ =>
          [mkCodeIssue (path file)
             (match lineno with Some n => n | None => 0 end)
             "syntax_error" "error"
             ("Syntax error: " ++ msg)%string
             (Some "Fix the syntax error to make the code valid Python")]
      | ParseException str_e =>
          [mkCodeIssue (path file) 0 "parsing_error" "error"
             ("Failed to parse file: " ++ str_e)%string
             (Some "Check file encoding and content")]
      end
  end.

(** The issue of [check_line_length] for one line. *)
Definition line_too_long (file : source_file) (line_num : Z) (line : string)
  : CodeIssue :=
  mkCodeIssue (path file) line_num "line_too_long" "warning"
    ("Line " ++ str_int line_num ++ " is " ++ str_int (len (rstrip line))
     ++ " characters long (max " ++ str_int (max_line_length config) ++ ")")%string
    (Some "Break the line into multiple lines or use line continuation").

(** The loop of [check_line_length] over [enumerate(f, line_num)]. *)
Fixpoint line_length_loop (file : source_file) (line_num : Z)
  (lines : list string) : list CodeIssue :=
  match lines with
  | [] => []
  | line :: lines' =>
      ((if max_line_length config <? len (rstrip_newline line)
        then [line_too_long file line_num line] else [])
       ++ line_length_loop file (line_num + 1) lines')%list
  end.

(** [check_line_length(file_path)]. *)
Definition check_line_length (file : source_file) : list CodeIssue :=
  match contents file with
  | ReadOk lines => line_length_loop file 1 lines
  | ReadError yielded msg =>
      (line_length_loop file 1 yielded
       ++ [mkCodeIssue (path file) 0 "file_read_error" "error"
             ("Could not read file: " ++ msg)%string None])%list
  end.

(** One turn of the loop of [analyze_complexity]. *)
Definition complexity_step (file : source_file) (node : ast)
  : list CodeIssue :=
  match node with
  | FunctionDef name lineno _ _ _ _ =>
      let complexity := _calculate_complexity node in
      if max_function_complexity config <? complexity then
        [mkCodeIssue (path file) lineno "high_complexity" "warning"
           ("Function '" ++ name ++ "' has complexity " ++ str_int complexity
            ++ " (max " ++ str_int (max_function_complexity config) ++ ")")%string
           (Some "Consider breaking down the function into smaller, simpler functions")]
      else []
  | ClassDef name lineno _ _ _ _ =>
      let complexity := _calculate_class_complexity node in
      if max_class_complexity config <? complexity then
        [mkCodeIssue (path file) lineno "high_class_complexity" "warning"
           ("Class '" ++ name ++ "' has complexity " ++ str_int complexity
            ++ " (max " ++ str_int (max_class_complexity config) ++ ")")%string
           (Some "Consider splitting the class into multiple classes")]
      else []
  | _ => []
  end.

(** [analyze_complexity(file_path)]. *)
Definition analyze_complexity (file : source_file) : list CodeIssue :=
  match read_and_parse ast_parse file with
  | Returned tree => flat_map (complexity_step file) (walk tree)
  | Raised str_e =>
      [mkCodeIssue (path file) 0 "complexity_analysis_error" "error"
         ("Failed to analyze complexity: " ++ str_e)%string None]
  end.

(** One turn of the loop of [check_naming_conventions]; [node.name[0]]
    raises [IndexError] on an empty class name. *)
Definition naming_step (file : source_file) (node : ast)
  : outcome (list CodeIssue) :=
  match node with
  | FunctionDef name lineno _ _ _ _ =>
      Returned
        (if negb (islower name) && negb (has_underscore name) then
           [mkCodeIssue (path file) lineno "naming_convention" "warning"
              ("Function '" ++ name ++ "' should use snake_case naming")%string
              (Some "Rename function to use snake_case (e.g., 'my_function')")]
         else [])
  | ClassDef name lineno _ _ _ _ =>
      match name with
      | EmptyString => Raised "string index out of range"
      | String c _ =>
          Returned
            (if negb (is_ascii_upper c) || has_underscore name then
               [mkCodeIssue (path file) lineno "naming_convention" "warning"
                  ("Class '" ++ name ++ "' should use PascalCase naming")%string
                  (Some "Rename class to use PascalCase (e.g., 'MyClass')")]
             else [])
      end
  | Name id Store lineno =>
      Returned
        (if negb (islower id) && negb (has_underscore id) && negb (isupper id)
         then
           [mkCodeIssue (path file) lineno "naming_convention" "info"
              ("Variable '" ++ id ++ "' should use snake_case naming")%string
              (Some "Rename variable to use snake_case (e.g., 'my_variable')")]
         else [])
  | _ => Returned []
  end.

(** The loop of [check_naming_conventions]: the issues appended, and
    the exception that stopped the loop, if one did. *)
Fixpoint naming_loop (file : source_file) (nodes : list ast)
  : list CodeIssue * option string :=
  match nodes with
  | [] => ([], None)
  | node :: nodes' =>
      match naming_step file node with
      | Raised str_e => ([], Some str_e)
      | Returned found =>
          let (later, raised) := naming_loop file nodes' in
          ((found ++ later)%list, raised)
      end
  end.

Definition naming_analysis_error (file : source_file) (str_e : string)
  : CodeIssue :=
  mkCodeIssue (path file) 0 "naming_analysis_error" "error"
    ("Failed to analyze naming conventions: " ++ str_e)%string None.

(** [check_naming_conventions(file_path)]. *)
Definition check_naming_conventions (file : source_file) : list CodeIssue :=
  match read_and_parse ast_parse file with
  | Returned tree =>
      let (found, raised) := naming_loop file (walk tree) in
      match raised with
      | Some str_e => (found ++ [naming_analysis_error file str_e])%list
      | None => found
      end
  | Raised str_e => [naming_analysis_error file str_e]
  end.

(** The complexity loop of [calculate_metrics]. *)
Definition functions_complexity (tree : ast) : Z :=
  fold_left
    (fun complexity node =>
       if is_FunctionDef node then complexity + _calculate_complexity node
       else complexity)
    (walk tree) 0.

(** The maintainability index of [calculate_metrics]. *)
Definition maintainability (complexity code_lines function_count : Z)
  : pynum :=
  PyNum.max (PInt 0)
    (PInt 171 - PFloat 5.2 * PInt complexity - PFloat 0.23 * PInt code_lines
     - PFloat 16.2 * PInt function_count)%py.

(** [CodeMetrics(0, 0, 0, 0, 0, 0.0, 0.0)]. *)
Definition zero_metrics : CodeMetrics :=
  mkCodeMetrics 0 0 0 0 0 (PFloat 0) (PFloat 0).

(** [calculate_metrics(file_path)]. *)
Definition calculate_metrics (file : source_file) : CodeMetrics :=
  match contents file with
  | ReadError _ _ => zero_metrics
  | ReadOk lines =>
      let total_lines := Z.of_nat (List.length lines) in
      let comment_lines :=
        count (fun line => startswith_hash (strip line)) lines in
      let blank_lines := count (fun line => is_empty (strip line)) lines in
      let code_lines := total_lines - comment_lines - blank_lines in
      match ast_parse (join_lines lines) with
      | Parsed tree =>
          let function_count := count is_FunctionDef (walk tree) in
          let class_count := count is_ClassDef (walk tree) in
          let complexity := functions_complexity tree in
          mkCodeMetrics code_lines comment_lines blank_lines function_count
            class_count (PInt complexity)
            (maintainability complexity code_lines function_count)
      | _ => zero_metrics
      end
  end.

(** [run_external_tools(file_path)]. *)
Definition run_external_tools (file : source_file)
  : outcome (list CodeIssue) :=
  match flake8 (path file) with
  | ToolUnavailable => Returned []
  | ToolClean => Returned []
  | ToolEntries entries =>
      Returned
        (map (fun e =>
                mkCodeIssue (entry_filename e) (entry_line_number e) "flake8"
                  (entry_severity e) (entry_message e) None)
           entries)
  | ToolRaised msg => Raised msg
  end.

(** [analyze_file(file_path)]: the issues of the file and [self.metrics]
    after the call. *)
Definition analyze_file (self_metrics : list (string * CodeMetrics))
  (file : source_file)
  : outcome (list CodeIssue * list (string * CodeMetrics)) :=
  let issues :=
    (analyze_syntax file ++ check_line_length file
     ++ check_naming_conventions file ++ analyze_complexity file)%list in
  match run_external_tools file with
  | Raised msg => Raised msg
  | Returned external =>
      Returned ((issues ++ external)%list,
                dict_set self_metrics (path file) (calculate_metrics file))
  end.

(** [_calculate_quality_score(issues, metrics)]. *)
Definition _calculate_quality_score (issues : list CodeIssue)
  (metrics : CodeMetrics) : pynum :=
  match issues with
  | [] => PFloat 100
  | _ :: _ =>
      let total_penalty :=
        fold_left
          (fun total_penalty issue =>
             total_penalty
             + dict_get_default (severity_weights config) (severity issue) 1)
          issues 0 in
      let complexity_penalty :=
        PyNum.min (complexity metrics * PInt 2)%py (PInt 20) in
      let maintainability_penalty :=
        PyNum.max (PInt 0) (PInt 50 - maintainability_index metrics)%py in
      let total_penalty :=
        (PInt total_penalty
         + (complexity_penalty + maintainability_penalty))%py in
      let score := PyNum.max (PInt 0) (PInt 100 - total_penalty)%py in
      PyNum.round2 score
  end.

(** The first loop of [run_analysis]: [all_issues], [total_issues] and
    [self.metrics] after the files. *)
Fixpoint analysis_loop (python_files : list source_file)
  (all_issues : list CodeIssue) (total_issues : Z)
  (self_metrics : list (string * CodeMetrics))
  : outcome (list CodeIssue * Z * list (string * CodeMetrics)) :=
  match python_files with
  | [] => Returned (all_issues, total_issues, self_metrics)
  | file_path :: python_files' =>
      match analyze_file self_metrics file_path with
      | Raised msg => Raised msg
      | Returned (file_issues, self_metrics') =>
          analysis_loop python_files' (all_issues ++ file_issues)%list
            (total_issues + Z.of_nat (List.length file_issues)) self_metrics'
      end
  end.

(** One turn of the aggregation loop of [run_analysis]: the six [+=]
    on [total_metrics]. *)
Definition add_metrics (total_metrics metrics : CodeMetrics) : CodeMetrics :=
  mkCodeMetrics
    (lines_of_code total_metrics + lines_of_code metrics)
    (comment_lines total_metrics + comment_lines metrics)
    (blank_lines total_metrics + blank_lines metrics)
    (function_count total_metrics + function_count metrics)
    (class_count total_metrics + class_count metrics)
    (complexity total_metrics + complexity metrics)%py
    (maintainability_index total_metrics).

(** The aggregation loop of [run_analysis] over [self.metrics.values()]. *)
Definition aggregate_counts (values : list CodeMetrics) : CodeMetrics :=
  fold_left add_metrics values zero_metrics.

(** The aggregated metrics of [run_analysis]. *)
Definition aggregate_metrics (self_metrics : list (string * CodeMetrics))
  : CodeMetrics :=
  let total_metrics := aggregate_counts (dict_values self_metrics) in
  if 0 <? Z.of_nat (List.length self_metrics) then
    mkCodeMetrics
      (lines_of_code total_metrics) (comment_lines total_metrics)
      (blank_lines total_metrics) (function_count total_metrics)
      (class_count total_metrics) (complexity total_metrics)
      (PyNum.sum (map maintainability_index (dict_values self_metrics))
       / PInt (Z.of_nat (List.length self_metrics)))%py
  else total_metrics.

(** The two counters of the summary. *)
Definition count_by (key : CodeIssue -> string) (all_issues : list CodeIssue)
  : list (string * Z) :=
  fold_left (fun counter issue => counter_incr counter (key issue))
    all_issues [].

(** [run_analysis()], on the files that [find_python_files] returns and
    with [self.metrics] as it stands before the call. *)
Definition run_analysis (project : string) (python_files : list source_file)
  (self_metrics : list (string * CodeMetrics)) : outcome QualityReport :=
  match analysis_loop python_files [] 0 self_metrics with
  | Raised msg => Raised msg
  | Returned (all_issues, total_issues, self_metrics') =>
      let total_metrics := aggregate_metrics self_metrics' in
      let computed_summary :=
        mkSummary (Z.of_nat (List.length python_files)) total_issues
          (count_by severity all_issues) (count_by issue_type all_issues)
          (_calculate_quality_score all_issues total_metrics) in
      Returned
        (mkQualityReport project (Z.of_nat (List.length python_files))
           total_issues total_metrics all_issues computed_summary)
  end.

(** The list [analyze_file] returns for a file ([self.metrics] has no
    part in it); empty when the call raises. *)
Definition issues_of_file (file : source_file) : list CodeIssue :=
  match analyze_file [] file with
  | Returned (found, _) => found
  | Raised _ => []
  end.

(** The decoding of the tool's output raises on this file. *)
Definition tool_raises (file : source_file) : bool :=
  match flake8 (path file) with
  | ToolRaised _ => true
  | _ => false
  end.

End Checker.

(** ** The constructs that complexity counts *)

Definition is_If (node : ast) : bool :=
  match node with If _ _ _ => true | _ => false end.

Definition is_While (node : ast) : bool :=
  match node with While _ _ _ => true | _ => false end.

Definition is_For (node : ast) : bool :=
  match node with For _ _ _ _ => true | _ => false end.

Definition is_AsyncFor (node : ast) : bool :=
  match node with AsyncFor _ _ _ _ => true | _ => false end.

Definition is_ExceptHandler (node : ast) : bool :=
  match node with ExceptHandler _ _ => true | _ => false end.

Definition is_BoolOp (node : ast) : bool :=
  match node with BoolOp _ _ => true | _ => false end.

(** [len(node.values)] of a boolean chain. *)
Definition operand_count (node : ast) : Z :=
  match node with
  | BoolOp _ values => Z.of_nat (List.length values)
  | _ => 0
  end.

(** The branches, loops, handlers and boolean operands in a list of
    nodes: one for each [if], [while], [for], [async for] and [except]
    clause, the operands less one for each boolean chain. *)
Definition construct_count (nodes : list ast) : Z :=
  count is_If nodes + count is_While nodes + count is_For nodes
  + count is_AsyncFor nodes + count is_ExceptHandler nodes
  + sum_Z (map (fun chain => operand_count chain - 1)
             (filter is_BoolOp nodes)).

(** ** Complexity as the specification words it

    The nodes of a function's own control flow: the descent stops at a
    nested function definition, whose body belongs to that function. *)
Fixpoint own_nodes (node : ast) : list ast :=
  let own (l : list ast) : list ast := flat_map own_nodes l in
  let own_opt (o : option ast) : list ast :=
    match o with
    | Some n => own_nodes n
    | None => []
    end in
  match node with
  | FunctionDef _ _ _ _ _ _ | AsyncFunctionDef _ _ _ _ _ _ => []
  | Module body => node :: own body
  | ClassDef _ _ bases keywords body decorator_list =>
      node :: own bases ++ own keywords ++ own body ++ own decorator_list
  | If test body orelse
  | While test body orelse => node :: own_nodes test ++ own body ++ own orelse
  | For target iter body orelse
  | AsyncFor target iter body orelse =>
      node :: own_nodes target ++ own_nodes iter ++ own body ++ own orelse
  | ExceptHandler type body => node :: own_opt type ++ own body
  | BoolOp op values => node :: own_nodes op ++ own values
  | Name _ ctx _ => node :: own_nodes ctx
  | Store => [node]
  | Other children => node :: own children
  end.

(** The specification's [functionComplexity]: base value 1 and the
    constructs of the function's own control flow, nested function
    definitions left out. *)
Definition spec_function_complexity (node : ast) : Z :=
  1 + construct_count (flat_map own_nodes (iter_child_nodes node)).

(** The specification's score for a scope: the penalty of the issues
    and of the metrics taken off 100, whatever the issue list; the
    additions in the order the code makes them. *)
Definition spec_quality_score (config : Config) (issues : list CodeIssue)
  (metrics : CodeMetrics) : pynum :=
  let weights :=
    map (fun issue =>
           dict_get_default (severity_weights config) (severity issue) 1)
      issues in
  let penalty :=
    (PInt (sum_Z weights)
     + (PyNum.min (complexity metrics * PInt 2) (PInt 20)
        + PyNum.max (PInt 0) (PInt 50 - maintainability_index metrics)))%py in
  PyNum.round2 (PyNum.max (PInt 0) (PInt 100 - penalty)%py).

(** The parser whose trees come without their [async def]s. *)
Definition erased_parse (ast_parse : string -> parse_result) (text : string)
  : parse_result :=
  match ast_parse text with
  | Parsed tree => Parsed (erase_async tree)
  | failure => failure
  end.

(** An issue of kind [syntax_error] or [parsing_error]. *)
Definition is_parse_issue (issue : CodeIssue) : bool :=
  String.eqb (issue_type issue) "syntax_error"
  || String.eqb (issue_type issue) "parsing_error".

(** ** Sample inputs *)

Definition leaf : ast := Other [].

(** [x], read. *)
Definition load (id : string) (lineno : Z) : ast := Name id leaf lineno.

(** [def f(): return 1]. *)
Definition plain_function : ast :=
  FunctionDef "f" 1 leaf [Other [leaf]] [] None.

(** A function of one argument whose body is two [if] statements and a
    [while] loop, each on [x] with [pass] inside. *)
Definition two_ifs_one_while : ast :=
  FunctionDef "f" 1 (Other [leaf])
    [If (load "x" 2) [leaf] []; If (load "x" 3) [leaf] [];
     While (load "x" 4) [leaf] []]
    [] None.

(** [def g(y):] with an [if] and a [for] in its body. *)
Definition inner_function : ast :=
  FunctionDef "g" 2 (Other [leaf])
    [If (load "y" 3) [leaf] []; For (Name "i" Store 4) (load "y" 4) [leaf] []]
    [] None.

(** [def outer():] whose body is the definition of [g] and [return g]. *)
Definition outer_function : ast :=
  FunctionDef "outer" 1 leaf [inner_function; Other [load "g" 5]] [] None.

(** A method with two [if] statements. *)
Definition method_three : ast :=
  FunctionDef "small" 2 (Other [leaf])
    [If (load "a" 3) [leaf] []; If (load "b" 4) [leaf] []] [] None.

(** A method with [if a and b and c] and a [try] with one [except]
    clause. *)
Definition method_five : ast :=
  FunctionDef "large" 6 (Other [leaf])
    [If (BoolOp leaf [load "a" 7; load "b" 7; load "c" 7]) [leaf] [];
     Other [leaf; ExceptHandler None [leaf]]]
    [] None.

(** A class with these two methods, and a nested class that holds a
    method of its own. *)
Definition sample_class : ast :=
  ClassDef "Sample" 1 [] []
    [method_three; method_five;
     ClassDef "Inner" 12 [] [] [two_ifs_one_while] []]
    [].

(** [async def fetchAll(urls):] with an [if] and an [async for] that
    holds an [if] with [a or b]. *)
Definition async_function : ast :=
  AsyncFunctionDef "fetchAll" 2 (Other [leaf])
    [If (load "urls" 3) [leaf] [];
     AsyncFor (Name "u" Store 4) (load "urls" 4)
       [If (BoolOp leaf [load "a" 5; load "b" 5]) [leaf] []] []]
    [] None.

(** A class whose methods are all asynchronous. *)
Definition async_class : ast :=
  ClassDef "Client" 1 [] [] [async_function; async_function] [].

(** An ordinary function whose body is an [async for] loop. *)
Definition function_with_async_for : ast :=
  FunctionDef "drain" 1 (Other [leaf])
    [AsyncFor (Name "item" Store 2) (load "queue" 2) [leaf] []] [] None.

(** [n] spaces. *)
Fixpoint spaces (n : nat) : string :=
  match n with
  | O => EmptyString
  | S n' => String " "%char (spaces n')
  end.

Definition newline : string := String "010"%char EmptyString.

(** Four lines: a comment, an assignment of 86 characters, a blank
    line and a short assignment to a constant. *)
Definition long_lines : list string :=
  [ ("# a comment" ++ newline)%string;
    ("x = 'aaaaaaaaaaaaaaaaaaaaaaaaaaaaaaaaaaaaaaaaaaaaaaaaaaaaaaaaaaaaaaaaaaaaaaaaaaaaaaaa'"
     ++ newline)%string;
    newline;
    ("Y = 2" ++ newline)%string ].

(** What the parser does with the texts of the sample files; any other
    text is taken as a syntax error on its first line. *)
Definition sample_texts : list (string * parse_result) :=
  [ (EmptyString, Parsed (Module []));
    (join_lines long_lines,
     Parsed
       (Module
          [Other [Name "x" Store 2; leaf]; Other [Name "Y" Store 4; leaf]]));
    (("def f():" ++ newline ++ "    return 1" ++ newline)%string,
     Parsed (Module [plain_function]));
    (("def f(:" ++ newline)%string,
     ParseSyntaxError (Some 1) "invalid syntax"
       "invalid syntax (<unknown>, line 1)") ].

Definition sample_parse (text : string) : parse_result :=
  dict_get_default sample_texts text
    (ParseSyntaxError (Some 1) "invalid syntax"
       "invalid syntax (<unknown>, line 1)").

(** No flake8 on the machine. *)
Definition no_flake8 (file_path : string) : tool_outcome := ToolUnavailable.

Definition empty_file : source_file := mkSourceFile "empty.py" (ReadOk []).

Definition plain_file : source_file :=
  mkSourceFile "plain.py"
    (ReadOk [("def f():" ++ newline)%string;
             ("    return 1" ++ newline)%string]).

Definition long_line_file : source_file :=
  mkSourceFile "long.py" (ReadOk long_lines).

Definition broken_file : source_file :=
  mkSourceFile "broken.py" (ReadOk [("def f(:" ++ newline)%string]).

(** A file with the same broken definition, then a line of 86
    characters. *)
Definition broken_long_file : source_file :=
  mkSourceFile "broken_long.py"
    (ReadOk
       [("def f(:" ++ newline)%string;
        ("x = 'aaaaaaaaaaaaaaaaaaaaaaaaaaaaaaaaaaaaaaaaaaaaaaaaaaaaaaaaaaaaaaaaaaaaaaaaaaaaaaaa'"
         ++ newline)%string]).

(** A file whose second line is [total = 1] followed by 75 spaces. *)
Definition padded_file : source_file :=
  mkSourceFile "padded.py"
    (ReadOk [("count = 0" ++ newline)%string;
             ("total = 1" ++ spaces 75 ++ newline)%string]).

Definition unreadable_file : source_file :=
  mkSourceFile "latin.py"
    (ReadError [] "'utf-8' codec can't decode byte 0xe9").

(** A scope with no issue, complexity 10 and maintainability index 0. *)
Definition poor_metrics : CodeMetrics :=
  mkCodeMetrics 40 0 0 2 0 (PInt 10) (PFloat 0).

Definition sample_warning : CodeIssue :=
  mkCodeIssue "plain.py" 3 "line_too_long" "warning"
    "Line 3 is 80 characters long (max 79)" None.

Definition sample_notice : CodeIssue :=
  mkCodeIssue "plain.py" 4 "flake8" "notice" "C901: too complex" None.

(** ** Notions used to state further properties *)

(** The test of [check_line_length] on one line. *)
Definition over_limit (config : Config) (line : string) : bool :=
  max_line_length config <? len (rstrip_newline line).

(** Every boolean chain below the node has at least one operand (the
    parser gives each at least two). *)
Definition chains_have_operands (node : ast) : bool :=
  forallb (fun child => negb (is_BoolOp child) || (1 <=? operand_count child))
    (subtree_nodes node).

(** One of the three severities of the detectors. *)
Definition known_severity (issue : CodeIssue) : bool :=
  String.eqb (severity issue) "error"
  || String.eqb (severity issue) "warning"
  || String.eqb (severity issue) "info".

(** A configuration with lower limits. *)
Definition strict_config : Config :=
  {| max_line_length := 20;
     max_function_complexity := 2;
     max_class_complexity := 5;
     severity_weights := [("error", 3); ("warning", 2); ("info", 1)] |}.

(** A file that holds the sample class. *)
Definition class_lines : list string :=
  [ ("class Sample:" ++ newline)%string;
    ("    # two methods and a nested class" ++ newline)%string ].

Definition class_file : source_file :=
  mkSourceFile "sample.py" (ReadOk class_lines).

(** The parser of the samples, with the text of [class_file]. *)
Definition extra_parse (text : string) : parse_result :=
  if String.eqb text (join_lines class_lines)
  then Parsed (Module [sample_class])
  else sample_parse text.

(** A tool whose output cannot be decoded for one of the sample files. *)
Definition failing_flake8 (file_path : string) : tool_outcome :=
  if String.eqb file_path "long.py"
  then ToolRaised "invalid literal for int() with base 10"
  else ToolUnavailable.

(** ** Finding the files of a project *)

(** [pattern in s]: the pattern stands somewhere in the string. *)
Fixpoint contains (pattern s : string) : bool :=
  String.prefix pattern s
  || match s with
     | EmptyString => false
     | String _ s' => contains pattern s'
     end.

(** [s.endswith(suffix)]. *)
Fixpoint endswith (s suffix : string) : bool :=
  String.eqb s suffix
  || match s with
     | EmptyString => false
     | String _ s' => endswith s' suffix
     end.

(** [_should_ignore_file(file_path)], on [str(file_path)] and
    [self.config['ignore_patterns']]. *)
Definition _should_ignore_file (ignore_patterns : list string)
  (file_path : string) : bool :=
  existsb (fun pattern => contains pattern file_path) ignore_patterns.

(** What [os.walk] finds below a directory: its sub-directories by
    name, in the order of the listing, and the names of its other
    entries.  A directory that is not entered (a symbolic link, a
    directory that cannot be listed) stands as an empty one. *)
Inductive dir_tree : Type :=
| Directory (dirs : list (string * dir_tree)) (files : list string).

Section FindFiles.

(** [str(Path(root) / name)] and [os.path.join(root, name)]. *)
Variable path_str : string -> string -> string.
Variable walk_join : string -> string -> string.
Variable ignore_patterns : list string.

(** The loop of [find_python_files] over [os.walk], from the directory
    [root] on: the files of the directory that end in [.py] and are not
    ignored, then the same for each sub-directory that the assignment to
    [dirs[:]] keeps. *)
Fixpoint find_python_files (root : string) (tree : dir_tree) : list string :=
  match tree with
  | Directory dirs files =>
      let below :=
        fix below (dirs : list (string * dir_tree)) : list string :=
          match dirs with
          | [] => []
          | (d, subtree) :: dirs' =>
              (if _should_ignore_file ignore_patterns (path_str root d)
               then []
               else find_python_files (walk_join root d) subtree)
              ++ below dirs'
          end in
      map (path_str root)
        (filter
           (fun file =>
              endswith file ".py"
              && negb (_should_ignore_file ignore_patterns
                         (path_str root file)))
           files)
      ++ below dirs
  end.

End FindFiles.


(** A path made of a directory and a name with a slash between them. *)
Definition slash_join (root name : string) : string :=
  (root ++ "/" ++ name)%string.

(** A project with two files at the top, a package, a virtual
    environment and a directory of workflows. *)
Definition sample_project : dir_tree :=
  Directory
    [ ("pkg", Directory [] ["__init__.py"; "core.py"; "notes.txt"]);
      ("venv", Directory [("lib", Directory [] ["site.py"])] []);
      (".github", Directory [] ["check.py"]) ]
    ["setup.py"; "README.md"].

(** The patterns of [_get_default_config]. *)
Definition default_ignore_patterns : list string :=
  ["__pycache__"; ".git"; ".venv"; "venv"; "node_modules"; "*.pyc"; "*.pyo"].

(** ** The output of the external tool *)

(** [s.split(sep)] for a separator of one character. *)
Fixpoint split_on (sep : ascii) (s : string) : list string :=
  match s with
  | EmptyString => [EmptyString]
  | String c s' =>
      if Ascii.eqb c sep then EmptyString :: split_on sep s'
      else
        match split_on sep s' with
        | first :: rest => String c first :: rest
        | [] => [String c EmptyString]
        end
  end.

(** The white space that [int] skips at both ends of its argument. *)
Definition is_c_space (c : ascii) : bool :=
  let n := nat_of_ascii c in
  ((9 <=? n)%nat && (n <=? 13)%nat) || (n =? 32)%nat.

Definition digit_value (c : ascii) : option Z :=
  let n := nat_of_ascii c in
  if (48 <=? n)%nat && (n <=? 57)%nat then Some (Z.of_nat n - 48) else None.

(** The digits of an int literal in base 10: at least one digit, and
    single underscores between digits only. *)
Fixpoint int_digits (acc : Z) (after_digit : bool) (s : string) : option Z :=
  match s with
  | EmptyString => if after_digit then Some acc else None
  | String c s' =>
      match digit_value c with
      | Some d => int_digits (10 * acc + d) true s'
      | None =>
          if Ascii.eqb c "_"%char && after_digit
          then int_digits acc false s'
          else None
      end
  end.

(** [int(s)] on a string: the value, or [None] for [ValueError]. *)
Definition py_int (s : string) : option Z :=
  match rstrip_chars is_c_space (lstrip_chars is_c_space s) with
  | String "+"%char digits => int_digits 0 false digits
  | String "-"%char digits => option_map Z.opp (int_digits 0 false digits)
  | digits => int_digits 0 false digits
  end.

Definition backslash : ascii := ascii_of_nat 92.
Definition double_quote : ascii := ascii_of_nat 34.
Definition single_quote : ascii := ascii_of_nat 39.

Definition hex_digit (n : nat) : ascii :=
  if (n <? 10)%nat then ascii_of_nat (48 + n) else ascii_of_nat (87 + n).

(** One character of [repr(s)] between quotes [quote]. *)
Definition repr_char (quote c : ascii) : string :=
  let n := nat_of_ascii c in
  if (n =? 92)%nat then String backslash (String backslash EmptyString)
  else if Ascii.eqb c quote then String backslash (String c EmptyString)
  else if (n =? 9)%nat then String backslash "t"
  else if (n =? 10)%nat then String backslash "n"
  else if (n =? 13)%nat then String backslash "r"
  else if (n <? 32)%nat || (n =? 127)%nat then
    String backslash
      (String "x"%char
         (String (hex_digit (n / 16))
            (String (hex_digit (n mod 16)) EmptyString)))
  else String c EmptyString.

Fixpoint repr_chars (quote : ascii) (s : string) : string :=
  match s with
  | EmptyString => EmptyString
  | String c s' => (repr_char quote c ++ repr_chars quote s')%string
  end.

(** [repr(s)]: between single quotes, or between double quotes when the
    string holds a single quote and no double quote. *)
Definition py_repr (s : string) : string :=
  let quote :=
    if string_exists (Ascii.eqb single_quote) s
       && negb (string_exists (Ascii.eqb double_quote) s)
    then double_quote else single_quote in
  String quote (repr_chars quote s ++ String quote EmptyString).

(** What [subprocess.run] gives: one of the three exceptions that
    [run_external_tools] swallows, or a finished process. *)
Inductive process_result : Type :=
| ProcessFailed
| Completed (returncode : Z) (stdout : string).

(** One object of the JSON output, with the four keys that are read. *)
Record json_issue : Type := mkJsonIssue {
  json_filename : string;
  json_line_number : Z;
  json_code : string;
  json_text : string
}.

(** What [json.loads] and the loop over its result meet: no JSON at
    all, a list of such objects, or a value of another shape, on which
    the loop raises ([TypeError], [KeyError], [AttributeError]). *)
Inductive json_result : Type :=
| JsonDecodeError
| JsonIssues (decoded : list json_issue)
| JsonOther (str_e : string).

(** [code.startswith('W')]. *)
Definition startswith_W (code : string) : bool :=
  match code with
  | String c _ => Ascii.eqb c "W"%char
  | EmptyString => false
  end.

(** The loop over [result.stdout.split('\n')] of the text branch. *)
Fixpoint flake8_text_loop (lines : list string)
  : outcome (list flake8_entry) :=
  match lines with
  | [] => Returned []
  | line :: lines' =>
      if is_empty (strip line) then flake8_text_loop lines'
      else
        let parts := split_on ":"%char line in
        if (3 <=? List.length parts)%nat then
          match py_int (nth 1 parts EmptyString) with
          | None =>
              Raised ("invalid literal for int() with base 10: "
                      ++ py_repr (nth 1 parts EmptyString))%string
          | Some line_number =>
              match flake8_text_loop lines' with
              | Raised str_e => Raised str_e
              | Returned entries =>
                  Returned
                    (mkFlake8Entry (nth 0 parts EmptyString) line_number
                       "warning"
                       (strip (String.concat ":" (skipn 2 parts)))
                     :: entries)
              end
          end
        else flake8_text_loop lines'
  end.

Section ExternalTool.

(** The subprocess for a path, and [json.loads] on a text. *)
Variable subprocess_run : string -> process_result.
Variable json_loads : string -> json_result.

(** The body of [run_external_tools] up to the issues it builds: what
    the tool yields for a path. *)
Definition flake8_tool (file_path : string) : tool_outcome :=
  match subprocess_run file_path with
  | ProcessFailed => ToolUnavailable
  | Completed returncode stdout =>
      if returncode =? 0 then ToolClean
      else
        match json_loads stdout with
        | JsonIssues decoded =>
            ToolEntries
              (map (fun issue =>
                      mkFlake8Entry (json_filename issue)
                        (json_line_number issue)
                        (if startswith_W (json_code issue)
                         then "warning" else "error")
                        (json_code issue ++ ": " ++ json_text issue)%string)
                 decoded)
        | JsonOther str_e => ToolRaised str_e
        | JsonDecodeError =>
            match flake8_text_loop (split_on "010"%char stdout) with
            | Returned entries => ToolEntries entries
            | Raised str_e => ToolRaised str_e
            end
        end
  end.

End ExternalTool.

(** A line of the default text output of flake8 for a file, a line
    number and the rest of the line. *)
Definition flake8_line (record : string * Z * string) : string :=
  let '(filename, line_number, rest) := record in
  (filename ++ ":" ++ str_int line_number ++ ":" ++ rest)%string.



(** The line has three fields or more and its second field is no int. *)
Definition undecodable_line (line : string) : bool :=
  negb (is_empty (strip line))
  && (3 <=? List.length (split_on ":"%char line))%nat
  && match py_int (nth 1 (split_on ":"%char line) EmptyString) with
     | None => true
     | Some _ => false
     end.

(** A process that printed two findings, and one whose findings are for
    a path with a drive letter. *)
Definition sample_process (file_path : string) : process_result :=
  Completed 1
    (String.concat newline
       (map flake8_line
          [("long.py", 2, "80: E501 line too long");
           ("long.py", 4, "1: W391 blank line at end of file")])).

Definition drive_process (file_path : string) : process_result :=
  Completed 1
    (String.concat (String backslash EmptyString) ["C:"; "src"; "long.py"]
     ++ ":2:80: E501 line too long")%string.

Definition no_json (text : string) : json_result := JsonDecodeError.


(** ** The detailed section of the text report *)

(** [c.upper()] on one character. *)
Definition upper_char (c : ascii) : ascii :=
  if is_ascii_lower c then ascii_of_nat (nat_of_ascii c - 32) else c.

(** [s.upper()]. *)
Fixpoint py_upper (s : string) : string :=
  match s with
  | EmptyString => EmptyString
  | String c s' => String (upper_char c) (py_upper s')
  end.

(** The loop of [print_report] that fills [issues_by_file], a
    [defaultdict(list)]: files in the order of their first issue, the
    issues of a file in the order of the report. *)
Definition group_by_file (issues : list CodeIssue)
  : list (string * list CodeIssue) :=
  fold_left
    (fun issues_by_file issue =>
       dict_set issues_by_file (file_path issue)
         (dict_get_default issues_by_file (file_path issue) [] ++ [issue]))
    issues [].

(** An issue put before the first issue of a sorted list that is not on
    an earlier line. *)
Fixpoint insert_by_line (issue : CodeIssue) (sorted : list CodeIssue)
  : list CodeIssue :=
  match sorted with
  | [] => [issue]
  | next :: sorted' =>
      if line_number issue <=? line_number next
      then issue :: next :: sorted'
      else next :: insert_by_line issue sorted'
  end.

(** [sorted(file_issues, key=lambda x: x.line_number)]: the issues by
    line number, those of one line in the order they had (the sort of
    Python is stable, which fixes its result). *)
Definition sorted_by_line (file_issues : list CodeIssue) : list CodeIssue :=
  fold_right insert_by_line [] file_issues.

Definition dashes : string := "----------------------------------------".

(** The one or two [print] calls for an issue. *)
Definition issue_lines (issue : CodeIssue) : list string :=
  ("  Line " ++ str_int (line_number issue) ++ ": ["
   ++ py_upper (severity issue) ++ "] " ++ message issue)%string
  :: match suggestion issue with
     | Some text =>
         if is_empty text then [] else [("    Suggestion: " ++ text)%string]
     | None => []
     end.

(** The arguments of the [print] calls of [print_report] from
    [if report.issues:] on, one string for each call. *)
Definition detailed_issues (report : QualityReport) : list string :=
  match issues report with
  | [] => []
  | _ :: _ =>
      [(newline ++ dashes)%string; "DETAILED ISSUES"%string; dashes]
      ++ flat_map
           (fun entry : string * list CodeIssue =>
              (newline ++ fst entry ++ ":")%string
              :: flat_map issue_lines (sorted_by_line (snd entry)))
           (group_by_file (issues report))
  end.

(** Three issues of two files, out of line order. *)
Definition mixed_issues : list CodeIssue :=
  [ mkCodeIssue "b.py" 7 "naming_convention" "info" "late" None;
    mkCodeIssue "a.py" 3 "line_too_long" "warning" "first" (Some "wrap");
    mkCodeIssue "b.py" 2 "syntax_error" "error" "early" (Some EmptyString) ].

(** [if issue.suggestion:] — a suggestion that is a string of at least
    one character. *)
Definition has_suggestion (issue : CodeIssue) : bool :=
  match suggestion issue with
  | Some text => negb (is_empty text)
  | None => false
  end.

(** ** The checker as [main] runs it

    [main] hands the checker a dictionary that it builds itself: the
    two keys it sets from the command line, and what the configuration
    file holds.  Such a dictionary is never empty, so [__init__] keeps
    it and [_get_default_config] supplies nothing: a key the file does
    not give is absent, and reading it raises [KeyError]. *)

(** [self.config] in a run of [main].  The values of the keys that the
    file gives are taken to have the types of [_get_default_config]. *)
Record config_dict : Type := mkConfigDict {
  given_max_line_length : Z;
  given_max_function_complexity : Z;
  given_max_class_complexity : option Z;
  given_ignore_patterns : option (list string);
  given_severity_weights : option (list (string * Z))
}.

(** The dictionary as a [Config], for the code that reads keys which
    are present; an absent key stands with a value that is not read. *)
Definition config_of (cfg : config_dict) : Config :=
  mkConfig (given_max_line_length cfg) (given_max_function_complexity cfg)
    (match given_max_class_complexity cfg with Some m => m | None => 0 end)
    (match given_severity_weights cfg with Some w => w | None => [] end).

(** What [json.load] gives for the configuration file: an exception,
    [None], an object, or a value of another type. *)
Inductive loaded_config : Type :=
| LoadRaises (str_e : string)
| LoadedNull
| LoadedObject (max_class_complexity : option Z)
    (ignore_patterns : option (list string))
    (severity_weights : option (list (string * Z)))
| LoadedOther.

(** The arguments of the command line, with the default [--format text]. *)
Record Namespace : Type := mkNamespace {
  args_project_path : string;
  args_max_line_length : Z;
  args_max_function_complexity : Z;
  args_config : option string
}.

(** How [main] ends: it returns a status, or the [TypeError] of an
    assignment to a key of something that is no dictionary leaves it. *)
Inductive main_result : Type :=
| Returns (status : Z)
| RaisesTypeError.

Module Cli.

Section CliRun.

Variable ast_parse : string -> parse_result.
Variable flake8 : string -> tool_outcome.
Variable path_str : string -> string -> string.
Variable walk_join : string -> string -> string.
(** What opening and reading the file of a path gives. *)
Variable open_file : string -> read_result.
Variable cfg : config_dict.

(** [_should_ignore_file(file_path)]: the key is read before the loop
    starts. *)
Definition _should_ignore_file (file_path : string) : outcome bool :=
  match given_ignore_patterns cfg with
  | Some ignore_patterns =>
      Returned (_should_ignore_file ignore_patterns file_path)
  | None => Raised "'ignore_patterns'"
  end.

(** The comprehension on the right of [dirs[:] =]: for each
    sub-directory, whether it is ignored. *)
Fixpoint ignored_dirs (root : string) (dirs : list string)
  : outcome (list bool) :=
  match dirs with
  | [] => Returned []
  | d :: dirs' =>
      match _should_ignore_file (path_str root d) with
      | Raised str_e => Raised str_e
      | Returned ignored =>
          match ignored_dirs root dirs' with
          | Raised str_e => Raised str_e
          | Returned later => Returned (ignored :: later)
          end
      end
  end.

(** The loop over [files] in one directory. *)
Fixpoint files_loop (root : string) (files : list string)
  : outcome (list string) :=
  match files with
  | [] => Returned []
  | file :: files' =>
      if endswith file ".py" then
        match _should_ignore_file (path_str root file) with
        | Raised str_e => Raised str_e
        | Returned ignored =>
            match files_loop root files' with
            | Raised str_e => Raised str_e
            | Returned found =>
                Returned
                  (if ignored then found else path_str root file :: found)
            end
        end
      else files_loop root files'
  end.

(** [find_python_files()] from the directory [root] on: in each
    directory the sub-directories are checked first, then the files,
    and then [os.walk] goes down into the sub-directories that are
    kept. *)
Fixpoint find_python_files (root : string) (tree : dir_tree)
  : outcome (list string) :=
  match tree with
  | Directory dirs files =>
      match ignored_dirs root (map fst dirs) with
      | Raised str_e => Raised str_e
      | Returned ignored =>
          match files_loop root files with
          | Raised str_e => Raised str_e
          | Returned found =>
              let below :=
                fix below (dirs : list (string * dir_tree))
                    (ignored : list bool) : outcome (list string) :=
                  match dirs, ignored with
                  | (d, subtree) :: dirs', skip :: ignored' =>
                      if skip then below dirs' ignored'
                      else
                        match find_python_files (walk_join root d) subtree
                        with
                        | Raised str_e => Raised str_e
                        | Returned inside =>
                            match below dirs' ignored' with
                            | Raised str_e => Raised str_e
                            | Returned later => Returned (inside ++ later)
                            end
                        end
                  | _, _ => Returned []
                  end in
              match below dirs ignored with
              | Raised str_e => Raised str_e
              | Returned later => Returned (found ++ later)
              end
          end
      end
  end.

(** One turn of the loop of [analyze_complexity]: the limit of a class
    is read after its complexity is computed. *)
Definition complexity_step (file : source_file) (node : ast)
  : outcome (list CodeIssue) :=
  match node with
  | ClassDef _ _ _ _ _ _ =>
      match given_max_class_complexity cfg with
      | Some _ => Returned (complexity_step (config_of cfg) file node)
      | None => Raised "'max_class_complexity'"
      end
  | _ => Returned (complexity_step (config_of cfg) file node)
  end.

(** The loop of [analyze_complexity]: the issues appended, and the
    exception that stopped the loop, if one did. *)
Fixpoint complexity_loop (file : source_file) (nodes : list ast)
  : list CodeIssue * option string :=
  match nodes with
  | [] => ([], None)
  | node :: nodes' =>
      match complexity_step file node with
      | Raised str_e => ([], Some str_e)
      | Returned found =>
          let (later, raised) := complexity_loop file nodes' in
          ((found ++ later)%list, raised)
      end
  end.

Definition complexity_analysis_error (file : source_file) (str_e : string)
  : CodeIssue :=
  mkCodeIssue (path file) 0 "complexity_analysis_error" "error"
    ("Failed to analyze complexity: " ++ str_e)%string None.

(** [analyze_complexity(file_path)]. *)
Definition analyze_complexity (file : source_file) : list CodeIssue :=
  match read_and_parse ast_parse file with
  | Returned tree =>
      let (found, raised) := complexity_loop file (walk tree) in
      match raised with
      | Some str_e => (found ++ [complexity_analysis_error file str_e])%list
      | None => found
      end
  | Raised str_e => [complexity_analysis_error file str_e]
  end.

(** [analyze_file(file_path)]: the issues of the file and [self.metrics]
    after the call. *)
Definition analyze_file (self_metrics : list (string * CodeMetrics))
  (file : source_file)
  : outcome (list CodeIssue * list (string * CodeMetrics)) :=
  let issues :=
    (analyze_syntax ast_parse file
     ++ check_line_length (config_of cfg) file
     ++ check_naming_conventions ast_parse file
     ++ analyze_complexity file)%list in
  match run_external_tools flake8 file with
  | Raised msg => Raised msg
  | Returned external =>
      Returned ((issues ++ external)%list,
                dict_set self_metrics (path file)
                  (calculate_metrics ast_parse file))
  end.

(** [_calculate_quality_score(issues, metrics)]: the weights are read
    in the first turn of the loop over the issues. *)
Definition _calculate_quality_score (issues : list CodeIssue)
  (metrics : CodeMetrics) : outcome pynum :=
  match issues with
  | [] => Returned (PFloat 100)
  | _ :: _ =>
      match given_severity_weights cfg with
      | Some _ =>
          Returned (_calculate_quality_score (config_of cfg) issues metrics)
      | None => Raised "'severity_weights'"
      end
  end.

(** The first loop of [run_analysis]. *)
Fixpoint analysis_loop (python_files : list string)
  (all_issues : list CodeIssue) (total_issues : Z)
  (self_metrics : list (string * CodeMetrics))
  : outcome (list CodeIssue * Z * list (string * CodeMetrics)) :=
  match python_files with
  | [] => Returned (all_issues, total_issues, self_metrics)
  | file_path :: python_files' =>
      match analyze_file self_metrics
              (mkSourceFile file_path (open_file file_path)) with
      | Raised msg => Raised msg
      | Returned (file_issues, self_metrics') =>
          analysis_loop python_files' (all_issues ++ file_issues)%list
            (total_issues + Z.of_nat (List.length file_issues)) self_metrics'
      end
  end.

(** [run_analysis()] of a checker that has analysed nothing yet, on
    what [os.walk] finds at [project], which is [str(self.project_path)]. *)
Definition run_analysis (project : string) (tree : dir_tree)
  : outcome QualityReport :=
  match find_python_files project tree with
  | Raised str_e => Raised str_e
  | Returned python_files =>
      match analysis_loop python_files [] 0 [] with
      | Raised msg => Raised msg
      | Returned (all_issues, total_issues, self_metrics) =>
          let total_metrics := aggregate_metrics self_metrics in
          match _calculate_quality_score all_issues total_metrics with
          | Raised str_e => Raised str_e
          | Returned score =>
              Returned
                (mkQualityReport project
                   (Z.of_nat (List.length python_files)) total_issues
                   total_metrics all_issues
                   (mkSummary (Z.of_nat (List.length python_files))
                      total_issues (count_by severity all_issues)
                      (count_by issue_type all_issues) score))
          end
      end
  end.

End CliRun.

Section CliMain.

Variable ast_parse : string -> parse_result.
Variable flake8 : string -> tool_outcome.
Variable path_str : string -> string -> string.
Variable walk_join : string -> string -> string.
Variable open_file : string -> read_result.
(** [json.load] on the file of a path, [str(Path(p))] and what [os.walk]
    finds at a path (an empty directory where there is none). *)
Variable json_load : string -> loaded_config.
Variable str_Path : string -> string.
Variable os_walk : string -> dir_tree.

(** The [try] block of [main] and its [except] clause, for the
    dictionary that [main] has built.  The text report is printed
    between the analysis and the [return]; with no issue nothing in
    [print_report] raises, with an issue the status is 1 either way. *)
Definition run_checker (args : Namespace) (cfg : config_dict)
  : main_result :=
  match run_analysis ast_parse flake8 path_str walk_join open_file cfg
          (str_Path (args_project_path args))
          (os_walk (args_project_path args)) with
  | Raised _ => Returns 1
  | Returned report =>
      if total_issues report =? 0 then Returns 0 else Returns 1
  end.

(** [main()]. *)
Definition main (args : Namespace) : main_result :=
  let loaded :=
    match args_config args with
    | None => LoadedNull
    | Some config_path =>
        if is_empty config_path then LoadedNull else json_load config_path
    end in
  match loaded with
  | LoadRaises _ => Returns 1
  | LoadedOther => RaisesTypeError
  | LoadedNull =>
      run_checker args
        (mkConfigDict (args_max_line_length args)
           (args_max_function_complexity args) None None None)
  | LoadedObject max_class_complexity ignore_patterns severity_weights =>
      run_checker args
        (mkConfigDict (args_max_line_length args)
           (args_max_function_complexity args) max_class_complexity
           ignore_patterns severity_weights)
  end.

End CliMain.

End Cli.

(** A directory with no sub-directory and no entry whose name ends in
    [.py]. *)
Definition nothing_to_check (tree : dir_tree) : bool :=
  match tree with
  | Directory dirs files =>
      match dirs with [] => true | _ :: _ => false end
      && forallb (fun file => negb (endswith file ".py")) files
  end.

(** A command line with no configuration file, and one with a file. *)
Definition plain_args : Namespace := mkNamespace "project" 79 10 None.

Definition config_args : Namespace :=
  mkNamespace "project" 79 10 (Some "quality.json").

(** A configuration file with the three keys that [main] does not set. *)
Definition full_json (config_path : string) : loaded_config :=
  LoadedObject (Some 20) (Some default_ignore_patterns)
    (Some [("error", 3); ("warning", 2); ("info", 1)]).

(** A file system where every python file of the sample project reads
    as the lines of [plain_file]. *)
Definition plain_open (file_path : string) : read_result :=
  contents plain_file.

Definition sample_walk (project : string) : dir_tree := sample_project.

Definition same_path (p : string) : string := p.

(** The part of the dictionary that the analysis of a file reads. *)
Definition same_limits (cfg cfg' : config_dict) : Prop :=
  given_max_line_length cfg = given_max_line_length cfg'
  /\ given_max_function_complexity cfg = given_max_function_complexity cfg'
  /\ given_max_class_complexity cfg = given_max_class_complexity cfg'.

(** The file of a path, as the checker reads it. *)
Definition file_at (open_file : string -> read_result) (file_path : string)
  : source_file :=
  mkSourceFile file_path (open_file file_path).

(** [analyze_file] returns for the file, and returns no issue. *)
Definition clean_file (ast_parse : string -> parse_result)
  (flake8 : string -> tool_outcome) (config : Config) (file : source_file)
  : bool :=
  negb (tool_raises flake8 file)
  && match issues_of_file ast_parse flake8 config file with
     | [] => true
     | _ :: _ => false
     end.

(** A configuration file without [severity_weights]. *)
Definition no_weights_json (config_path : string) : loaded_config :=
  LoadedObject (Some 20) (Some default_ignore_patterns) None.

(** A file system where every file reads as the lines of
    [long_line_file]. *)
Definition long_open (file_path : string) : read_result :=
  contents long_line_file.

(** ** Names as the naming check sees them *)








(** A report with the three issues of [mixed_issues]. *)
Definition mixed_report : QualityReport :=
  mkQualityReport "demo" 2 3 zero_metrics mixed_issues
    (mkSummary 2 3 [] [] (PFloat 90)).

(** ** An [async def] inside an ordinary function *)

(** [def outer():] whose body is [async def inner():] with an [if]
    inside, and [def outer(): pass]. *)
Definition nested_async_def : ast :=
  AsyncFunctionDef "inner" 2 leaf [If (load "x" 3) [leaf] []] [] None.

Definition function_with_async_def : ast :=
  FunctionDef "outer" 1 leaf [nested_async_def] [] None.

Definition function_without_async_def : ast :=
  FunctionDef "outer" 1 leaf [leaf] [] None.

Definition nested_async_lines : list string :=
  [ ("def outer():" ++ newline)%string;
    ("    async def inner():" ++ newline)%string;
    ("        if x:" ++ newline)%string;
    ("            pass" ++ newline)%string ].

Definition plain_outer_lines : list string :=
  [ ("def outer():" ++ newline)%string;
    ("    pass" ++ newline)%string ].

Definition nested_async_file : source_file :=
  mkSourceFile "nested.py" (ReadOk nested_async_lines).

Definition plain_outer_file : source_file :=
  mkSourceFile "outer.py" (ReadOk plain_outer_lines).

(** The parser of the samples, with the texts of these two files. *)
Definition nested_async_parse (text : string) : parse_result :=
  if String.eqb text (join_lines nested_async_lines)
  then Parsed (Module [function_with_async_def])
  else if String.eqb text (join_lines plain_outer_lines)
  then Parsed (Module [function_without_async_def])
  else sample_parse text.

(** * Properties *)

(** ** The model on small inputs *)

Example round2_values :
  PyNum.round2 (PFloat 2.675) = PFloat 2.67
  /\ PyNum.round2 (PFloat 74.126) = PFloat 74.13
  /\ PyNum.round2 (PFloat 0.125) = PFloat 0.12
  /\ PyNum.round2 (PFloat (-0.001)) = PFloat (-0)
  /\ PyNum.round2 (PInt 0) = PInt 0.
Proof. repeat split; vm_compute; reflexivity. Qed.

Example max_min_keep_the_first :
  PyNum.max (PInt 0) (PFloat 0) = PInt 0
  /\ PyNum.max (PInt 0) (PFloat nan) = PInt 0
  /\ PyNum.min (PInt 20) (PFloat 20) = PInt 20
  /\ PyNum.min (PFloat 6) (PInt 20) = PFloat 6.
Proof. repeat split; vm_compute; reflexivity. Qed.

(** [ast.walk] goes level by level: the function, its arguments and its
    loop, then what these hold. *)
Example walk_is_breadth_first :
  walk function_with_async_for
  = [ function_with_async_for;
      Other [leaf];
      AsyncFor (Name "item" Store 2) (load "queue" 2) [leaf] [];
      leaf;
      Name "item" Store 2; load "queue" 2; leaf;
      Store; leaf ].
Proof. reflexivity. Qed.

Example metrics_of_plain_file :
  calculate_metrics sample_parse plain_file
  = mkCodeMetrics 2 0 0 1 0 (PInt 1) (PFloat 149.14000000000001).
Proof. vm_compute. reflexivity. Qed.

Example metrics_of_long_line_file :
  calculate_metrics sample_parse long_line_file
  = mkCodeMetrics 2 1 1 0 0 (PInt 0) (PFloat 170.54).
Proof. vm_compute. reflexivity. Qed.

Example strip_examples :
  rstrip ("ab  " ++ newline) = "ab"%string
  /\ rstrip_newline ("ab  " ++ newline) = "ab  "%string
  /\ strip ("  # note" ++ newline) = "# note"%string
  /\ str_int 86 = "86"%string.
Proof. repeat split; reflexivity. Qed.

(** ** The syntax tree and [ast.walk] *)

Ltac list_sum_norm :=
  repeat first
    [ rewrite map_app
    | rewrite list_sum_app
    | rewrite map_cons
    | progress change (@map ast nat size []) with (@nil nat)
    | progress change (list_sum []) with 0%nat
    | match goal with
      | |- context [list_sum (?x :: ?l)] =>
          change (list_sum (x :: l)) with (x + list_sum l)%nat
      end ].

Lemma size_children (node : ast) :
  size node = S (list_sum (map size (iter_child_nodes node))).
Proof.
  destruct node; cbn [size iter_child_nodes]; f_equal;
    try match goal with o : option ast |- _ => destruct o end;
    cbn [opt_list]; list_sum_norm; lia.
Qed.

Lemma sizes_cons (node : ast) (rest : list ast) :
  list_sum (map size (node :: rest))
  = (size node + list_sum (map size rest))%nat.
Proof. reflexivity. Qed.

Lemma size_positive (node : ast) : (0 < size node)%nat.
Proof. rewrite size_children; lia. Qed.

Lemma subtree_nodes_children (node : ast) :
  subtree_nodes node
  = node :: flat_map subtree_nodes (iter_child_nodes node).
Proof.
  destruct node; cbn [subtree_nodes iter_child_nodes]; f_equal;
    repeat (rewrite ?flat_map_app; cbn [flat_map opt_list]);
    try match goal with o : option ast |- _ => destruct o end;
    cbn [flat_map opt_list]; rewrite ?app_nil_r; reflexivity.
Qed.

(** With fuel for every node of the queue, the loop of [walk] yields
    the nodes of the queued trees, each once. *)
Lemma walk_loop_nodes (fuel : nat) :
  forall todo : list ast,
    (list_sum (map size todo) <= fuel)%nat ->
    Permutation (walk_loop fuel todo) (flat_map subtree_nodes todo).
Proof.
  induction fuel as [|fuel IH]; intros todo Hfuel.
  - destruct todo as [|node rest]; [constructor|].
    rewrite sizes_cons in Hfuel. pose proof (size_positive node). lia.
  - destruct todo as [|node rest]; [constructor|].
    cbn [walk_loop flat_map]. rewrite subtree_nodes_children.
    cbn [app]. constructor.
    rewrite IH.
    + rewrite flat_map_app. apply Permutation_app_comm.
    + rewrite sizes_cons, size_children in Hfuel.
      rewrite map_app, list_sum_app. lia.
Qed.

(** [ast.walk] terminates with every node of the tree, each once. *)
Lemma walk_nodes (node : ast) : Permutation (walk node) (subtree_nodes node).
Proof.
  unfold walk. rewrite walk_loop_nodes.
  - cbn [flat_map]. rewrite app_nil_r. reflexivity.
  - rewrite sizes_cons. cbn. lia.
Qed.

(** More fuel than the nodes need changes nothing. *)
Lemma walk_loop_fuel (fuel : nat) :
  forall (todo : list ast) (extra : nat),
    (list_sum (map size todo) <= fuel)%nat ->
    walk_loop (fuel + extra) todo = walk_loop fuel todo.
Proof.
  induction fuel as [|fuel IH]; intros todo extra Hfuel.
  - destruct todo as [|node rest].
    + destruct extra; reflexivity.
    + rewrite sizes_cons in Hfuel. pose proof (size_positive node). lia.
  - destruct todo as [|node rest]; [reflexivity|].
    cbn [Nat.add walk_loop]. f_equal. apply IH.
    rewrite sizes_cons, size_children in Hfuel.
    rewrite map_app, list_sum_app. lia.
Qed.

(** ** Complexity *)

Lemma fold_left_add {A : Type} (f : A -> Z) (l : list A) :
  forall init : Z,
    fold_left (fun acc a => acc + f a) l init = init + sum_Z (map f l).
Proof.
  induction l as [|a l IH]; intros init; cbn [fold_left map sum_Z fold_right].
  - lia.
  - rewrite IH. unfold sum_Z. lia.
Qed.

Lemma sum_Z_app (l1 l2 : list Z) : sum_Z (l1 ++ l2) = sum_Z l1 + sum_Z l2.
Proof.
  unfold sum_Z. induction l1 as [|z l1 IH]; cbn [app fold_right]; lia.
Qed.

Lemma sum_Z_cons (z : Z) (l : list Z) : sum_Z (z :: l) = z + sum_Z l.
Proof. reflexivity. Qed.

Lemma sum_Z_permutation (l1 l2 : list Z) :
  Permutation l1 l2 -> sum_Z l1 = sum_Z l2.
Proof.
  induction 1; rewrite ?sum_Z_cons; lia.
Qed.

Lemma count_cons {A : Type} (p : A -> bool) (a : A) (l : list A) :
  count p (a :: l) = (if p a then 1 else 0) + count p l.
Proof.
  unfold count. cbn [filter]. destruct (p a); cbn [List.length]; lia.
Qed.

(** The increments of the loop of [_calculate_complexity], sorted by
    the class of node they come from. *)
Lemma increments_by_class (nodes : list ast) :
  sum_Z (map complexity_increment nodes) = construct_count nodes.
Proof.
  unfold construct_count.
  induction nodes as [|node nodes IH]; [reflexivity|].
  cbn [map filter]. rewrite sum_Z_cons, !count_cons, IH.
  destruct node; cbn [complexity_increment is_If is_While is_For is_AsyncFor
    is_ExceptHandler is_BoolOp map operand_count];
    rewrite ?sum_Z_cons; lia.
Qed.

(** [_calculate_complexity] is one more than the increments of the
    nodes of the tree. *)
Lemma complexity_subtree (node : ast) :
  _calculate_complexity node
  = 1 + sum_Z (map complexity_increment (subtree_nodes node)).
Proof.
  unfold _calculate_complexity. rewrite fold_left_add. f_equal.
  apply sum_Z_permutation, Permutation_map, walk_nodes.
Qed.

Lemma increments_forest (nodes : list ast) :
  sum_Z (map complexity_increment (flat_map subtree_nodes nodes))
  = sum_Z (map (fun child => _calculate_complexity child - 1) nodes).
Proof.
  induction nodes as [|node nodes IH]; [reflexivity|].
  cbn [flat_map map]. rewrite map_app, sum_Z_app, sum_Z_cons, IH.
  rewrite complexity_subtree. lia.
Qed.

(** The complexity of a node from the complexities of its children:
    each child brings its own score less the base value. *)
Lemma complexity_children (node : ast) :
  _calculate_complexity node
  = 1 + complexity_increment node
    + sum_Z (map (fun child => _calculate_complexity child - 1)
               (iter_child_nodes node)).
Proof.
  rewrite complexity_subtree, subtree_nodes_children.
  cbn [map]. rewrite sum_Z_cons, increments_forest. lia.
Qed.

(** Claim C5.  For every function definition (and any other node the
    function is given), [_calculate_complexity] is the base value 1 plus
    one for each [if], each loop ([while], [for], [async for]) and each
    [except] clause among the nodes below it, plus the operands less one
    of each boolean chain; with none of these it is 1, with two [if]
    statements, one [while] loop and nothing else it is 4. *)
Theorem function_complexity_counts :
  forall node : ast,
    _calculate_complexity node
    = 1 + count is_If (subtree_nodes node)
      + count is_While (subtree_nodes node)
      + count is_For (subtree_nodes node)
      + count is_AsyncFor (subtree_nodes node)
      + count is_ExceptHandler (subtree_nodes node)
      + sum_Z (map (fun chain => operand_count chain - 1)
                 (filter is_BoolOp (subtree_nodes node)))
    /\ (count is_If (subtree_nodes node) = 0 ->
        count is_While (subtree_nodes node) = 0 ->
        count is_For (subtree_nodes node) = 0 ->
        count is_AsyncFor (subtree_nodes node) = 0 ->
        count is_ExceptHandler (subtree_nodes node) = 0 ->
        count is_BoolOp (subtree_nodes node) = 0 ->
        _calculate_complexity node = 1)
    /\ (count is_If (subtree_nodes node) = 2 ->
        count is_While (subtree_nodes node) = 1 ->
        count is_For (subtree_nodes node) = 0 ->
        count is_AsyncFor (subtree_nodes node) = 0 ->
        count is_ExceptHandler (subtree_nodes node) = 0 ->
        count is_BoolOp (subtree_nodes node) = 0 ->
        _calculate_complexity node = 4).
Proof.
  intros node.
  assert (Hsum : _calculate_complexity node
                 = 1 + construct_count (subtree_nodes node)).
  { rewrite complexity_subtree, increments_by_class. reflexivity. }
  assert (Hchains : count is_BoolOp (subtree_nodes node) = 0 ->
                    filter is_BoolOp (subtree_nodes node) = []).
  { unfold count. intros H.
    destruct (filter is_BoolOp (subtree_nodes node)); [reflexivity|].
    cbn [List.length] in H. lia. }
  unfold construct_count in Hsum.
  split; [lia|]. split; intros Hif Hwhile Hfor Hasync Hexcept Hbool;
    rewrite Hsum, (Hchains Hbool); cbn [map sum_Z fold_right]; lia.
Qed.

Lemma function_complexity_counts_witness :
  _calculate_complexity plain_function = 1
  /\ _calculate_complexity two_ifs_one_while = 4.
Proof.
  split.
  - apply (proj1 (proj2 (function_complexity_counts plain_function)));
      reflexivity.
  - apply (proj2 (proj2 (function_complexity_counts two_ifs_one_while)));
      reflexivity.
Defined.

(** Claim C3, as stated, fails: the outer function of the sample has no
    branch, loop, handler or boolean chain of its own, so its own control
    flow gives 1, and [_calculate_complexity] gives 3, the [if] and the
    [for] of the nested function included. *)
Lemma nested_function_counted_in_outer :
  spec_function_complexity outer_function = 1
  /\ _calculate_complexity outer_function = 3
  /\ _calculate_complexity inner_function = 3
  /\ _calculate_complexity outer_function
     <> spec_function_complexity outer_function.
Proof. repeat split; try reflexivity. discriminate. Qed.

(** Claim C3, amended.  [_calculate_complexity] of a function counts
    the constructs of its whole subtree, the bodies of nested function
    definitions included: a function nested in the body adds its own
    score less the base value to the score of the outer function, and
    has that score of its own as well. *)
Theorem nested_function_counts_in_both :
  forall (name : string) (lineno : Z) (args : ast)
         (before : list ast) (inner : ast) (after : list ast)
         (decorator_list : list ast) (returns : option ast),
    _calculate_complexity
      (FunctionDef name lineno args (before ++ inner :: after)
         decorator_list returns)
    = _calculate_complexity
        (FunctionDef name lineno args (before ++ after) decorator_list
           returns)
      + (_calculate_complexity inner - 1)
    /\ _calculate_complexity inner
       = 1 + construct_count (subtree_nodes inner)
    /\ _calculate_complexity
         (FunctionDef name lineno args (before ++ inner :: after)
            decorator_list returns)
       = 1 + construct_count
               (subtree_nodes
                  (FunctionDef name lineno args (before ++ inner :: after)
                     decorator_list returns)).
Proof.
  intros. split; [|split].
  - rewrite !(complexity_children (FunctionDef _ _ _ _ _ _)).
    cbn [iter_child_nodes complexity_increment map].
    rewrite !map_app, !sum_Z_cons, !sum_Z_app. cbn [map].
    rewrite sum_Z_cons. lia.
  - rewrite complexity_subtree, increments_by_class. reflexivity.
  - rewrite complexity_subtree, increments_by_class. reflexivity.
Qed.

Lemma fold_left_add_if {A : Type} (p : A -> bool) (f : A -> Z) (l : list A) :
  forall init : Z,
    fold_left (fun acc a => if p a then acc + f a else acc) l init
    = init + sum_Z (map f (filter p l)).
Proof.
  induction l as [|a l IH]; intros init; cbn [fold_left filter].
  - cbn. lia.
  - rewrite IH. destruct (p a); cbn [map]; rewrite ?sum_Z_cons; lia.
Qed.

Lemma class_complexity_sum (node : ast) :
  _calculate_class_complexity node
  = sum_Z (map _calculate_complexity (filter is_FunctionDef (class_body node))).
Proof.
  unfold _calculate_class_complexity. rewrite fold_left_add_if. lia.
Qed.



(** ** Maintainability index and score *)




(** Claim C1, as stated, fails: with no issue, complexity 10 and
    maintainability index 0 the penalty of the metrics is 20 + 50 and the
    formula gives 30, while [_calculate_quality_score] returns 100.0. *)
Lemma empty_issue_list_scores_100 :
  _calculate_quality_score _get_default_config [] poor_metrics = PFloat 100
  /\ spec_quality_score _get_default_config [] poor_metrics = PFloat 30
  /\ _calculate_quality_score _get_default_config [] poor_metrics
     <> spec_quality_score _get_default_config [] poor_metrics.
Proof.
  split; [reflexivity|]. split; [vm_compute; reflexivity|].
  vm_compute. intros H. discriminate H.
Qed.

(** Claim C1, amended.  For every scope with at least one issue the
    score is [max(0, 100 - penalty)] rounded to two places, the penalty
    being the sum over the issues of the configured weight of their
    severity (1 for a severity with no weight) plus [min(2 * complexity,
    20)] plus [max(0, 50 - maintainability_index)]; for an empty issue
    list the score is 100.0 whatever the metrics are. *)
Theorem quality_score_formula :
  forall (config : Config) (issues : list CodeIssue) (metrics : CodeMetrics),
    (issues <> [] ->
     _calculate_quality_score config issues metrics
     = PyNum.round2
         (PyNum.max (PInt 0)
            (PInt 100
             - (PInt (sum_Z (map (fun issue =>
                                    dict_get_default (severity_weights config)
                                      (severity issue) 1) issues))
                + (PyNum.min (complexity metrics * PInt 2) (PInt 20)
                   + PyNum.max (PInt 0)
                       (PInt 50 - maintainability_index metrics))))%py))
    /\ (issues = [] ->
        _calculate_quality_score config issues metrics = PFloat 100).
Proof.
  intros config issues metrics. split.
  - intros Hsome. destruct issues as [|issue issues]; [congruence|].
    unfold _calculate_quality_score.
    rewrite (fold_left_add
               (fun issue => dict_get_default (severity_weights config)
                               (severity issue) 1)).
    rewrite Z.add_0_l. reflexivity.
  - intros ->. reflexivity.
Qed.

Lemma quality_score_formula_witness :
  _calculate_quality_score _get_default_config
    [sample_warning; sample_notice] poor_metrics = PFloat 27
  /\ _calculate_quality_score _get_default_config [] poor_metrics
     = PFloat 100.
Proof.
  split.
  - rewrite (proj1 (quality_score_formula _get_default_config
                      [sample_warning; sample_notice] poor_metrics)).
    + vm_compute. reflexivity.
    + discriminate.
  - apply (proj2 (quality_score_formula _get_default_config []
                    poor_metrics)). reflexivity.
Defined.

(** ** The run over the files *)

Section Run.

Variable ast_parse : string -> parse_result.
Variable flake8 : string -> tool_outcome.
Variable config : Config.

Local Notation analyze_file' := (analyze_file ast_parse flake8 config).
Local Notation issues_of_file' := (issues_of_file ast_parse flake8 config).
Local Notation analysis_loop' := (analysis_loop ast_parse flake8 config).
Local Notation run_analysis' := (run_analysis ast_parse flake8 config).

Lemma analyze_file_returned (d : list (string * CodeMetrics))
  (file : source_file) (found : list CodeIssue)
  (d' : list (string * CodeMetrics)) :
  analyze_file' d file = Returned (found, d') ->
  found = issues_of_file' file
  /\ d' = dict_set d (path file) (calculate_metrics ast_parse file)
  /\ tool_raises flake8 file = false.
Proof.
  unfold issues_of_file, analyze_file, tool_raises, run_external_tools.
  destruct (flake8 (path file)); intros H; inversion H; auto.
Qed.

Lemma analyze_file_total (d : list (string * CodeMetrics))
  (file : source_file) :
  tool_raises flake8 file = false ->
  analyze_file' d file
  = Returned (issues_of_file' file,
              dict_set d (path file) (calculate_metrics ast_parse file)).
Proof.
  unfold issues_of_file, analyze_file, tool_raises, run_external_tools.
  destruct (flake8 (path file)); intros H; try discriminate; reflexivity.
Qed.

(** The sum of the lengths of the issue lists of the files. *)
Local Notation issue_counts files :=
  (sum_Z (map (fun file => Z.of_nat (List.length (issues_of_file' file)))
            files)).

Local Notation stored files d :=
  (fold_left
     (fun d file => dict_set d (path file) (calculate_metrics ast_parse file))
     files d).

Lemma analysis_loop_returned (files : list source_file) :
  forall all_issues total d all_issues' total' d',
    analysis_loop' files all_issues total d
    = Returned (all_issues', total', d') ->
    all_issues' = all_issues ++ flat_map issues_of_file' files
    /\ total' = total + issue_counts files
    /\ d' = stored files d
    /\ Forall (fun file => tool_raises flake8 file = false) files.
Proof.
  induction files as [|file files IH]; intros all_issues total d
    all_issues' total' d' Hloop; cbn [analysis_loop] in Hloop.
  - inversion Hloop; subst. cbn. rewrite app_nil_r.
    repeat split; try lia. constructor.
  - destruct (analyze_file' d file) as [[found d1]|msg] eqn:Hfile;
      [|discriminate].
    apply analyze_file_returned in Hfile. destruct Hfile as (-> & -> & Htool).
    apply IH in Hloop. destruct Hloop as (-> & -> & -> & Hall).
    cbn [flat_map map fold_left]. rewrite sum_Z_cons, app_assoc.
    repeat split; try lia. constructor; assumption.
Qed.

Lemma analysis_loop_total (files : list source_file) :
  forall all_issues total d,
    Forall (fun file => tool_raises flake8 file = false) files ->
    analysis_loop' files all_issues total d
    = Returned (all_issues ++ flat_map issues_of_file' files,
                total + issue_counts files, stored files d).
Proof.
  induction files as [|file files IH]; intros all_issues total d Hall;
    cbn [analysis_loop].
  - cbn. rewrite app_nil_r, Z.add_0_r. reflexivity.
  - inversion Hall as [|? ? Htool Hrest]; subst.
    rewrite (analyze_file_total d file Htool), IH by assumption.
    cbn [flat_map map fold_left].
    rewrite sum_Z_cons, app_assoc, Z.add_assoc. reflexivity.
Qed.

(** The run returns a report exactly when the tool's output raises on
    none of the files. *)
Lemma run_analysis_returns (project : string) (files : list source_file)
  (d : list (string * CodeMetrics)) :
  (exists report, run_analysis' project files d = Returned report)
  <-> Forall (fun file => tool_raises flake8 file = false) files.
Proof.
  unfold run_analysis. split.
  - intros [report Hrun].
    destruct (analysis_loop' files [] 0 d) as [[[all_issues total] d']|]
      eqn:Hloop; [|discriminate].
    apply analysis_loop_returned in Hloop. tauto.
  - intros Hall. rewrite (analysis_loop_total files [] 0 d Hall).
    eexists. reflexivity.
Qed.

Lemma run_analysis_issues (project : string) (files : list source_file)
  (d : list (string * CodeMetrics)) (report : QualityReport) :
  run_analysis' project files d = Returned report ->
  issues report = flat_map issues_of_file' files
  /\ total_issues report = issue_counts files
  /\ summary_total_issues (summary report) = issue_counts files
  /\ metrics report = aggregate_metrics (stored files d)
  /\ quality_score (summary report)
     = _calculate_quality_score config (issues report) (metrics report).
Proof.
  unfold run_analysis. intros Hrun.
  destruct (analysis_loop' files [] 0 d) as [[[all_issues total] d']|]
    eqn:Hloop; [|discriminate].
  apply analysis_loop_returned in Hloop. destruct Hloop as (-> & -> & -> & _).
  inversion Hrun; subst. cbn. repeat split.
Qed.

Lemma flat_map_length_sum {A B : Type} (f : A -> list B) (l : list A) :
  Z.of_nat (List.length (flat_map f l))
  = sum_Z (map (fun a => Z.of_nat (List.length (f a))) l).
Proof.
  induction l as [|a l IH]; [reflexivity|].
  cbn [flat_map map]. rewrite length_app, sum_Z_cons. lia.
Qed.

Lemma issue_counts_permutation (files files' : list source_file) :
  Permutation files files' -> issue_counts files = issue_counts files'.
Proof.
  intros Hperm. apply sum_Z_permutation, Permutation_map, Hperm.
Qed.

Lemma issue_counts_concat (parts : list (list source_file)) :
  issue_counts (List.concat parts)
  = sum_Z (map (fun part => issue_counts part) parts).
Proof.
  induction parts as [|part parts IH]; [reflexivity|].
  cbn [List.concat map].
  rewrite map_app, sum_Z_app, sum_Z_cons, IH. reflexivity.
Qed.

Lemma reports_of_parts (project : string) (d : list (string * CodeMetrics))
  (parts : list (list source_file)) :
  Forall (fun file => tool_raises flake8 file = false) (List.concat parts) ->
  exists reports : list QualityReport,
    Forall2 (fun part report => run_analysis' project part d = Returned report)
      parts reports
    /\ sum_Z (map total_issues reports) = issue_counts (List.concat parts).
Proof.
  induction parts as [|part parts IH]; cbn [List.concat]; intros Hall.
  - exists []. split; [constructor | reflexivity].
  - apply Forall_app in Hall. destruct Hall as [Hpart Hparts].
    destruct (IH Hparts) as (reports & Hreports & Hsum).
    destruct (proj2 (run_analysis_returns project part d) Hpart)
      as [report Hreport].
    exists (report :: reports). split; [constructor; assumption|].
    cbn [map]. rewrite sum_Z_cons, Hsum, map_app, sum_Z_app.
    apply run_analysis_issues in Hreport. destruct Hreport as (_ & -> & _).
    reflexivity.
Qed.

End Run.

(** Claim C7.  For every run that returns a report, over any list of
    files, [total_issues] is the length of the issue list and the sum
    over the files of the lengths of their issue lists (the summary holds
    the same number); and for every way of splitting the same files into
    parts that are analysed in runs of their own, each of these runs
    returns a report and the sum of their totals is the total of the
    whole run. *)
Theorem total_issues_is_sum :
  forall (ast_parse : string -> parse_result) (flake8 : string -> tool_outcome)
         (config : Config) (project : string) (files : list source_file)
         (d : list (string * CodeMetrics)) (report : QualityReport),
    run_analysis ast_parse flake8 config project files d = Returned report ->
    total_issues report = Z.of_nat (List.length (issues report))
    /\ total_issues report
       = sum_Z (map (fun file =>
                       Z.of_nat
                         (List.length
                            (issues_of_file ast_parse flake8 config file)))
                  files)
    /\ summary_total_issues (summary report) = total_issues report
    /\ (forall parts : list (list source_file),
          Permutation files (List.concat parts) ->
          exists reports : list QualityReport,
            Forall2
              (fun part part_report =>
                 run_analysis ast_parse flake8 config project part d
                 = Returned part_report)
              parts reports
            /\ total_issues report = sum_Z (map total_issues reports)).
Proof.
  intros ast_parse flake8 config project files d report Hrun.
  pose proof (run_analysis_issues _ _ _ _ _ _ _ Hrun)
    as (Hissues & Htotal & Hsummary & _).
  split; [|split; [|split]].
  - rewrite Htotal, Hissues. symmetry. apply flat_map_length_sum.
  - exact Htotal.
  - congruence.
  - intros parts Hperm.
    assert (Hall : Forall (fun file => tool_raises flake8 file = false)
                     (List.concat parts)).
    { eapply Permutation_Forall; [exact Hperm|].
      apply (run_analysis_returns ast_parse flake8 config project files d).
      exists report. exact Hrun. }
    destruct (reports_of_parts ast_parse flake8 config project d parts Hall)
      as (reports & Hreports & Hsum).
    exists reports. split; [exact Hreports|].
    rewrite Hsum, Htotal.
    apply (issue_counts_permutation ast_parse flake8 config), Hperm.
Qed.

Lemma total_issues_is_sum_witness :
  exists report : QualityReport,
    run_analysis sample_parse no_flake8 _get_default_config "demo"
      [plain_file; broken_file; long_line_file] [] = Returned report
    /\ total_issues report = 4
    /\ total_issues report = Z.of_nat (List.length (issues report)).
Proof.
  destruct (run_analysis sample_parse no_flake8 _get_default_config "demo"
              [plain_file; broken_file; long_line_file] [])
    as [report|msg] eqn:Hrun; [|vm_compute in Hrun; discriminate Hrun].
  exists report. split; [reflexivity|].
  destruct (total_issues_is_sum _ _ _ _ _ _ _ Hrun) as (Hlength & Hsum & _).
  split; [|exact Hlength].
  rewrite Hsum. vm_compute. reflexivity.
Defined.

(** ** The aggregated metrics *)

Lemma dict_set_fresh {V : Type} (d : list (string * V)) (k : string) (v : V) :
  ~ In k (map fst d) -> dict_set d k v = d ++ [(k, v)].
Proof.
  induction d as [|[k' v'] d IH]; cbn [map fst In dict_set app]; intros Hfresh.
  - reflexivity.
  - destruct (String.eqb_spec k' k) as [->|Hneq]; [tauto|].
    rewrite IH by tauto. reflexivity.
Qed.

(** On a checker that holds no metrics yet, files with distinct paths
    leave one entry each, in their order. *)
Lemma stored_metrics_fresh (ast_parse : string -> parse_result)
  (files : list source_file) :
  forall d : list (string * CodeMetrics),
    NoDup (map path files) ->
    (forall file, In file files -> ~ In (path file) (map fst d)) ->
    fold_left
      (fun d file => dict_set d (path file) (calculate_metrics ast_parse file))
      files d
    = d ++ map (fun file => (path file, calculate_metrics ast_parse file))
             files.
Proof.
  induction files as [|file files IH]; intros d Hnodup Hfresh;
    cbn [fold_left map].
  - rewrite app_nil_r. reflexivity.
  - cbn [map] in Hnodup. apply NoDup_cons_iff in Hnodup.
    destruct Hnodup as [Hnotin Hnodup].
    rewrite dict_set_fresh by (apply Hfresh; left; reflexivity).
    rewrite IH.
    + rewrite <- app_assoc. reflexivity.
    + exact Hnodup.
    + intros other Hin. rewrite map_app, in_app_iff. cbn [map fst In].
      intros [Hd|[Heq|[]]].
      * apply (Hfresh other); [right; exact Hin | exact Hd].
      * apply Hnotin. rewrite Heq. apply in_map. exact Hin.
Qed.

(** The aggregation loop adds up each count; the complexity is added
    on the float it starts from, the index is left as it was. *)
Lemma aggregate_loop_fields (values : list CodeMetrics) :
  forall init : CodeMetrics,
    lines_of_code (fold_left add_metrics values init)
    = lines_of_code init + sum_Z (map lines_of_code values)
    /\ comment_lines (fold_left add_metrics values init)
       = comment_lines init + sum_Z (map comment_lines values)
    /\ blank_lines (fold_left add_metrics values init)
       = blank_lines init + sum_Z (map blank_lines values)
    /\ function_count (fold_left add_metrics values init)
       = function_count init + sum_Z (map function_count values)
    /\ class_count (fold_left add_metrics values init)
       = class_count init + sum_Z (map class_count values)
    /\ complexity (fold_left add_metrics values init)
       = fold_left PyNum.add (map complexity values) (complexity init)
    /\ maintainability_index (fold_left add_metrics values init)
       = maintainability_index init.
Proof.
  induction values as [|m values IH]; intros init; cbn [fold_left map].
  - cbn. repeat split; lia.
  - destruct (IH (add_metrics init m)) as (H1 & H2 & H3 & H4 & H5 & H6 & H7).
    rewrite H1, H2, H3, H4, H5, H6, H7, !sum_Z_cons.
    cbn [add_metrics lines_of_code comment_lines blank_lines function_count
         class_count complexity maintainability_index].
    repeat split; lia.
Qed.

(** Claim C8.  For every run of a new checker over files with distinct
    paths, each count of the project metrics (code lines, comment lines,
    blank lines, functions, classes) is the sum of that count over the
    metrics of the files, the complexity is their complexities added up
    from 0.0, and the maintainability index is the sum of the indices of
    the files divided by the number of files, every file with the same
    weight; with no file every field is zero and the score is 100.0. *)
Theorem project_metrics_aggregate :
  forall (ast_parse : string -> parse_result) (flake8 : string -> tool_outcome)
         (config : Config) (project : string) (files : list source_file)
         (report : QualityReport),
    NoDup (map path files) ->
    run_analysis ast_parse flake8 config project files [] = Returned report ->
    lines_of_code (metrics report)
    = sum_Z (map (fun file => lines_of_code (calculate_metrics ast_parse file))
               files)
    /\ comment_lines (metrics report)
       = sum_Z (map (fun file =>
                       comment_lines (calculate_metrics ast_parse file))
                  files)
    /\ blank_lines (metrics report)
       = sum_Z (map (fun file =>
                       blank_lines (calculate_metrics ast_parse file))
                  files)
    /\ function_count (metrics report)
       = sum_Z (map (fun file =>
                       function_count (calculate_metrics ast_parse file))
                  files)
    /\ class_count (metrics report)
       = sum_Z (map (fun file =>
                       class_count (calculate_metrics ast_parse file))
                  files)
    /\ complexity (metrics report)
       = fold_left PyNum.add
           (map (fun file => complexity (calculate_metrics ast_parse file))
              files)
           (PFloat 0)
    /\ (files <> [] ->
        maintainability_index (metrics report)
        = (PyNum.sum
             (map (fun file =>
                     maintainability_index (calculate_metrics ast_parse file))
                files)
           / PInt (Z.of_nat (List.length files)))%py)
    /\ (files = [] ->
        metrics report = zero_metrics
        /\ quality_score (summary report) = PFloat 100).
Proof.
  intros ast_parse flake8 config project files report Hnodup Hrun.
  pose proof (run_analysis_issues _ _ _ _ _ _ _ Hrun)
    as (Hissues & _ & _ & Hmetrics & Hscore).
  rewrite stored_metrics_fresh in Hmetrics by (assumption || (intros ? ? [])).
  cbn [app] in Hmetrics.
  assert (Hvalues :
            dict_values
              (map (fun file => (path file, calculate_metrics ast_parse file))
                 files)
            = map (calculate_metrics ast_parse) files).
  { unfold dict_values. rewrite map_map. reflexivity. }
  destruct (aggregate_loop_fields (map (calculate_metrics ast_parse) files)
              zero_metrics) as (H1 & H2 & H3 & H4 & H5 & H6 & H7).
  cbn [zero_metrics lines_of_code comment_lines blank_lines function_count
       class_count complexity maintainability_index] in H1, H2, H3, H4, H5,
    H6, H7.
  rewrite !map_map, ?Z.add_0_l in H1, H2, H3, H4, H5, H6.
  unfold aggregate_metrics in Hmetrics.
  rewrite Hvalues, length_map in Hmetrics. fold (aggregate_counts
    (map (calculate_metrics ast_parse) files)) in H1, H2, H3, H4, H5, H6, H7.
  destruct files as [|file files].
  - cbn in Hmetrics. rewrite Hmetrics. cbn.
    repeat split; try congruence.
    rewrite Hscore, Hissues. reflexivity.
  - replace (0 <? Z.of_nat (List.length (file :: files))) with true
      in Hmetrics by (symmetry; apply Z.ltb_lt; cbn [List.length]; lia).
    rewrite Hmetrics.
    cbn [lines_of_code comment_lines blank_lines function_count class_count
         complexity maintainability_index].
    rewrite H1, H2, H3, H4, H5, H6, !map_map.
    repeat split; congruence.
Qed.

Lemma project_metrics_aggregate_witness :
  exists report : QualityReport,
    run_analysis sample_parse no_flake8 _get_default_config "demo"
      [plain_file; long_line_file; broken_file] [] = Returned report
    /\ lines_of_code (metrics report) = 4
    /\ function_count (metrics report) = 1
    /\ complexity (metrics report) = PFloat 1
    /\ maintainability_index (metrics report) = PFloat 106.56.
Proof.
  destruct (run_analysis sample_parse no_flake8 _get_default_config "demo"
              [plain_file; long_line_file; broken_file] [])
    as [report|msg] eqn:Hrun; [|vm_compute in Hrun; discriminate Hrun].
  exists report. split; [reflexivity|].
  assert (Hpaths : NoDup (map path [plain_file; long_line_file; broken_file])).
  { repeat constructor; cbn; intuition discriminate. }
  destruct (project_metrics_aggregate _ _ _ _ _ _ Hpaths Hrun)
    as (Hloc & _ & _ & Hfun & _ & Hcomplexity & Hindex & _).
  rewrite Hloc, Hfun, Hcomplexity, Hindex by discriminate.
  repeat split; vm_compute; reflexivity.
Defined.

(** ** Files that fail to parse *)

Lemma line_length_loop_kinds (config : Config) (file : source_file)
  (lines : list string) :
  forall line_num : Z,
    filter is_parse_issue (line_length_loop config file line_num lines) = [].
Proof.
  induction lines as [|line lines IH]; intros line_num;
    cbn [line_length_loop]; [reflexivity|].
  rewrite filter_app, IH, app_nil_r.
  destruct (max_line_length config <? len (rstrip_newline line));
    reflexivity.
Qed.

Lemma check_line_length_kinds (config : Config) (file : source_file) :
  filter is_parse_issue (check_line_length config file) = [].
Proof.
  unfold check_line_length. destruct (contents file) as [lines|yielded msg].
  - apply line_length_loop_kinds.
  - rewrite filter_app, line_length_loop_kinds. reflexivity.
Qed.

Lemma external_kinds (flake8 : string -> tool_outcome) (file : source_file)
  (external : list CodeIssue) :
  run_external_tools flake8 file = Returned external ->
  filter is_parse_issue external = [].
Proof.
  unfold run_external_tools.
  destruct (flake8 (path file)) as [| |entries|msg]; intros H;
    inversion H; subst; try reflexivity.
  induction entries as [|e entries IH]; [reflexivity|].
  cbn [map filter]. apply IH. reflexivity.
Qed.

(** Claim C2, as stated, fails: a file with invalid syntax gets the
    issue of the syntax check and one error issue from each of the naming
    and complexity detectors, and its over-long lines are reported; a
    file that cannot be read gets a read error of the line-length
    detector as well. *)
Lemma parse_failure_has_several_issues :
  map issue_type
    (issues_of_file sample_parse no_flake8 _get_default_config broken_file)
  = ["syntax_error"; "naming_analysis_error"; "complexity_analysis_error"]
  /\ map issue_type
       (issues_of_file sample_parse no_flake8 _get_default_config
          broken_long_file)
     = ["syntax_error"; "line_too_long"; "naming_analysis_error";
        "complexity_analysis_error"]
  /\ map issue_type
       (issues_of_file sample_parse no_flake8 _get_default_config
          unreadable_file)
     = ["parsing_error"; "file_read_error"; "naming_analysis_error";
        "complexity_analysis_error"]
  /\ ~ (exists issue : CodeIssue,
          issues_of_file sample_parse no_flake8 _get_default_config
            broken_file = [issue]).
Proof.
  repeat split; try (vm_compute; reflexivity).
  intros [issue H]. vm_compute in H. discriminate H.
Qed.

(** Claim C2, amended.  For every file whose content fails to parse
    (invalid syntax, or a failure to read or decode), the syntax check
    gives exactly one issue, of kind [syntax_error] or [parsing_error]
    and of severity error, and no other issue of the file is of these
    kinds; the other detectors run all the same: the naming and the
    complexity detector add one error issue each
    ([naming_analysis_error], [complexity_analysis_error]) and nothing
    else, the line-length detector reports the lines as for any file,
    and the metrics of the file are zero. *)
Theorem parse_failure_issues :
  forall (ast_parse : string -> parse_result) (flake8 : string -> tool_outcome)
         (config : Config) (file : source_file) (str_e : string),
    read_and_parse ast_parse file = Raised str_e ->
    (exists issue : CodeIssue,
        analyze_syntax ast_parse file = [issue]
        /\ severity issue = "error"
        /\ (issue_type issue = "syntax_error"
            \/ issue_type issue = "parsing_error"))
    /\ check_naming_conventions ast_parse file
       = [mkCodeIssue (path file) 0 "naming_analysis_error" "error"
            ("Failed to analyze naming conventions: " ++ str_e)%string None]
    /\ analyze_complexity ast_parse config file
       = [mkCodeIssue (path file) 0 "complexity_analysis_error" "error"
            ("Failed to analyze complexity: " ++ str_e)%string None]
    /\ (forall lines : list string,
          contents file = ReadOk lines ->
          check_line_length config file
          = line_length_loop config file 1 lines)
    /\ calculate_metrics ast_parse file = zero_metrics
    /\ (forall external : list CodeIssue,
          run_external_tools flake8 file = Returned external ->
          issues_of_file ast_parse flake8 config file
          = analyze_syntax ast_parse file ++ check_line_length config file
            ++ check_naming_conventions ast_parse file
            ++ analyze_complexity ast_parse config file ++ external
          /\ List.length
               (filter is_parse_issue
                  (issues_of_file ast_parse flake8 config file)) = 1%nat).
Proof.
  intros ast_parse flake8 config file str_e Hfail.
  assert (Hsyntax :
            exists issue : CodeIssue,
              analyze_syntax ast_parse file = [issue]
              /\ severity issue = "error"
              /\ (issue_type issue = "syntax_error"
                  \/ issue_type issue = "parsing_error")).
  { unfold read_and_parse in Hfail. unfold analyze_syntax.
    destruct (contents file) as [lines|yielded msg].
    - destruct (ast_parse (join_lines lines)) as [tree|lineno msg text|text];
        [discriminate| |]; eexists; (split; [reflexivity|]); cbn; auto.
    - eexists. split; [reflexivity|]. cbn. auto. }
  assert (Hnaming :
            check_naming_conventions ast_parse file
            = [naming_analysis_error file str_e]).
  { unfold check_naming_conventions. rewrite Hfail. reflexivity. }
  assert (Hcomplexity :
            analyze_complexity ast_parse config file
            = [mkCodeIssue (path file) 0 "complexity_analysis_error" "error"
                 ("Failed to analyze complexity: " ++ str_e)%string None]).
  { unfold analyze_complexity. rewrite Hfail. reflexivity. }
  split; [exact Hsyntax|]. split; [exact Hnaming|].
  split; [exact Hcomplexity|]. split; [|split].
  - intros lines Hread. unfold check_line_length. rewrite Hread. reflexivity.
  - unfold read_and_parse in Hfail. unfold calculate_metrics.
    destruct (contents file) as [lines|yielded msg]; [|reflexivity].
    destruct (ast_parse (join_lines lines)); [discriminate| |]; reflexivity.
  - intros external Htool.
    assert (Hall :
              issues_of_file ast_parse flake8 config file
              = analyze_syntax ast_parse file ++ check_line_length config file
                ++ check_naming_conventions ast_parse file
                ++ analyze_complexity ast_parse config file ++ external).
    { unfold issues_of_file, analyze_file. rewrite Htool.
      rewrite <- !app_assoc. reflexivity. }
    split; [exact Hall|].
    rewrite Hall, !filter_app, check_line_length_kinds,
      (external_kinds flake8 file external Htool), Hnaming, Hcomplexity.
    destruct Hsyntax as (issue & -> & _ & Hkind).
    cbn [filter app]. unfold is_parse_issue at 1.
    destruct Hkind as [-> | ->]; reflexivity.
Qed.

Lemma parse_failure_issues_witness :
  List.length
    (filter is_parse_issue
       (issues_of_file sample_parse no_flake8 _get_default_config
          broken_long_file)) = 1%nat
  /\ calculate_metrics sample_parse broken_long_file = zero_metrics.
Proof.
  assert (Hfail : read_and_parse sample_parse broken_long_file
                  = Raised "invalid syntax (<unknown>, line 1)").
  { vm_compute. reflexivity. }
  destruct (parse_failure_issues sample_parse no_flake8 _get_default_config
              broken_long_file _ Hfail)
    as (_ & _ & _ & _ & Hmetrics & Hissues).
  split; [|exact Hmetrics].
  apply (Hissues []). reflexivity.
Defined.

(** ** Asynchronous definitions *)

Lemma in_list_sum (l : list nat) (n : nat) :
  In n l -> (n <= list_sum l)%nat.
Proof.
  induction l as [|m l IH]; cbn [In]; [tauto|].
  change (list_sum (m :: l)) with (m + list_sum l)%nat.
  intros [->|Hin]; [lia|]. specialize (IH Hin). lia.
Qed.

Lemma child_size (node child : ast) :
  In child (iter_child_nodes node) -> (size child < size node)%nat.
Proof.
  intros Hin. rewrite (size_children node).
  apply (in_map size) in Hin. apply in_list_sum in Hin. lia.
Qed.

(** Induction on trees: a property that a node has whenever its
    children have it holds of every node. *)
Lemma ast_children_ind (P : ast -> Prop) :
  (forall node, (forall child, In child (iter_child_nodes node) -> P child)
                -> P node) ->
  forall node, P node.
Proof.
  intros Hstep node.
  assert (Hall : forall (k : nat) (n : ast), (size n < k)%nat -> P n).
  { induction k as [|k IH]; intros n Hk; [lia|].
    apply Hstep. intros child Hin. apply IH.
    apply child_size in Hin. lia. }
  apply (Hall (S (size node))). lia.
Qed.

Lemma erase_async_children (node : ast) :
  iter_child_nodes (erase_async node)
  = map erase_async (iter_child_nodes node).
Proof.
  destruct node; cbn [erase_async iter_child_nodes map];
    rewrite ?map_app;
    try match goal with o : option ast |- _ => destruct o end;
    reflexivity.
Qed.

Lemma erase_async_size (node : ast) : size (erase_async node) = size node.
Proof.
  induction node as [node IH] using ast_children_ind.
  rewrite (size_children node), (size_children (erase_async node)),
    erase_async_children, map_map.
  f_equal. f_equal. apply map_ext_in. exact IH.
Qed.

Lemma erase_async_walk_loop (fuel : nat) :
  forall todo : list ast,
    walk_loop fuel (map erase_async todo)
    = map erase_async (walk_loop fuel todo).
Proof.
  induction fuel as [|fuel IH]; intros todo; [reflexivity|].
  destruct todo as [|node rest]; [reflexivity|].
  cbn [map walk_loop]. f_equal.
  rewrite erase_async_children, <- map_app. apply IH.
Qed.

(** The walk of the tree without its [async def]s yields the nodes of
    the walk of the tree, in the same order, each without its own. *)
Lemma erase_async_walk (node : ast) :
  walk (erase_async node) = map erase_async (walk node).
Proof.
  unfold walk. rewrite erase_async_size.
  apply (erase_async_walk_loop (size node) [node]).
Qed.

Lemma erase_async_increment (node : ast) :
  complexity_increment (erase_async node) = complexity_increment node.
Proof.
  destruct node; cbn [erase_async complexity_increment];
    rewrite ?length_map; reflexivity.
Qed.

Lemma erase_async_complexity (node : ast) :
  _calculate_complexity (erase_async node) = _calculate_complexity node.
Proof.
  unfold _calculate_complexity.
  rewrite !fold_left_add, erase_async_walk, map_map. do 2 f_equal.
  apply map_ext. exact erase_async_increment.
Qed.

Lemma erase_async_is_FunctionDef (node : ast) :
  is_FunctionDef (erase_async node) = is_FunctionDef node.
Proof. destruct node; reflexivity. Qed.

Lemma erase_async_is_ClassDef (node : ast) :
  is_ClassDef (erase_async node) = is_ClassDef node.
Proof. destruct node; reflexivity. Qed.

Lemma filter_map_commute {A B : Type} (p : B -> bool) (q : A -> bool)
  (f : A -> B) (l : list A) :
  (forall a, p (f a) = q a) -> filter p (map f l) = map f (filter q l).
Proof.
  intros Hpq. induction l as [|a l IH]; [reflexivity|].
  cbn [map filter]. rewrite Hpq, IH. destruct (q a); reflexivity.
Qed.

Lemma erase_async_class_complexity (node : ast) :
  _calculate_class_complexity (erase_async node)
  = _calculate_class_complexity node.
Proof.
  rewrite !class_complexity_sum.
  assert (Hbody : class_body (erase_async node)
                  = map erase_async (class_body node)).
  { destruct node; reflexivity. }
  rewrite Hbody, (filter_map_commute _ is_FunctionDef)
    by exact erase_async_is_FunctionDef.
  rewrite map_map. f_equal. apply map_ext. intros. apply erase_async_complexity.
Qed.

Lemma erase_async_functions_complexity (tree : ast) :
  functions_complexity (erase_async tree) = functions_complexity tree.
Proof.
  unfold functions_complexity.
  rewrite !fold_left_add_if, erase_async_walk.
  rewrite (filter_map_commute _ is_FunctionDef)
    by exact erase_async_is_FunctionDef.
  rewrite map_map. do 2 f_equal. apply map_ext.
  intros. apply erase_async_complexity.
Qed.

Lemma erase_async_count (p : ast -> bool) (tree : ast) :
  (forall node, p (erase_async node) = p node) ->
  count p (walk (erase_async tree)) = count p (walk tree).
Proof.
  intros Hp. unfold count.
  rewrite erase_async_walk, (filter_map_commute _ p) by exact Hp.
  rewrite length_map. reflexivity.
Qed.

Lemma erase_async_complexity_step (config : Config) (file : source_file)
  (node : ast) :
  complexity_step config file (erase_async node)
  = complexity_step config file node.
Proof.
  destruct node; try reflexivity.
  - change (erase_async (FunctionDef name lineno node body decorator_list
                           returns))
      with (FunctionDef name lineno (erase_async node) (map erase_async body)
              (map erase_async decorator_list)
              (match returns with
               | Some n => Some (erase_async n)
               | None => None
               end)).
    unfold complexity_step.
    rewrite <- (erase_async_complexity
                  (FunctionDef name lineno node body decorator_list returns)).
    reflexivity.
  - change (erase_async (ClassDef name lineno bases keywords body
                           decorator_list))
      with (ClassDef name lineno (map erase_async bases)
              (map erase_async keywords) (map erase_async body)
              (map erase_async decorator_list)).
    unfold complexity_step.
    rewrite <- (erase_async_class_complexity
                  (ClassDef name lineno bases keywords body decorator_list)).
    reflexivity.
Qed.

Lemma erase_async_naming_step (file : source_file) (node : ast) :
  naming_step file (erase_async node) = naming_step file node.
Proof.
  destruct node; try reflexivity.
  cbn [erase_async naming_step]. destruct node; reflexivity.
Qed.

Lemma erase_async_naming_loop (file : source_file) (nodes : list ast) :
  naming_loop file (map erase_async nodes) = naming_loop file nodes.
Proof.
  induction nodes as [|node nodes IH]; [reflexivity|].
  cbn [map naming_loop]. rewrite erase_async_naming_step, IH. reflexivity.
Qed.

Lemma erase_async_complexity_issues (config : Config) (file : source_file)
  (nodes : list ast) :
  flat_map (complexity_step config file) (map erase_async nodes)
  = flat_map (complexity_step config file) nodes.
Proof.
  induction nodes as [|node nodes IH]; [reflexivity|].
  cbn [map flat_map]. rewrite erase_async_complexity_step, IH. reflexivity.
Qed.

Lemma erased_parse_tree (ast_parse : string -> parse_result)
  (file : source_file) :
  read_and_parse (erased_parse ast_parse) file
  = match read_and_parse ast_parse file with
    | Returned tree => Returned (erase_async tree)
    | Raised str_e => Raised str_e
    end.
Proof.
  unfold read_and_parse, erased_parse.
  destruct (contents file) as [lines|yielded msg]; [|reflexivity].
  destruct (ast_parse (join_lines lines)); reflexivity.
Qed.

(** ** Line length *)

Lemma length_append (s t : string) :
  String.length (s ++ t) = (String.length s + String.length t)%nat.
Proof.
  induction s as [|c s IH]; cbn [append String.length]; [reflexivity|].
  rewrite IH. reflexivity.
Qed.

Lemma append_assoc (s t u : string) : ((s ++ t) ++ u = s ++ t ++ u)%string.
Proof.
  induction s as [|c s IH]; cbn [append]; [reflexivity|].
  rewrite IH. reflexivity.
Qed.

Lemma string_forall_append (p : ascii -> bool) (s t : string) :
  string_forall p (s ++ t) = string_forall p s && string_forall p t.
Proof.
  induction s as [|c s IH]; cbn [append string_forall]; [reflexivity|].
  rewrite IH, andb_assoc. reflexivity.
Qed.

(** A string of stripped characters is stripped whole. *)
Lemma rstrip_chars_all (p : ascii -> bool) (t : string) :
  string_forall p t = true -> rstrip_chars p t = EmptyString.
Proof.
  induction t as [|c t IH]; cbn [string_forall rstrip_chars];
    [reflexivity|].
  intros H. apply andb_prop in H. destruct H as [Hc Ht].
  rewrite (IH Ht), Hc. reflexivity.
Qed.

(** A suffix of stripped characters does not count. *)
Lemma rstrip_chars_suffix (p : ascii -> bool) (s t : string) :
  string_forall p t = true -> rstrip_chars p (s ++ t) = rstrip_chars p s.
Proof.
  intros Ht. induction s as [|c s IH]; cbn [append].
  - rewrite (rstrip_chars_all p t Ht). reflexivity.
  - cbn [rstrip_chars]. rewrite IH. reflexivity.
Qed.

(** Nothing is stripped from a string that ends with other characters. *)
Lemma rstrip_chars_kept (p : ascii -> bool) (s t : string) :
  t <> EmptyString ->
  string_forall (fun c => negb (p c)) t = true ->
  rstrip_chars p (s ++ t) = (s ++ t)%string.
Proof.
  intros Hsome Ht.
  assert (Hsuffix : rstrip_chars p t = t).
  { clear Hsome. induction t as [|c t IH]; [reflexivity|].
    cbn [string_forall] in Ht. apply andb_prop in Ht.
    destruct Ht as [Hc Ht]. cbn [rstrip_chars]. rewrite (IH Ht).
    destruct t; [|reflexivity].
    destruct (p c); [discriminate|reflexivity]. }
  induction s as [|c s IH]; cbn [append]; [exact Hsuffix|].
  cbn [rstrip_chars]. rewrite IH.
  destruct (s ++ t)%string eqn:Hst; [|reflexivity].
  destruct s; cbn [append] in Hst; [congruence|discriminate].
Qed.

Lemma rstrip_chars_length (p : ascii -> bool) (s : string) :
  (String.length (rstrip_chars p s) <= String.length s)%nat.
Proof.
  induction s as [|c s IH]; cbn [rstrip_chars String.length]; [lia|].
  destruct (rstrip_chars p s) eqn:Hstrip.
  - destruct (p c); cbn [String.length]; lia.
  - cbn [String.length] in *. lia.
Qed.

Lemma string_forall_impl (p q : ascii -> bool) (s : string) :
  (forall c, p c = true -> q c = true) ->
  string_forall p s = true -> string_forall q s = true.
Proof.
  intros Hpq. induction s as [|c s IH]; cbn [string_forall]; [reflexivity|].
  intros H. apply andb_prop in H. destruct H as [Hc Hs].
  rewrite (Hpq c Hc), (IH Hs). reflexivity.
Qed.

Lemma space_or_tab_is_whitespace (c : ascii) :
  is_space_or_tab c = true -> is_whitespace c = true.
Proof.
  unfold is_space_or_tab. intros H. apply orb_prop in H.
  destruct H as [H|H]; apply Ascii.eqb_eq in H; subst c; reflexivity.
Qed.

Lemma space_or_tab_is_no_newline (c : ascii) :
  is_space_or_tab c = true -> negb (is_newline c) = true.
Proof.
  unfold is_space_or_tab. intros H. apply orb_prop in H.
  destruct H as [H|H]; apply Ascii.eqb_eq in H; subst c; reflexivity.
Qed.

Lemma newline_is_whitespace (c : ascii) :
  is_newline c = true -> is_whitespace c = true.
Proof.
  unfold is_newline. intros H. apply Ascii.eqb_eq in H. subst c. reflexivity.
Qed.

(** The line of a given index is reported when it passes the test of
    [check_line_length]. *)
Lemma line_length_loop_reports (config : Config) (file : source_file)
  (lines : list string) :
  forall (start : Z) (index : nat) (line : string),
    nth_error lines index = Some line ->
    max_line_length config < len (rstrip_newline line) ->
    In (line_too_long config file (start + Z.of_nat index) line)
       (line_length_loop config file start lines).
Proof.
  induction lines as [|first lines IH]; intros start index line Hnth Hlong.
  - destruct index; discriminate.
  - cbn [line_length_loop]. apply in_or_app. destruct index as [|index].
    + left. cbn [nth_error] in Hnth. inversion Hnth; subst.
      apply Z.ltb_lt in Hlong. rewrite Hlong, Z.add_0_r. left. reflexivity.
    + right. cbn [nth_error] in Hnth.
      replace (start + Z.of_nat (S index)) with (start + 1 + Z.of_nat index)
        by lia.
      apply IH; assumption.
Qed.

(** Claim C10.  The test of the line-length detector is on the length
    of the line without its line feed, the message gives the length of
    the line without any trailing white space: for every line that is
    over [max_line_length] only by the spaces and tabs at its end, an
    issue is emitted, and the number of characters its message names is
    not over the maximum it names. *)
Theorem trailing_blanks_line_reported :
  forall (config : Config) (file : source_file) (lines : list string)
         (index : nat) (content pad ending : string),
    contents file = ReadOk lines ->
    nth_error lines index = Some (content ++ pad ++ ending)%string ->
    string_forall is_space_or_tab pad = true ->
    string_forall is_newline ending = true ->
    len content <= max_line_length config ->
    max_line_length config < len (content ++ pad) ->
    len (rstrip_newline (content ++ pad ++ ending)) = len (content ++ pad)
    /\ len (rstrip (content ++ pad ++ ending)) <= max_line_length config
    /\ In (mkCodeIssue (path file) (Z.of_nat index + 1) "line_too_long"
             "warning"
             ("Line " ++ str_int (Z.of_nat index + 1) ++ " is "
              ++ str_int (len (rstrip (content ++ pad ++ ending)))
              ++ " characters long (max "
              ++ str_int (max_line_length config) ++ ")")%string
             (Some
                "Break the line into multiple lines or use line continuation"))
          (check_line_length config file).
Proof.
  intros config file lines index content pad ending Hread Hnth Hpad Hending
    Hfits Hover.
  assert (Hsome : pad <> EmptyString).
  { intros ->. unfold len in *. rewrite length_append in Hover.
    cbn [String.length] in Hover. lia. }
  assert (Htest : rstrip_newline (content ++ pad ++ ending)
                  = (content ++ pad)%string).
  { unfold rstrip_newline. rewrite <- append_assoc.
    rewrite (rstrip_chars_suffix is_newline _ ending Hending).
    apply rstrip_chars_kept; [exact Hsome|].
    apply (string_forall_impl is_space_or_tab); [|exact Hpad].
    exact space_or_tab_is_no_newline. }
  assert (Hshown : len (rstrip (content ++ pad ++ ending))
                   <= max_line_length config).
  { unfold rstrip. rewrite rstrip_chars_suffix.
    - pose proof (rstrip_chars_length is_whitespace content).
      unfold len in *. lia.
    - rewrite string_forall_append.
      rewrite (string_forall_impl is_space_or_tab is_whitespace pad
                 space_or_tab_is_whitespace Hpad).
      rewrite (string_forall_impl is_newline is_whitespace ending
                 newline_is_whitespace Hending).
      reflexivity. }
  split; [rewrite Htest; reflexivity|]. split; [exact Hshown|].
  unfold check_line_length. rewrite Hread.
  replace (Z.of_nat index + 1) with (1 + Z.of_nat index) by lia.
  apply (line_length_loop_reports config file lines 1 index _ Hnth).
  rewrite Htest. exact Hover.
Qed.

Lemma trailing_blanks_line_reported_witness :
  In (mkCodeIssue "padded.py" 2 "line_too_long" "warning"
        "Line 2 is 9 characters long (max 79)"
        (Some "Break the line into multiple lines or use line continuation"))
     (check_line_length _get_default_config padded_file).
Proof.
  apply (trailing_blanks_line_reported _get_default_config padded_file
           [("count = 0" ++ newline)%string;
            ("total = 1" ++ spaces 75 ++ newline)%string]
           1 "total = 1" (spaces 75) newline);
    try reflexivity; vm_compute; congruence.
Defined.

(** * Further properties of the checker *)

(** ** The line-length detector *)

Lemma line_length_loop_exact (config : Config) (file : source_file)
  (lines : list string) :
  forall (start : Z) (issue : CodeIssue),
    In issue (line_length_loop config file start lines)
    <-> exists (index : nat) (line : string),
          nth_error lines index = Some line
          /\ over_limit config line = true
          /\ issue = line_too_long config file (start + Z.of_nat index) line.
Proof.
  unfold over_limit.
  induction lines as [|first lines IH]; intros start issue;
    cbn [line_length_loop].
  - split; [intros []|]. intros (index & line & Hnth & _).
    destruct index; discriminate.
  - rewrite in_app_iff, IH. split.
    + intros [Hfirst|(index & line & Hnth & Hlong & ->)].
      * destruct (max_line_length config <? len (rstrip_newline first))
          eqn:Hlong; [|destruct Hfirst].
        destruct Hfirst as [<-|[]]. exists 0%nat, first.
        rewrite Z.add_0_r. auto.
      * exists (S index), line. repeat split; try assumption.
        f_equal. lia.
    + intros (index & line & Hnth & Hlong & ->).
      destruct index as [|index]; cbn [nth_error] in Hnth.
      * left. inversion Hnth; subst. rewrite Hlong, Z.add_0_r.
        left. reflexivity.
      * right. exists index, line. repeat split; try assumption.
        f_equal. lia.
Qed.

Lemma line_length_loop_count (config : Config) (file : source_file)
  (lines : list string) :
  forall start : Z,
    Z.of_nat (List.length (line_length_loop config file start lines))
    = count (over_limit config) lines.
Proof.
  unfold over_limit.
  induction lines as [|first lines IH]; intros start; [reflexivity|].
  cbn [line_length_loop]. rewrite length_app, count_cons, Nat2Z.inj_add, IH.
  destruct (max_line_length config <? len (rstrip_newline first));
    reflexivity.
Qed.

Lemma line_length_loop_numbers (config : Config) (file : source_file)
  (lines : list string) :
  forall start : Z,
    Forall (fun number => start <= number)
      (map line_number (line_length_loop config file start lines))
    /\ StronglySorted Z.lt
         (map line_number (line_length_loop config file start lines)).
Proof.
  induction lines as [|first lines IH]; intros start;
    cbn [line_length_loop]; [split; constructor|].
  destruct (IH (start + 1)) as [Hlower Hsorted].
  assert (Hlater : Forall (fun number => start < number)
                     (map line_number
                        (line_length_loop config file (start + 1) lines))).
  { eapply Forall_impl; [|exact Hlower]. cbn. intros; lia. }
  destruct (max_line_length config <? len (rstrip_newline first));
    cbn [app map line_number line_too_long].
  - split; constructor; try assumption; try lia.
    eapply Forall_impl; [|exact Hlater]. cbn. intros; lia.
  - split; [|exact Hsorted].
    eapply Forall_impl; [|exact Hlater]. cbn. intros; lia.
Qed.

(** For a file that can be read, the issues of [check_line_length] are
    the lines that pass its test, one issue each, with their 1-based
    numbers in increasing order. *)
Theorem line_length_issues_exact :
  forall (config : Config) (file : source_file) (lines : list string),
    contents file = ReadOk lines ->
    (forall issue : CodeIssue,
        In issue (check_line_length config file)
        <-> exists (index : nat) (line : string),
              nth_error lines index = Some line
              /\ max_line_length config < len (rstrip_newline line)
              /\ issue
                 = mkCodeIssue (path file) (Z.of_nat index + 1)
                     "line_too_long" "warning"
                     ("Line " ++ str_int (Z.of_nat index + 1) ++ " is "
                      ++ str_int (len (rstrip line))
                      ++ " characters long (max "
                      ++ str_int (max_line_length config) ++ ")")%string
                     (Some
                        "Break the line into multiple lines or use line continuation"))
    /\ Z.of_nat (List.length (check_line_length config file))
       = count (fun line => max_line_length config <? len (rstrip_newline line))
           lines
    /\ StronglySorted Z.lt
         (map line_number (check_line_length config file)).
Proof.
  intros config file lines Hread. unfold check_line_length. rewrite Hread.
  split; [|split].
  - intros issue. rewrite line_length_loop_exact. unfold over_limit.
    split; intros (index & line & Hnth & Hlong & ->); exists index, line;
      (split; [exact Hnth|]).
    + apply Z.ltb_lt in Hlong. split; [exact Hlong|].
      replace (1 + Z.of_nat index) with (Z.of_nat index + 1) by lia.
      reflexivity.
    + split; [apply Z.ltb_lt; exact Hlong|].
      replace (1 + Z.of_nat index) with (Z.of_nat index + 1) by lia.
      reflexivity.
  - apply line_length_loop_count.
  - apply line_length_loop_numbers.
Qed.

Lemma line_length_issues_exact_witness :
  map line_number (check_line_length _get_default_config long_line_file) = [2]
  /\ StronglySorted Z.lt
       (map line_number (check_line_length _get_default_config long_line_file)).
Proof.
  destruct (line_length_issues_exact _get_default_config long_line_file
              long_lines eq_refl) as (_ & _ & Hsorted).
  split; [vm_compute; reflexivity | exact Hsorted].
Defined.

(** ** The metrics of a file *)

Lemma count_disjoint {A : Type} (p q : A -> bool) (l : list A) :
  (forall a, p a = true -> q a = false) ->
  count p l + count q l <= Z.of_nat (List.length l).
Proof.
  intros Hpq. induction l as [|a l IH]; [cbn; lia|].
  rewrite !count_cons. cbn [List.length]. rewrite Nat2Z.inj_succ.
  specialize (Hpq a). destruct (p a), (q a); try lia.
Qed.

Lemma count_app {A : Type} (p : A -> bool) (l1 l2 : list A) :
  count p (l1 ++ l2) = count p l1 + count p l2.
Proof.
  unfold count. rewrite filter_app, length_app. lia.
Qed.

Lemma count_bounds {A : Type} (p : A -> bool) (l : list A) :
  0 <= count p l <= Z.of_nat (List.length l).
Proof.
  unfold count. pose proof (filter_length_le p l). lia.
Qed.

(** The counts of [calculate_metrics] are never negative, and for a
    file that parses the code, comment and blank lines are a partition
    of its lines: no line is counted twice, none is left out. *)
Theorem metrics_lines_partition :
  forall (ast_parse : string -> parse_result) (file : source_file),
    (0 <= lines_of_code (calculate_metrics ast_parse file)
     /\ 0 <= comment_lines (calculate_metrics ast_parse file)
     /\ 0 <= blank_lines (calculate_metrics ast_parse file)
     /\ 0 <= function_count (calculate_metrics ast_parse file)
     /\ 0 <= class_count (calculate_metrics ast_parse file))
    /\ (forall (lines : list string) (tree : ast),
          contents file = ReadOk lines ->
          ast_parse (join_lines lines) = Parsed tree ->
          lines_of_code (calculate_metrics ast_parse file)
          + comment_lines (calculate_metrics ast_parse file)
          + blank_lines (calculate_metrics ast_parse file)
          = Z.of_nat (List.length lines)).
Proof.
  intros ast_parse file.
  assert (Hdisjoint :
            forall lines : list string,
              count (fun line => startswith_hash (strip line)) lines
              + count (fun line => is_empty (strip line)) lines
              <= Z.of_nat (List.length lines)).
  { intros lines. apply count_disjoint. intros line.
    destruct (strip line); [discriminate|reflexivity]. }
  split.
  - unfold calculate_metrics.
    destruct (contents file) as [lines|yielded msg]; [|cbn; lia].
    destruct (ast_parse (join_lines lines)) as [tree| |]; try (cbn; lia).
    cbn [lines_of_code comment_lines blank_lines function_count class_count].
    pose proof (Hdisjoint lines).
    pose proof (count_bounds (fun line => startswith_hash (strip line)) lines).
    pose proof (count_bounds (fun line => is_empty (strip line)) lines).
    pose proof (count_bounds is_FunctionDef (walk tree)).
    pose proof (count_bounds is_ClassDef (walk tree)).
    lia.
  - intros lines tree Hread Hparse. unfold calculate_metrics.
    rewrite Hread, Hparse.
    cbn [lines_of_code comment_lines blank_lines]. lia.
Qed.

Lemma metrics_lines_partition_witness :
  lines_of_code (calculate_metrics sample_parse long_line_file)
  + comment_lines (calculate_metrics sample_parse long_line_file)
  + blank_lines (calculate_metrics sample_parse long_line_file) = 4.
Proof.
  apply (proj2 (metrics_lines_partition sample_parse long_line_file)
           long_lines
           (Module
              [Other [Name "x" Store 2; leaf]; Other [Name "Y" Store 4; leaf]]));
    reflexivity.
Defined.

(** ** Complexity over the tree *)

Lemma filter_permutation {A : Type} (p : A -> bool) (l1 l2 : list A) :
  Permutation l1 l2 -> Permutation (filter p l1) (filter p l2).
Proof.
  induction 1 as [|a l1 l2 H IH|a b l|l1 l2 l3 H12 IH12 H23 IH23];
    cbn [filter].
  - constructor.
  - destruct (p a); [constructor|]; exact IH.
  - destruct (p a), (p b); try reflexivity. apply perm_swap.
  - etransitivity; eassumption.
Qed.

Lemma count_permutation {A : Type} (p : A -> bool) (l1 l2 : list A) :
  Permutation l1 l2 -> count p l1 = count p l2.
Proof.
  intros Hperm. unfold count. f_equal.
  apply Permutation_length, filter_permutation, Hperm.
Qed.

Lemma functions_complexity_subtree (tree : ast) :
  functions_complexity tree
  = sum_Z (map _calculate_complexity
             (filter is_FunctionDef (subtree_nodes tree))).
Proof.
  unfold functions_complexity. rewrite fold_left_add_if, Z.add_0_l.
  apply sum_Z_permutation, Permutation_map, filter_permutation, walk_nodes.
Qed.

(** The complexity of a file is the sum of the scores of all its
    function definitions, wherever they stand, the nested ones included
    (their constructs are then counted once more in each function that
    encloses them); the function count is the number of these
    definitions; and both are the sums of what the children of a node
    give, plus the node itself when it is a function definition. *)
Theorem file_complexity_by_functions :
  forall node : ast,
    functions_complexity node
    = sum_Z (map _calculate_complexity
               (filter is_FunctionDef (subtree_nodes node)))
    /\ count is_FunctionDef (walk node)
       = count is_FunctionDef (subtree_nodes node)
    /\ functions_complexity node
       = (if is_FunctionDef node then _calculate_complexity node else 0)
         + sum_Z (map functions_complexity (iter_child_nodes node))
    /\ count is_FunctionDef (walk node)
       = (if is_FunctionDef node then 1 else 0)
         + sum_Z (map (fun child => count is_FunctionDef (walk child))
                    (iter_child_nodes node)).
Proof.
  intros node. split; [apply functions_complexity_subtree|].
  split; [apply count_permutation, walk_nodes|]. split.
  - rewrite functions_complexity_subtree, subtree_nodes_children.
    cbn [filter].
    assert (Hforest :
              forall l : list ast,
                sum_Z (map _calculate_complexity
                         (filter is_FunctionDef (flat_map subtree_nodes l)))
                = sum_Z (map functions_complexity l)).
    { induction l as [|child l IH]; [reflexivity|].
      cbn [flat_map map]. rewrite filter_app, map_app, sum_Z_app, IH.
      rewrite sum_Z_cons, functions_complexity_subtree. reflexivity. }
    destruct (is_FunctionDef node); cbn [map];
      rewrite ?sum_Z_cons, Hforest; lia.
  - rewrite (count_permutation _ _ _ (walk_nodes node)),
      subtree_nodes_children, count_cons. f_equal.
    induction (iter_child_nodes node) as [|child l IH]; [reflexivity|].
    cbn [flat_map map]. rewrite count_app, sum_Z_cons, IH.
    rewrite (count_permutation _ _ _ (walk_nodes child)). reflexivity.
Qed.

Lemma subtree_nodes_split (node : ast) :
  forall child : ast,
    In child (subtree_nodes node) ->
    exists rest : list ast,
      Permutation (subtree_nodes node) (subtree_nodes child ++ rest).
Proof.
  induction node as [node IH] using ast_children_ind. intros child Hin.
  rewrite subtree_nodes_children in Hin |- *.
  destruct Hin as [<-|Hin].
  - exists []. rewrite app_nil_r, <- subtree_nodes_children. reflexivity.
  - apply in_flat_map in Hin. destruct Hin as (between & Hchild & Hin).
    destruct (IH between Hchild child Hin) as [rest Hrest].
    apply in_split in Hchild. destruct Hchild as (before & after & ->).
    exists (rest ++ node :: flat_map subtree_nodes before
            ++ flat_map subtree_nodes after).
    rewrite flat_map_app. cbn [flat_map]. rewrite Hrest.
    rewrite <- !app_assoc.
    rewrite (app_assoc (subtree_nodes child) rest (node :: _)).
    apply Permutation_cons_app.
    rewrite (app_assoc (subtree_nodes child) rest
               (flat_map subtree_nodes after)).
    apply Permutation_app_swap_app.
Qed.

Lemma sum_Z_nonneg (l : list Z) :
  Forall (fun z => 0 <= z) l -> 0 <= sum_Z l.
Proof.
  induction 1 as [|z l Hz Hl IH]; [cbn; lia|]. rewrite sum_Z_cons. lia.
Qed.

Lemma increments_nonneg (node : ast) :
  chains_have_operands node = true ->
  Forall (fun z => 0 <= z) (map complexity_increment (subtree_nodes node)).
Proof.
  unfold chains_have_operands. intros Hchains.
  apply Forall_map, Forall_forall. intros child Hin.
  apply (proj1 (forallb_forall _ _) Hchains) in Hin.
  destruct child; cbn [complexity_increment]; try lia.
  cbn [is_BoolOp negb orb operand_count] in Hin. apply Z.leb_le in Hin. lia.
Qed.

(** When every boolean chain has an operand (the parser gives each at
    least two), every node of a tree has complexity at least 1 and at
    most the complexity of the tree: a function is never less complex
    than a function nested in it, and the complexity of a file is at
    least its number of function definitions. *)
Theorem complexity_lower_bounds :
  forall tree : ast,
    chains_have_operands tree = true ->
    (forall node : ast,
        In node (subtree_nodes tree) ->
        1 <= _calculate_complexity node
        /\ _calculate_complexity node <= _calculate_complexity tree)
    /\ count is_FunctionDef (walk tree) <= functions_complexity tree.
Proof.
  intros tree Hchains.
  pose proof (increments_nonneg tree Hchains) as Hall.
  assert (Hnodes :
            forall node : ast,
              In node (subtree_nodes tree) ->
              1 <= _calculate_complexity node
              /\ _calculate_complexity node <= _calculate_complexity tree).
  { intros node Hin.
    destruct (subtree_nodes_split tree node Hin) as [rest Hrest].
    rewrite !complexity_subtree.
    rewrite (sum_Z_permutation _ _ (Permutation_map complexity_increment Hrest)).
    rewrite map_app, sum_Z_app.
    assert (Hparts : Forall (fun z => 0 <= z)
                       (map complexity_increment (subtree_nodes node)
                        ++ map complexity_increment rest)).
    { rewrite <- map_app.
      eapply Permutation_Forall; [|exact Hall].
      apply Permutation_map, Hrest. }
    apply Forall_app in Hparts. destruct Hparts as [Hnode Hrest'].
    apply sum_Z_nonneg in Hnode. apply sum_Z_nonneg in Hrest'. lia. }
  split; [exact Hnodes|].
  rewrite (count_permutation _ _ _ (walk_nodes tree)),
    functions_complexity_subtree.
  assert (Hsub : forall l : list ast,
             incl l (subtree_nodes tree) ->
             count is_FunctionDef l
             <= sum_Z (map _calculate_complexity (filter is_FunctionDef l))).
  { induction l as [|node l IH]; intros Hincl; [cbn; lia|].
    rewrite count_cons. cbn [filter].
    assert (Hnode : In node (subtree_nodes tree))
      by (apply Hincl; left; reflexivity).
    assert (Hl : incl l (subtree_nodes tree))
      by (intros x Hx; apply Hincl; right; exact Hx).
    specialize (IH Hl). destruct (Hnodes node Hnode) as [Hone _].
    destruct (is_FunctionDef node); cbn [map]; rewrite ?sum_Z_cons; lia. }
  apply Hsub, incl_refl.
Qed.

Lemma complexity_lower_bounds_witness :
  1 <= _calculate_complexity inner_function
  /\ _calculate_complexity inner_function
     <= _calculate_complexity outer_function.
Proof.
  apply (proj1 (complexity_lower_bounds outer_function eq_refl)).
  vm_compute. auto.
Defined.

(** ** The complexity detector *)

(** For a file that parses, the complexity detector reports every
    function definition of the tree, nested or not, whose complexity is
    over [max_function_complexity] and every class over
    [max_class_complexity]; it reports nothing when all are within the
    limits, and all it reports are warnings of these two kinds. *)
Theorem complexity_issues_exact :
  forall (ast_parse : string -> parse_result) (config : Config)
         (file : source_file) (tree : ast),
    read_and_parse ast_parse file = Returned tree ->
    (forall name lineno args body decorator_list returns,
        In (FunctionDef name lineno args body decorator_list returns)
          (subtree_nodes tree) ->
        max_function_complexity config
        < _calculate_complexity
            (FunctionDef name lineno args body decorator_list returns) ->
        In (mkCodeIssue (path file) lineno "high_complexity" "warning"
              ("Function '" ++ name ++ "' has complexity "
               ++ str_int
                    (_calculate_complexity
                       (FunctionDef name lineno args body decorator_list
                          returns))
               ++ " (max " ++ str_int (max_function_complexity config)
               ++ ")")%string
              (Some
                 "Consider breaking down the function into smaller, simpler functions"))
          (analyze_complexity ast_parse config file))
    /\ (forall name lineno bases keywords body decorator_list,
          In (ClassDef name lineno bases keywords body decorator_list)
            (subtree_nodes tree) ->
          max_class_complexity config
          < _calculate_class_complexity
              (ClassDef name lineno bases keywords body decorator_list) ->
          In (mkCodeIssue (path file) lineno "high_class_complexity" "warning"
                ("Class '" ++ name ++ "' has complexity "
                 ++ str_int
                      (_calculate_class_complexity
                         (ClassDef name lineno bases keywords body
                            decorator_list))
                 ++ " (max " ++ str_int (max_class_complexity config)
                 ++ ")")%string
                (Some "Consider splitting the class into multiple classes"))
            (analyze_complexity ast_parse config file))
    /\ ((forall node,
           In node (subtree_nodes tree) ->
           (is_FunctionDef node = true ->
            _calculate_complexity node <= max_function_complexity config)
           /\ (is_ClassDef node = true ->
               _calculate_class_complexity node
               <= max_class_complexity config)) ->
        analyze_complexity ast_parse config file = [])
    /\ Forall
         (fun issue =>
            severity issue = "warning"%string
            /\ (issue_type issue = "high_complexity"%string
                \/ issue_type issue = "high_class_complexity"%string))
         (analyze_complexity ast_parse config file).
Proof.
  intros ast_parse config file tree Hparse.
  unfold analyze_complexity. rewrite Hparse.
  assert (Hwalk : forall node, In node (subtree_nodes tree)
                               <-> In node (walk tree)).
  { intros node. split; apply Permutation_in;
      [symmetry|]; apply walk_nodes. }
  split; [|split; [|split]].
  - intros name lineno args body decorator_list returns Hin Hover.
    apply in_flat_map. eexists. split; [apply Hwalk; exact Hin|].
    cbn [complexity_step]. apply Z.ltb_lt in Hover. rewrite Hover.
    left. reflexivity.
  - intros name lineno bases keywords body decorator_list Hin Hover.
    apply in_flat_map. eexists. split; [apply Hwalk; exact Hin|].
    cbn [complexity_step]. apply Z.ltb_lt in Hover. rewrite Hover.
    left. reflexivity.
  - intros Hwithin.
    assert (Hnone : forall l : list ast,
               incl l (walk tree) ->
               flat_map (complexity_step config file) l = []).
    { induction l as [|node l IH]; intros Hincl; [reflexivity|].
      cbn [flat_map]. rewrite IH
        by (intros x Hx; apply Hincl; right; exact Hx).
      rewrite app_nil_r.
      assert (Hnode : In node (subtree_nodes tree))
        by (apply Hwalk, Hincl; left; reflexivity).
      destruct (Hwithin node Hnode) as [Hfun Hclass].
      destruct node; try reflexivity; cbn [complexity_step].
      - specialize (Hfun eq_refl).
        apply Z.ltb_ge in Hfun. rewrite Hfun. reflexivity.
      - specialize (Hclass eq_refl).
        apply Z.ltb_ge in Hclass. rewrite Hclass. reflexivity. }
    apply Hnone, incl_refl.
  - apply Forall_forall. intros issue Hin.
    apply in_flat_map in Hin. destruct Hin as (node & _ & Hin).
    destruct node; try contradiction; cbn [complexity_step] in Hin.
    + destruct (max_function_complexity config <? _); [|contradiction].
      destruct Hin as [<-|[]]. cbn. auto.
    + destruct (max_class_complexity config <? _); [|contradiction].
      destruct Hin as [<-|[]]. cbn. auto.
Qed.

(** ** The score *)

(** The score of a scope depends on its issues only through their
    severities, whatever their order is. *)
Theorem score_ignores_issue_order :
  forall (config : Config) (issues issues' : list CodeIssue)
         (metrics : CodeMetrics),
    Permutation (map severity issues) (map severity issues') ->
    _calculate_quality_score config issues metrics
    = _calculate_quality_score config issues' metrics.
Proof.
  intros config issues issues' metrics Hperm.
  assert (Hweights :
            sum_Z (map (fun issue =>
                          dict_get_default (severity_weights config)
                            (severity issue) 1) issues)
            = sum_Z (map (fun issue =>
                            dict_get_default (severity_weights config)
                              (severity issue) 1) issues')).
  { rewrite <- !(map_map severity
                   (fun s => dict_get_default (severity_weights config) s 1)).
    apply sum_Z_permutation, Permutation_map, Hperm. }
  pose proof (Permutation_length Hperm) as Hlength.
  rewrite !length_map in Hlength.
  destruct issues as [|issue issues], issues' as [|issue' issues'];
    try discriminate; [reflexivity|].
  unfold _calculate_quality_score.
  rewrite !(fold_left_add
              (fun issue => dict_get_default (severity_weights config)
                              (severity issue) 1)).
  rewrite Hweights. reflexivity.
Qed.

Lemma score_ignores_issue_order_witness :
  _calculate_quality_score _get_default_config
    [sample_warning; sample_notice] poor_metrics
  = _calculate_quality_score _get_default_config
      [sample_notice; sample_warning] poor_metrics.
Proof.
  apply score_ignores_issue_order. apply perm_swap.
Defined.

Lemma complexity_issues_exact_witness :
  In (mkCodeIssue "sample.py" 2 "high_complexity" "warning"
        "Function 'small' has complexity 3 (max 2)"
        (Some
           "Consider breaking down the function into smaller, simpler functions"))
     (analyze_complexity extra_parse strict_config class_file).
Proof.
  apply (proj1 (complexity_issues_exact extra_parse strict_config class_file
                  (Module [sample_class]) eq_refl)
           "small" 2 (Other [leaf])
           [If (load "a" 3) [leaf] []; If (load "b" 4) [leaf] []] [] None).
  - vm_compute. auto.
  - vm_compute. reflexivity.
Defined.

(** ** The summary of a report *)

Lemma dict_get_set_same {V : Type} (d : list (string * V)) (k : string)
  (v : V) :
  dict_get (dict_set d k v) k = Some v.
Proof.
  induction d as [|[k' v'] d IH]; cbn [dict_set dict_get].
  - rewrite String.eqb_refl. reflexivity.
  - destruct (String.eqb k' k) eqn:Hk; cbn [dict_get]; rewrite Hk;
      [reflexivity | exact IH].
Qed.

Lemma dict_get_set_other {V : Type} (d : list (string * V)) (k k' : string)
  (v : V) :
  k <> k' -> dict_get (dict_set d k v) k' = dict_get d k'.
Proof.
  intros Hneq. induction d as [|[k0 v0] d IH]; cbn [dict_set dict_get].
  - destruct (String.eqb_spec k k'); [contradiction|reflexivity].
  - destruct (String.eqb_spec k0 k) as [->|Hk0]; cbn [dict_get].
    + destruct (String.eqb_spec k k'); [contradiction|reflexivity].
    + rewrite IH. reflexivity.
Qed.

Lemma dict_set_keys {V : Type} (d : list (string * V)) (k : string) (v : V) :
  map fst (dict_set d k v)
  = if existsb (String.eqb k) (map fst d) then map fst d
    else map fst d ++ [k].
Proof.
  induction d as [|[k' v'] d IH]; cbn [dict_set map fst existsb app];
    [reflexivity|].
  rewrite (String.eqb_sym k k').
  destruct (String.eqb k' k); cbn [map fst orb]; [reflexivity|].
  rewrite IH. destruct (existsb (String.eqb k) (map fst d)); reflexivity.
Qed.

Lemma dict_set_nodup {V : Type} (d : list (string * V)) (k : string) (v : V) :
  NoDup (map fst d) -> NoDup (map fst (dict_set d k v)).
Proof.
  intros Hnodup. rewrite dict_set_keys.
  destruct (existsb (String.eqb k) (map fst d)) eqn:Hin; [exact Hnodup|].
  apply NoDup_app; [exact Hnodup | repeat constructor; intros [] |].
  intros k' Hk' [Heq|[]]. subst k'.
  assert (Hex : existsb (String.eqb k) (map fst d) = true).
  { apply existsb_exists. exists k. split; [exact Hk'|].
    apply String.eqb_refl. }
  congruence.
Qed.

Lemma counter_incr_sum (d : list (string * Z)) (k : string) :
  sum_Z (map snd (counter_incr d k)) = sum_Z (map snd d) + 1.
Proof.
  unfold counter_incr, dict_get_default.
  induction d as [|[k' v'] d IH]; cbn [dict_get dict_set map snd].
  - rewrite sum_Z_cons. cbn. lia.
  - destruct (String.eqb k' k); cbn [map snd]; rewrite !sum_Z_cons.
    + lia.
    + rewrite IH. lia.
Qed.

Lemma counter_incr_positive (d : list (string * Z)) (k : string) :
  Forall (fun entry => 0 < snd entry) d ->
  Forall (fun entry => 0 < snd entry) (counter_incr d k).
Proof.
  unfold counter_incr, dict_get_default.
  induction 1 as [|[k' v'] d Hv Hd IH]; cbn [dict_get dict_set].
  - repeat constructor.
  - cbn [snd] in Hv. destruct (String.eqb k' k).
    + constructor; [cbn; lia | exact Hd].
    + constructor; [exact Hv | exact IH].
Qed.

(** The counters built by the loops over [all_issues]. *)
Lemma count_by_spec (key : CodeIssue -> string) (all_issues : list CodeIssue) :
  forall counter : list (string * Z),
    NoDup (map fst counter) ->
    Forall (fun entry => 0 < snd entry) counter ->
    let final :=
      fold_left (fun counter issue => counter_incr counter (key issue))
        all_issues counter in
    (forall k : string,
        dict_get_default final k 0
        = dict_get_default counter k 0
          + count (fun issue => String.eqb (key issue) k) all_issues)
    /\ sum_Z (map snd final)
       = sum_Z (map snd counter) + Z.of_nat (List.length all_issues)
    /\ NoDup (map fst final)
    /\ Forall (fun entry => 0 < snd entry) final.
Proof.
  induction all_issues as [|issue all_issues IH]; intros counter Hnodup Hpos;
    cbn [fold_left].
  - cbn. repeat split; try assumption; lia.
  - destruct (IH (counter_incr counter (key issue))
                (dict_set_nodup _ _ _ Hnodup)
                (counter_incr_positive _ _ Hpos))
      as (Hget & Hsum & Hkeys & Hvalues).
    repeat split; try assumption.
    + intros k. rewrite Hget, count_cons.
      unfold counter_incr, dict_get_default at 1.
      destruct (String.eqb_spec (key issue) k) as [->|Hneq].
      * rewrite dict_get_set_same. unfold dict_get_default. lia.
      * rewrite dict_get_set_other by exact Hneq.
        unfold dict_get_default. lia.
    + rewrite Hsum, counter_incr_sum. cbn [List.length]. lia.
Qed.

(** In the summary of a report the counter by severity and the counter
    by kind each give, for every key, the number of issues of the report
    with that key; their keys are distinct, no listed count is zero, and
    the counts of each add up to [total_issues]. *)
Theorem summary_counters_exact :
  forall (ast_parse : string -> parse_result) (flake8 : string -> tool_outcome)
         (config : Config) (project : string) (files : list source_file)
         (d : list (string * CodeMetrics)) (report : QualityReport),
    run_analysis ast_parse flake8 config project files d = Returned report ->
    (forall s : string,
        dict_get_default (issues_by_severity (summary report)) s 0
        = count (fun issue => String.eqb (severity issue) s) (issues report))
    /\ (forall t : string,
          dict_get_default (issues_by_type (summary report)) t 0
          = count (fun issue => String.eqb (issue_type issue) t)
              (issues report))
    /\ sum_Z (map snd (issues_by_severity (summary report)))
       = total_issues report
    /\ sum_Z (map snd (issues_by_type (summary report)))
       = total_issues report
    /\ NoDup (map fst (issues_by_severity (summary report)))
    /\ NoDup (map fst (issues_by_type (summary report)))
    /\ Forall (fun entry => 0 < snd entry)
         (issues_by_severity (summary report))
    /\ Forall (fun entry => 0 < snd entry) (issues_by_type (summary report)).
Proof.
  intros ast_parse flake8 config project files d report Hrun.
  assert (Htotal : total_issues report
                   = Z.of_nat (List.length (issues report))).
  { pose proof (run_analysis_issues _ _ _ _ _ _ _ Hrun)
      as (Hissues & Hcount & _).
    rewrite Hcount, Hissues. symmetry. apply flat_map_length_sum. }
  assert (Hsummary :
            issues_by_severity (summary report)
            = count_by severity (issues report)
            /\ issues_by_type (summary report)
               = count_by issue_type (issues report)).
  { unfold run_analysis in Hrun.
    destruct (analysis_loop ast_parse flake8 config files [] 0 d)
      as [[[all_issues total] d']|]; [|discriminate].
    inversion Hrun; subst. cbn. split; reflexivity. }
  destruct Hsummary as [-> ->]. rewrite Htotal. unfold count_by.
  destruct (count_by_spec severity (issues report) [] (NoDup_nil _)
              (Forall_nil _)) as (H1 & H2 & H3 & H4).
  destruct (count_by_spec issue_type (issues report) [] (NoDup_nil _)
              (Forall_nil _)) as (H5 & H6 & H7 & H8).
  cbn zeta in H1, H2, H3, H4, H5, H6, H7, H8.
  repeat split; assumption.
Qed.

Lemma summary_counters_exact_witness :
  exists report : QualityReport,
    run_analysis sample_parse no_flake8 _get_default_config "demo"
      [plain_file; long_line_file; broken_file] [] = Returned report
    /\ sum_Z (map snd (issues_by_severity (summary report))) = 4.
Proof.
  destruct (run_analysis sample_parse no_flake8 _get_default_config "demo"
              [plain_file; long_line_file; broken_file] [])
    as [report|msg] eqn:Hrun; [|vm_compute in Hrun; discriminate Hrun].
  exists report. split; [reflexivity|].
  destruct (summary_counters_exact _ _ _ _ _ _ _ Hrun)
    as (_ & _ & Hsum & _).
  rewrite Hsum. vm_compute in Hrun. inversion Hrun. reflexivity.
Defined.

(** ** Runs that raise, runs that follow a run *)

Lemma analysis_loop_raised (ast_parse : string -> parse_result)
  (flake8 : string -> tool_outcome) (config : Config)
  (files : list source_file) :
  forall all_issues total d msg,
    analysis_loop ast_parse flake8 config files all_issues total d
    = Raised msg
    <-> exists before file after,
          files = before ++ file :: after
          /\ Forall (fun f => tool_raises flake8 f = false) before
          /\ flake8 (path file) = ToolRaised msg.
Proof.
  induction files as [|first files IH]; intros all_issues total d msg;
    cbn [analysis_loop].
  - split; [discriminate|]. intros (before & file & after & Heq & _).
    destruct before; discriminate.
  - destruct (tool_raises flake8 first) eqn:Htool.
    + assert (Hfirst : exists text, flake8 (path first) = ToolRaised text).
      { unfold tool_raises in Htool.
        destruct (flake8 (path first)); try discriminate. eexists.
        reflexivity. }
      destruct Hfirst as [text Hfirst].
      assert (Hfile : analyze_file ast_parse flake8 config d first
                      = Raised text).
      { unfold analyze_file, run_external_tools. rewrite Hfirst.
        reflexivity. }
      rewrite Hfile. split.
      * intros Hmsg. inversion Hmsg; subst.
        exists [], first, files. repeat split; [constructor | exact Hfirst].
      * intros (before & file & after & Heq & Hbefore & Hfile').
        destruct before as [|b before]; cbn [app] in Heq; inversion Heq; subst.
        -- congruence.
        -- inversion Hbefore; subst. congruence.
    + rewrite (analyze_file_total ast_parse flake8 config d first Htool).
      rewrite IH. split.
      * intros (before & file & after & -> & Hbefore & Hfile).
        exists (first :: before), file, after.
        repeat split; [constructor; assumption | exact Hfile].
      * intros (before & file & after & Heq & Hbefore & Hfile).
        destruct before as [|b before]; cbn [app] in Heq; inversion Heq; subst.
        -- unfold tool_raises in Htool. rewrite Hfile in Htool. discriminate.
        -- inversion Hbefore; subst. exists before, file, after. auto.
Qed.

(** A run raises exactly when the decoding of the tool's output raises
    on some file: the exception of the first such file goes up to the
    caller of [run_analysis], no report is built and the files after it
    are not analysed. *)
Theorem run_raises_at_first_tool_exception :
  forall (ast_parse : string -> parse_result) (flake8 : string -> tool_outcome)
         (config : Config) (project : string) (files : list source_file)
         (d : list (string * CodeMetrics)) (msg : string),
    run_analysis ast_parse flake8 config project files d = Raised msg
    <-> exists before file after,
          files = before ++ file :: after
          /\ Forall (fun f => tool_raises flake8 f = false) before
          /\ flake8 (path file) = ToolRaised msg.
Proof.
  intros. rewrite <- (analysis_loop_raised ast_parse flake8 config files [] 0 d).
  unfold run_analysis.
  destruct (analysis_loop ast_parse flake8 config files [] 0 d)
    as [[[all_issues total] d']|text]; split; intros H;
    try discriminate; inversion H; reflexivity.
Qed.

Lemma run_raises_at_first_tool_exception_witness :
  run_analysis sample_parse failing_flake8 _get_default_config "demo"
    [plain_file; long_line_file; broken_file] []
  = Raised "invalid literal for int() with base 10".
Proof.
  apply run_raises_at_first_tool_exception.
  exists [plain_file], long_line_file, [broken_file].
  repeat split. repeat constructor.
Defined.

Lemma dict_set_present {V : Type} (d : list (string * V)) (k : string)
  (v : V) :
  NoDup (map fst d) -> In (k, v) d -> dict_set d k v = d.
Proof.
  induction d as [|[k' v'] d IH]; cbn [map fst dict_set In];
    intros Hnodup Hin; [contradiction|].
  apply NoDup_cons_iff in Hnodup. destruct Hnodup as [Hfresh Hnodup].
  destruct (String.eqb_spec k' k) as [->|Hneq].
  - destruct Hin as [Heq|Hin]; [congruence|].
    exfalso. apply Hfresh. apply (in_map fst) in Hin. exact Hin.
  - destruct Hin as [Heq|Hin]; [congruence|].
    rewrite (IH Hnodup Hin). reflexivity.
Qed.

(** [self.metrics] is never cleared: when a checker that has analysed
    files with distinct paths runs again over some of these files, the
    project metrics of the second report are those of the first run,
    over all the files of the first run; over the same files the second
    report is the first one. *)
Theorem metrics_survive_between_runs :
  forall (ast_parse : string -> parse_result) (flake8 : string -> tool_outcome)
         (config : Config) (project : string)
         (first_files second_files : list source_file)
         (all_issues : list CodeIssue) (total : Z)
         (d : list (string * CodeMetrics))
         (first_report second_report : QualityReport),
    NoDup (map path first_files) ->
    incl second_files first_files ->
    analysis_loop ast_parse flake8 config first_files [] 0 []
    = Returned (all_issues, total, d) ->
    run_analysis ast_parse flake8 config project first_files []
    = Returned first_report ->
    run_analysis ast_parse flake8 config project second_files d
    = Returned second_report ->
    metrics second_report = metrics first_report
    /\ (second_files = first_files -> second_report = first_report).
Proof.
  intros ast_parse flake8 config project first_files second_files all_issues
    total d first_report second_report Hnodup Hincl Hloop Hfirst Hsecond.
  apply analysis_loop_returned in Hloop.
  destruct Hloop as (_ & _ & Hd & Htools).
  rewrite stored_metrics_fresh in Hd by (assumption || (intros ? ? [])).
  cbn [app] in Hd.
  assert (Hkeys : NoDup (map fst d)).
  { rewrite Hd, map_map. exact Hnodup. }
  assert (Hstays :
            forall files : list source_file,
              incl files first_files ->
              fold_left
                (fun d file =>
                   dict_set d (path file) (calculate_metrics ast_parse file))
                files d = d).
  { induction files as [|file files IH]; intros Hfiles; [reflexivity|].
    cbn [fold_left]. rewrite dict_set_present.
    - apply IH. intros x Hx. apply Hfiles. right. exact Hx.
    - exact Hkeys.
    - rewrite Hd.
      apply (in_map (fun file => (path file, calculate_metrics ast_parse file))).
      apply Hfiles. left. reflexivity. }
  pose proof (run_analysis_issues _ _ _ _ _ _ _ Hfirst)
    as (_ & _ & _ & Hmetrics1 & _).
  pose proof (run_analysis_issues _ _ _ _ _ _ _ Hsecond)
    as (_ & _ & _ & Hmetrics2 & _).
  rewrite stored_metrics_fresh in Hmetrics1 by (assumption || (intros ? ? [])).
  cbn [app] in Hmetrics1. rewrite <- Hd in Hmetrics1.
  rewrite (Hstays second_files Hincl) in Hmetrics2.
  split; [congruence|].
  intros ->. unfold run_analysis in Hfirst, Hsecond.
  rewrite (analysis_loop_total ast_parse flake8 config first_files [] 0 []
             Htools) in Hfirst.
  rewrite (analysis_loop_total ast_parse flake8 config first_files [] 0 d
             Htools) in Hsecond.
  rewrite (Hstays first_files (incl_refl _)) in Hsecond.
  rewrite stored_metrics_fresh in Hfirst by (assumption || (intros ? ? [])).
  cbn [app] in Hfirst. rewrite <- Hd in Hfirst.
  injection Hfirst as <-. injection Hsecond as <-. reflexivity.
Qed.

Lemma metrics_survive_between_runs_witness :
  exists (d : list (string * CodeMetrics)) (report : QualityReport),
    run_analysis sample_parse no_flake8 _get_default_config "demo"
      [long_line_file] d = Returned report
    /\ total_files report = 1
    /\ function_count (metrics report) = 1.
Proof.
  destruct (analysis_loop sample_parse no_flake8 _get_default_config
              [plain_file; long_line_file] [] 0 [])
    as [[[all_issues total] d]|msg] eqn:Hloop;
    [|vm_compute in Hloop; discriminate Hloop].
  destruct (run_analysis sample_parse no_flake8 _get_default_config "demo"
              [plain_file; long_line_file] [])
    as [first_report|msg] eqn:Hfirst;
    [|vm_compute in Hfirst; discriminate Hfirst].
  destruct (run_analysis sample_parse no_flake8 _get_default_config "demo"
              [long_line_file] d)
    as [second_report|msg] eqn:Hsecond.
  - exists d, second_report. split; [exact Hsecond|].
    assert (Hpaths : NoDup (map path [plain_file; long_line_file])).
    { repeat constructor; cbn; intuition discriminate. }
    assert (Hincl : incl [long_line_file] [plain_file; long_line_file]).
    { intros x [<-|[]]. right. left. reflexivity. }
    destruct (metrics_survive_between_runs _ _ _ _ _ _ _ _ _ _ _
                Hpaths Hincl Hloop Hfirst Hsecond) as [Hmetrics _].
    rewrite Hmetrics.
    vm_compute in Hfirst. inversion Hfirst; subst first_report.
    unfold run_analysis in Hsecond.
    destruct (analysis_loop sample_parse no_flake8 _get_default_config
                [long_line_file] [] 0 d) as [[[i2 t2] d2]|]; [|discriminate].
    inversion Hsecond; subst second_report. split; reflexivity.
  - exfalso.
    assert (Hnone : Forall (fun f => tool_raises no_flake8 f = false)
                      [long_line_file]) by (repeat constructor).
    destruct (proj2 (run_analysis_returns sample_parse no_flake8
                       _get_default_config "demo" [long_line_file] d) Hnone)
      as [report Hreport].
    congruence.
Defined.

(** ** Ignored paths and the files of a project *)

Lemma prefix_append (pattern s : string) :
  String.prefix pattern s = true
  <-> exists after : string, s = (pattern ++ after)%string.
Proof.
  revert s. induction pattern as [|c pattern IH]; intros s.
  - split; [intros _; exists s; reflexivity|].
    intros _. destruct s; reflexivity.
  - destruct s as [|c' s]; cbn [String.prefix].
    + split; [discriminate|]. intros [after H]. discriminate.
    + destruct (Ascii.ascii_dec c c') as [->|Hneq].
      * rewrite IH. split; intros [after H]; exists after.
        -- cbn [append]. rewrite H. reflexivity.
        -- cbn [append] in H. inversion H. reflexivity.
      * split; [discriminate|]. intros [after H]. cbn [append] in H.
        inversion H. congruence.
Qed.

Lemma contains_append (pattern s : string) :
  contains pattern s = true
  <-> exists before after : string, s = (before ++ pattern ++ after)%string.
Proof.
  induction s as [|c s IH]; cbn [contains].
  - rewrite orb_false_r, prefix_append. split.
    + intros [after H]. exists EmptyString, after. exact H.
    + intros (before & after & H). destruct before; cbn [append] in H.
      * exists after. exact H.
      * discriminate.
  - rewrite orb_true_iff, prefix_append, IH. split.
    + intros [[after H]|(before & after & H)].
      * exists EmptyString, after. exact H.
      * exists (String c before), after. cbn [append]. rewrite H. reflexivity.
    + intros (before & after & H). destruct before as [|c' before];
        cbn [append] in H.
      * left. exists after. exact H.
      * right. inversion H. exists before, after. reflexivity.
Qed.

(** A path is ignored exactly when one of the patterns stands somewhere
    in it, as it is written: a pattern is no wildcard and is not tied to
    a component of the path, and an empty pattern ignores every path. *)
Theorem ignored_iff_pattern_occurs :
  forall (ignore_patterns : list string) (file_path : string),
    (_should_ignore_file ignore_patterns file_path = true
     <-> exists pattern before after : string,
           In pattern ignore_patterns
           /\ file_path = (before ++ pattern ++ after)%string)
    /\ (In EmptyString ignore_patterns ->
        _should_ignore_file ignore_patterns file_path = true)
    /\ (ignore_patterns = [] ->
        _should_ignore_file ignore_patterns file_path = false).
Proof.
  intros ignore_patterns file_path.
  assert (Hiff : _should_ignore_file ignore_patterns file_path = true
                 <-> exists pattern before after : string,
                       In pattern ignore_patterns
                       /\ file_path = (before ++ pattern ++ after)%string).
  { unfold _should_ignore_file. rewrite existsb_exists. split.
    - intros (pattern & Hin & Hcontains).
      apply contains_append in Hcontains.
      destruct Hcontains as (before & after & H).
      exists pattern, before, after. auto.
    - intros (pattern & before & after & Hin & H).
      exists pattern. split; [exact Hin|].
      apply contains_append. exists before, after. exact H. }
  split; [exact Hiff|]. split.
  - intros Hin. apply Hiff. exists EmptyString, EmptyString, file_path. auto.
  - intros ->. reflexivity.
Qed.

Lemma ignored_iff_pattern_occurs_witness :
  _should_ignore_file default_ignore_patterns ".github/check.py" = true
  /\ _should_ignore_file default_ignore_patterns "pkg/cache.pyc" = false.
Proof.
  split.
  - apply (proj1 (ignored_iff_pattern_occurs default_ignore_patterns
                    ".github/check.py")).
    exists ".git"%string, EmptyString, "hub/check.py"%string.
    split; [cbn; auto | reflexivity].
  - reflexivity.
Defined.

Lemma dir_tree_induction (P : dir_tree -> Prop) :
  (forall dirs files,
      Forall (fun entry => P (snd entry)) dirs -> P (Directory dirs files)) ->
  forall tree : dir_tree, P tree.
Proof.
  intros Hstep. fix IH 1. intros [dirs files]. apply Hstep.
  induction dirs as [|[d subtree] dirs IHdirs]; constructor.
  - apply IH.
  - exact IHdirs.
Qed.


Section FoundFiles.

Variable path_str : string -> string -> string.
Variable walk_join : string -> string -> string.

Local Notation find patterns := (find_python_files path_str walk_join patterns).







End FoundFiles.




(** ** The external tool *)

Example py_int_values :
  py_int "12" = Some 12 /\ py_int " 12 " = Some 12 /\ py_int "+12" = Some 12
  /\ py_int "-12" = Some (-12) /\ py_int "- 12" = None
  /\ py_int "1_000" = Some 1000 /\ py_int "_1" = None /\ py_int "1_" = None
  /\ py_int "1__0" = None /\ py_int EmptyString = None /\ py_int "+" = None
  /\ py_int "007" = Some 7 /\ py_int "0x10" = None /\ py_int "1 2" = None
  /\ py_int "-0" = Some 0.
Proof. repeat split; reflexivity. Qed.

Example split_on_values :
  split_on ":"%char "a:b" = ["a"; "b"]%string
  /\ split_on ":"%char EmptyString = [EmptyString]
  /\ split_on ":"%char "a:" = ["a"%string; EmptyString]
  /\ split_on ":"%char ":" = [EmptyString; EmptyString].
Proof. repeat split; reflexivity. Qed.

Example tool_samples :
  flake8_tool sample_process no_json "long.py"
  = ToolEntries
      [mkFlake8Entry "long.py" 2 "warning" "80: E501 line too long";
       mkFlake8Entry "long.py" 4 "warning"
         "1: W391 blank line at end of file"]
  /\ exists str_e, flake8_tool drive_process no_json "long.py"
                   = ToolRaised str_e.
Proof. split; [reflexivity | eexists; reflexivity]. Qed.




























Lemma flake8_text_loop_raises (lines : list string) :
  (exists str_e, flake8_text_loop lines = Raised str_e)
  <-> existsb undecodable_line lines = true.
Proof.
  unfold undecodable_line.
  induction lines as [|line lines IH]; cbn [flake8_text_loop existsb].
  - split; [intros [str_e H]; discriminate | discriminate].
  - destruct (is_empty (strip line)); cbn [negb andb orb]; [exact IH|].
    destruct (3 <=? List.length (split_on ":"%char line))%nat;
      cbn [andb orb]; [|exact IH].
    destruct (py_int (nth 1 (split_on ":"%char line) EmptyString)).
    + cbn [orb]. rewrite <- IH.
      destruct (flake8_text_loop lines) as [entries|str_e].
      * split; intros [e H]; discriminate.
      * split; intros _; eexists; reflexivity.
    + cbn [orb]. split; [reflexivity|]. intros _. eexists. reflexivity.
Qed.

(** When the tool ends with a status other than 0 and its output is no
    JSON, [run_external_tools] raises [ValueError] exactly when some
    line of the output that is not blank has three fields or more
    between colons and a second field that [int] does not accept (a colon
    in the file name is enough); the exception is not among those the
    function catches. *)
Theorem flake8_text_raises :
  forall (subprocess_run : string -> process_result)
         (json_loads : string -> json_result) (file : source_file)
         (returncode : Z) (stdout : string),
    returncode <> 0 ->
    subprocess_run (path file) = Completed returncode stdout ->
    json_loads stdout = JsonDecodeError ->
    ((exists str_e : string,
         run_external_tools (flake8_tool subprocess_run json_loads) file
         = Raised str_e)
     <-> exists line : string,
           In line (split_on "010"%char stdout)
           /\ strip line <> EmptyString
           /\ (3 <= List.length (split_on ":"%char line))%nat
           /\ py_int (nth 1 (split_on ":"%char line) EmptyString) = None).
Proof.
  intros subprocess_run json_loads file returncode stdout Hcode Hrun Hjson.
  assert (Htool :
            (exists str_e,
                run_external_tools (flake8_tool subprocess_run json_loads) file
                = Raised str_e)
            <-> exists str_e,
                  flake8_text_loop (split_on "010"%char stdout) = Raised str_e).
  { unfold run_external_tools, flake8_tool. rewrite Hrun.
    apply Z.eqb_neq in Hcode. rewrite Hcode, Hjson.
    destruct (flake8_text_loop (split_on "010"%char stdout))
      as [entries|str_e]; split; intros [e H]; try discriminate;
      eexists; reflexivity. }
  rewrite Htool, flake8_text_loop_raises, existsb_exists.
  unfold undecodable_line. split.
  - intros (line & Hin & Hbad). exists line. split; [exact Hin|].
    apply andb_prop in Hbad. destruct Hbad as [Hbad Hint].
    apply andb_prop in Hbad. destruct Hbad as [Hblank Hparts].
    repeat split.
    + intros Hempty. rewrite Hempty in Hblank. discriminate.
    + apply Nat.leb_le. exact Hparts.
    + destruct (py_int _); [discriminate|reflexivity].
  - intros (line & Hin & Hblank & Hparts & Hint). exists line.
    split; [exact Hin|]. rewrite Hint.
    apply Nat.leb_le in Hparts. rewrite Hparts.
    destruct (strip line); [congruence|reflexivity].
Qed.

Lemma flake8_text_raises_witness :
  exists str_e : string,
    run_external_tools (flake8_tool drive_process no_json) long_line_file
    = Raised str_e.
Proof.
  apply (flake8_text_raises drive_process no_json long_line_file 1
           (String.concat (String backslash EmptyString)
              ["C:"; "src"; "long.py"]
            ++ ":2:80: E501 line too long")%string);
    try reflexivity; [discriminate|].
  eexists. split; [left; reflexivity|].
  split; [vm_compute; discriminate|].
  split; [vm_compute; lia | reflexivity].
Defined.

(** ** Severities *)

Lemma flake8_text_loop_severity (lines : list string) :
  forall entries : list flake8_entry,
    flake8_text_loop lines = Returned entries ->
    Forall (fun e => entry_severity e = "warning"%string) entries.
Proof.
  induction lines as [|line lines IH]; intros entries;
    cbn [flake8_text_loop].
  - intros H. inversion H. constructor.
  - destruct (is_empty (strip line)); [apply IH|].
    destruct (3 <=? List.length (split_on ":"%char line))%nat; [|apply IH].
    destruct (py_int _); [|discriminate].
    destruct (flake8_text_loop lines) as [rest|]; [|discriminate].
    intros H. inversion H. constructor; [reflexivity | apply IH; reflexivity].
Qed.

Lemma naming_loop_severity (file : source_file) (nodes : list ast) :
  Forall (fun issue => known_severity issue = true)
    (fst (naming_loop file nodes)).
Proof.
  induction nodes as [|node nodes IH]; cbn [naming_loop]; [constructor|].
  assert (Hstep : forall found, naming_step file node = Returned found ->
                                Forall (fun issue => known_severity issue = true)
                                  found).
  { intros found. destruct node; cbn [naming_step]; intros H;
      try (inversion H; constructor; fail).
    - inversion H.
      destruct (negb (islower name) && negb (has_underscore name));
        repeat constructor.
    - destruct name; [discriminate|]. inversion H.
      destruct (negb (is_ascii_upper a) || has_underscore (String a name));
        repeat constructor.
    - destruct node; inversion H; try (constructor; fail).
      destruct (negb (islower id) && negb (has_underscore id)
                && negb (isupper id)); repeat constructor. }
  destruct (naming_step file node) as [found|str_e]; [|constructor].
  destruct (naming_loop file nodes) as [later raised]. cbn [fst] in *.
  apply Forall_app. split; [apply Hstep; reflexivity | exact IH].
Qed.

(** Every issue of a file has one of the three severities error,
    warning and info, the issues decoded from the external tool
    included (warning or error there). *)
Theorem issues_have_known_severity :
  forall (ast_parse : string -> parse_result)
         (subprocess_run : string -> process_result)
         (json_loads : string -> json_result) (config : Config)
         (file : source_file),
    Forall
      (fun issue =>
         severity issue = "error"%string
         \/ severity issue = "warning"%string
         \/ severity issue = "info"%string)
      (issues_of_file ast_parse (flake8_tool subprocess_run json_loads)
         config file).
Proof.
  intros ast_parse subprocess_run json_loads config file.
  apply (Forall_impl (P := fun issue => known_severity issue = true)).
  { intros issue H. unfold known_severity in H.
    apply orb_prop in H. destruct H as [H|H];
      [apply orb_prop in H; destruct H as [H|H]|];
      apply String.eqb_eq in H; auto. }
  unfold issues_of_file, analyze_file.
  destruct (run_external_tools (flake8_tool subprocess_run json_loads) file)
    as [external|str_e] eqn:Htool; [|constructor].
  repeat (apply Forall_app; split).
  - unfold analyze_syntax.
    destruct (contents file) as [lines|yielded msg]; [|repeat constructor].
    destruct (ast_parse (join_lines lines)); repeat constructor.
  - assert (Hloop : forall lines start,
               Forall (fun issue => known_severity issue = true)
                 (line_length_loop config file start lines)).
    { induction lines as [|line lines IH]; intros start;
        cbn [line_length_loop]; [constructor|].
      apply Forall_app. split; [|apply IH].
      destruct (max_line_length config <? len (rstrip_newline line));
        repeat constructor. }
    unfold check_line_length.
    destruct (contents file) as [lines|yielded msg]; [apply Hloop|].
    apply Forall_app. split; [apply Hloop | repeat constructor].
  - unfold check_naming_conventions.
    destruct (read_and_parse ast_parse file) as [tree|str_e];
      [|repeat constructor].
    pose proof (naming_loop_severity file (walk tree)) as Hloop.
    destruct (naming_loop file (walk tree)) as [found raised].
    cbn [fst] in Hloop. destruct raised; [|exact Hloop].
    apply Forall_app. split; [exact Hloop | repeat constructor].
  - unfold analyze_complexity.
    destruct (read_and_parse ast_parse file) as [tree|str_e];
      [|repeat constructor].
    apply Forall_forall. intros issue Hin. apply in_flat_map in Hin.
    destruct Hin as (node & _ & Hin).
    destruct node; try contradiction; cbn [complexity_step] in Hin.
    + destruct (max_function_complexity config <? _); [|contradiction].
      destruct Hin as [<-|[]]. reflexivity.
    + destruct (max_class_complexity config <? _); [|contradiction].
      destruct Hin as [<-|[]]. reflexivity.
  - unfold run_external_tools, flake8_tool in Htool.
    destruct (subprocess_run (path file)) as [|returncode stdout].
    + inversion Htool. constructor.
    + destruct (returncode =? 0); [inversion Htool; constructor|].
      destruct (json_loads stdout) as [|decoded|str_e].
      * destruct (flake8_text_loop (split_on "010"%char stdout))
          as [entries|str_e] eqn:Hloop; [|discriminate].
        inversion Htool. apply Forall_map.
        eapply Forall_impl; [|exact (flake8_text_loop_severity _ _ Hloop)].
        cbn. intros e He. unfold known_severity. cbn. rewrite He.
        reflexivity.
      * inversion Htool. rewrite map_map. apply Forall_map, Forall_forall.
        intros issue _. unfold known_severity. cbn.
        destruct (startswith_W (json_code issue)); reflexivity.
      * discriminate.
Qed.

(** ** The detailed section of the report *)

Example detailed_issues_sample :
  detailed_issues
    (mkQualityReport "demo" 2 3 zero_metrics mixed_issues
       (mkSummary 2 3 [] [] (PFloat 90)))
  = [ (newline ++ dashes)%string; "DETAILED ISSUES"%string; dashes;
      (newline ++ "b.py:")%string;
      "  Line 2: [ERROR] early"%string;
      "  Line 7: [INFO] late"%string;
      (newline ++ "a.py:")%string;
      "  Line 3: [WARNING] first"%string;
      "    Suggestion: wrap"%string ].
Proof. reflexivity. Qed.

Lemma insert_by_line_permutation (issue : CodeIssue)
  (sorted : list CodeIssue) :
  Permutation (insert_by_line issue sorted) (issue :: sorted).
Proof.
  induction sorted as [|next sorted IH]; cbn [insert_by_line]; [reflexivity|].
  destruct (line_number issue <=? line_number next); [reflexivity|].
  rewrite IH. apply perm_swap.
Qed.

Lemma sorted_by_line_permutation (file_issues : list CodeIssue) :
  Permutation (sorted_by_line file_issues) file_issues.
Proof.
  induction file_issues as [|issue file_issues IH]; [reflexivity|].
  cbn [sorted_by_line fold_right]. rewrite insert_by_line_permutation.
  constructor. exact IH.
Qed.

Lemma insert_by_line_sorted (issue : CodeIssue) (sorted : list CodeIssue) :
  StronglySorted Z.le (map line_number sorted) ->
  StronglySorted Z.le (map line_number (insert_by_line issue sorted)).
Proof.
  induction sorted as [|next sorted IH]; cbn [insert_by_line map];
    intros Hsorted.
  - repeat constructor.
  - inversion Hsorted as [|? ? Hrest Hall]; subst.
    destruct (line_number issue <=? line_number next) eqn:Hle.
    + apply Z.leb_le in Hle. cbn [map]. constructor; [exact Hsorted|].
      constructor; [exact Hle|].
      eapply Forall_impl; [|exact Hall]. cbn. intros; lia.
    + apply Z.leb_gt in Hle. cbn [map]. constructor; [apply IH, Hrest|].
      eapply Permutation_Forall.
      * symmetry. apply Permutation_map, insert_by_line_permutation.
      * cbn [map]. constructor; [lia | exact Hall].
Qed.

Lemma sorted_by_line_sorted (file_issues : list CodeIssue) :
  StronglySorted Z.le (map line_number (sorted_by_line file_issues)).
Proof.
  induction file_issues as [|issue file_issues IH]; [constructor|].
  cbn [sorted_by_line fold_right]. apply insert_by_line_sorted, IH.
Qed.

Lemma insert_by_line_stable (issue : CodeIssue) (sorted : list CodeIssue)
  (n : Z) :
  StronglySorted Z.le (map line_number sorted) ->
  filter (fun i => line_number i =? n) (insert_by_line issue sorted)
  = filter (fun i => line_number i =? n) (issue :: sorted).
Proof.
  induction sorted as [|next sorted IH]; cbn [insert_by_line map];
    intros Hsorted; [reflexivity|].
  inversion Hsorted as [|? ? Hrest Hall]; subst.
  destruct (line_number issue <=? line_number next) eqn:Hle; [reflexivity|].
  apply Z.leb_gt in Hle. cbn [filter]. rewrite (IH Hrest). cbn [filter].
  destruct (line_number next =? n) eqn:Hnext; [|reflexivity].
  destruct (line_number issue =? n) eqn:Hissue; [|reflexivity].
  apply Z.eqb_eq in Hnext. apply Z.eqb_eq in Hissue. lia.
Qed.

Lemma sorted_by_line_stable (file_issues : list CodeIssue) (n : Z) :
  filter (fun i => line_number i =? n) (sorted_by_line file_issues)
  = filter (fun i => line_number i =? n) file_issues.
Proof.
  induction file_issues as [|issue file_issues IH]; [reflexivity|].
  cbn [sorted_by_line fold_right].
  rewrite insert_by_line_stable by apply sorted_by_line_sorted.
  cbn [filter]. fold (sorted_by_line file_issues). rewrite IH. reflexivity.
Qed.

Lemma dict_get_default_set {V : Type} (d : list (string * V))
  (k k' : string) (v default : V) :
  dict_get_default (dict_set d k v) k' default
  = if String.eqb k k' then v else dict_get_default d k' default.
Proof.
  unfold dict_get_default. destruct (String.eqb_spec k k') as [->|Hneq].
  - rewrite dict_get_set_same. reflexivity.
  - rewrite dict_get_set_other by exact Hneq. reflexivity.
Qed.

Lemma group_step_permutation (d : list (string * list CodeIssue))
  (issue : CodeIssue) :
  Permutation
    (flat_map snd
       (dict_set d (file_path issue)
          (dict_get_default d (file_path issue) [] ++ [issue])))
    (issue :: flat_map snd d).
Proof.
  unfold dict_get_default.
  induction d as [|[k v] d IH]; cbn [dict_get dict_set flat_map snd app].
  - reflexivity.
  - destruct (String.eqb k (file_path issue)); cbn [flat_map snd].
    + rewrite <- app_assoc. cbn [app]. symmetry.
      apply Permutation_middle.
    + rewrite IH. symmetry. apply Permutation_middle.
Qed.

(** The grouping loop, from any dictionary on. *)
Lemma group_loop_spec (issues : list CodeIssue) :
  forall d : list (string * list CodeIssue),
    NoDup (map fst d) ->
    Forall (fun entry => Forall (fun i => file_path i = fst entry) (snd entry))
      d ->
    let final :=
      fold_left
        (fun d issue =>
           dict_set d (file_path issue)
             (dict_get_default d (file_path issue) [] ++ [issue]))
        issues d in
    Permutation (flat_map snd final) (flat_map snd d ++ issues)
    /\ NoDup (map fst final)
    /\ Forall
         (fun entry => Forall (fun i => file_path i = fst entry) (snd entry))
         final
    /\ (forall f : string,
          dict_get_default final f []
          = dict_get_default d f []
            ++ filter (fun i => String.eqb (file_path i) f) issues).
Proof.
  induction issues as [|issue issues IH]; intros d Hnodup Hfiles;
    cbn [fold_left].
  - cbn zeta. rewrite app_nil_r.
    split; [reflexivity|]. split; [exact Hnodup|]. split; [exact Hfiles|].
    intros f. cbn [filter]. rewrite app_nil_r. reflexivity.
  - assert (Hfiles' :
              Forall
                (fun entry =>
                   Forall (fun i => file_path i = fst entry) (snd entry))
                (dict_set d (file_path issue)
                   (dict_get_default d (file_path issue) [] ++ [issue]))).
    { clear IH Hnodup. unfold dict_get_default.
      induction Hfiles as [|[k v] d Hentry Hd IHd];
        cbn [dict_get dict_set].
      - repeat constructor.
      - destruct (String.eqb_spec k (file_path issue)) as [Hk|Hk].
        + constructor; [|exact Hd]. cbn [fst snd] in *.
          apply Forall_app. split; [exact Hentry|].
          repeat constructor. congruence.
        + constructor; [exact Hentry | exact IHd]. }
    destruct (IH _ (dict_set_nodup _ _ _ Hnodup) Hfiles')
      as (Hperm & Hkeys & Hall & Hget).
    cbn zeta in *. repeat split; try assumption.
    + rewrite Hperm, group_step_permutation.
      rewrite <- Permutation_middle. reflexivity.
    + intros f. rewrite Hget, dict_get_default_set. cbn [filter].
      destruct (String.eqb_spec (file_path issue) f) as [->|Hneq].
      * rewrite <- app_assoc. reflexivity.
      * reflexivity.
Qed.

Lemma group_loop_nonempty (issues : list CodeIssue) :
  forall d : list (string * list CodeIssue),
    Forall (fun entry => snd entry <> []) d ->
    forall entry : string * list CodeIssue,
      In entry
        (fold_left
           (fun d issue =>
              dict_set d (file_path issue)
                (dict_get_default d (file_path issue) [] ++ [issue]))
           issues d) ->
      snd entry <> [].
Proof.
  induction issues as [|issue issues IH]; intros d Hd entry;
    cbn [fold_left].
  - intros Hin. rewrite Forall_forall in Hd. apply Hd, Hin.
  - apply IH. clear IH. generalize (dict_get_default d (file_path issue) []).
    intros old. induction Hd as [|[k v] d Hentry Hd IHd]; cbn [dict_set].
    + repeat constructor. cbn [snd]. destruct old; discriminate.
    + destruct (String.eqb k (file_path issue)).
      * constructor; [|exact Hd]. cbn [snd]. destruct old; discriminate.
      * constructor; [exact Hentry | exact IHd].
Qed.

Lemma dict_set_key_kept {V : Type} (d : list (string * V)) (k k' : string)
  (v : V) :
  In k' (map fst d) \/ k' = k -> In k' (map fst (dict_set d k v)).
Proof.
  rewrite dict_set_keys.
  destruct (existsb (String.eqb k) (map fst d)) eqn:Hin.
  - intros [H|Heq]; [exact H|]. subst k'. apply existsb_exists in Hin.
    destruct Hin as (k0 & Hk0 & Heq). apply String.eqb_eq in Heq.
    subst k0. exact Hk0.
  - intros [H|Heq]; apply in_or_app;
      [left; exact H | right; left; symmetry; exact Heq].
Qed.

Lemma group_keys_cover (issues : list CodeIssue) :
  forall (d : list (string * list CodeIssue)) (issue : CodeIssue),
    In issue issues ->
    In (file_path issue)
      (map fst
         (fold_left
            (fun d issue =>
               dict_set d (file_path issue)
                 (dict_get_default d (file_path issue) [] ++ [issue]))
            issues d)).
Proof.
  assert (Hkept : forall (l : list CodeIssue)
                         (d : list (string * list CodeIssue)) (k : string),
             In k (map fst d) ->
             In k
               (map fst
                  (fold_left
                     (fun d issue =>
                        dict_set d (file_path issue)
                          (dict_get_default d (file_path issue) []
                           ++ [issue]))
                     l d))).
  { induction l as [|i l IH]; intros d k Hk; cbn [fold_left]; [exact Hk|].
    apply IH, dict_set_key_kept. left. exact Hk. }
  induction issues as [|first issues IH]; intros d issue Hin;
    [contradiction|].
  cbn [fold_left]. destruct Hin as [Heq|Hin].
  - subst first. apply Hkept, dict_set_key_kept. right. reflexivity.
  - apply IH, Hin.
Qed.

(** The detailed section lists every issue of the report once: every
    path that has an issue gets one group, and the group holds the issues
    of the report for that path, by increasing line number, the issues
    of one line in the order they have in the report. *)
Theorem detailed_issues_cover_report :
  forall issues : list CodeIssue,
    Permutation
      (flat_map (fun entry => sorted_by_line (snd entry))
         (group_by_file issues))
      issues
    /\ NoDup (map fst (group_by_file issues))
    /\ (forall issue : CodeIssue,
          In issue issues ->
          In (file_path issue) (map fst (group_by_file issues)))
    /\ (forall (f : string) (file_issues : list CodeIssue),
          In (f, file_issues) (group_by_file issues) ->
          file_issues <> []
          /\ file_issues = filter (fun i => String.eqb (file_path i) f) issues
          /\ StronglySorted Z.le
               (map line_number (sorted_by_line file_issues))
          /\ forall n : Z,
               filter (fun i => line_number i =? n)
                 (sorted_by_line file_issues)
               = filter
                   (fun i =>
                      String.eqb (file_path i) f && (line_number i =? n))
                   issues).
Proof.
  intros issues. unfold group_by_file.
  destruct (group_loop_spec issues [] (NoDup_nil _) (Forall_nil _))
    as (Hperm & Hkeys & Hall & Hget).
  cbn zeta in *. cbn [flat_map app] in Hperm.
  split; [|split; [exact Hkeys|split]].
  - etransitivity; [|exact Hperm]. clear.
    induction (fold_left _ issues []) as [|[f file_issues] groups IH];
      [reflexivity|].
    cbn [flat_map snd]. apply Permutation_app; [|exact IH].
    apply sorted_by_line_permutation.
  - intros issue Hin. apply (group_keys_cover issues [] issue). exact Hin.
  - intros f file_issues Hin.
    assert (Hfile : file_issues
                    = filter (fun i => String.eqb (file_path i) f) issues).
    { rewrite <- (app_nil_l (filter _ issues)).
      change (@nil CodeIssue) with (dict_get_default (@nil (string * list CodeIssue)) f []).
      rewrite <- Hget. unfold dict_get_default.
      clear Hperm Hall Hget.
      induction (fold_left _ issues []) as [|[k v] groups IH];
        [contradiction|].
      cbn [map fst] in Hkeys. apply NoDup_cons_iff in Hkeys.
      destruct Hkeys as [Hfresh Hkeys]. cbn [dict_get].
      destruct Hin as [Heq|Hin].
      - inversion Heq; subst. rewrite String.eqb_refl. reflexivity.
      - destruct (String.eqb_spec k f) as [->|Hneq].
        + exfalso. apply Hfresh. apply (in_map fst) in Hin. exact Hin.
        + apply IH; assumption. }
    split; [|split; [exact Hfile|split]].
    + apply (group_loop_nonempty issues [] (Forall_nil _)) in Hin.
      exact Hin.
    + apply sorted_by_line_sorted.
    + intros n. rewrite sorted_by_line_stable, Hfile.
      clear. induction issues as [|issue issues IH]; [reflexivity|].
      cbn [filter]. destruct (String.eqb (file_path issue) f);
        cbn [filter andb]; rewrite IH; reflexivity.
Qed.

Lemma issue_lines_length (file_issues : list CodeIssue) :
  List.length (flat_map issue_lines file_issues)
  = (List.length file_issues
     + List.length (filter has_suggestion file_issues))%nat.
Proof.
  induction file_issues as [|issue file_issues IH]; [reflexivity|].
  cbn [flat_map filter]. rewrite length_app, IH.
  unfold issue_lines, has_suggestion.
  destruct (suggestion issue) as [text|]; [destruct (is_empty text)|];
    cbn [negb List.length]; lia.
Qed.

(** With no issue the detailed section prints nothing; otherwise it
    makes three calls for its heading, one for every file path that has
    an issue, one for every issue and one more for every issue with a
    suggestion of at least one character. *)
Theorem detailed_issues_line_count :
  forall report : QualityReport,
    (issues report = [] -> detailed_issues report = [])
    /\ (issues report <> [] ->
        List.length (detailed_issues report)
        = (3
           + List.length (nodup string_dec (map file_path (issues report)))
           + List.length (issues report)
           + List.length (filter has_suggestion (issues report)))%nat).
Proof.
  intros report. unfold detailed_issues.
  destruct (issues report) as [|first rest] eqn:Hissues;
    [split; [reflexivity | congruence]|].
  split; [discriminate|]. intros _. rewrite <- Hissues.
  generalize (issues report). clear. intros issues.
  rewrite length_app. cbn [List.length].
  assert (Hkeys : List.length (group_by_file issues)
                  = List.length (nodup string_dec (map file_path issues))).
  { rewrite <- (length_map fst). apply Permutation_length.
    unfold group_by_file.
    destruct (group_loop_spec issues [] (NoDup_nil _) (Forall_nil _))
      as (_ & Hnodup & Hall & _). cbn zeta in *.
    apply NoDup_Permutation; [exact Hnodup | apply NoDup_nodup|].
    intros f. rewrite nodup_In. split.
    - intros Hin. apply in_map_iff. apply in_map_iff in Hin.
      destruct Hin as ([f' file_issues] & Heq & Hin). cbn [fst] in Heq.
      subst f'.
      pose proof (group_loop_nonempty issues [] (Forall_nil _) _ Hin)
        as Hnonempty.
      rewrite Forall_forall in Hall. specialize (Hall _ Hin).
      cbn [fst snd] in *.
      destruct file_issues as [|issue file_issues]; [congruence|].
      apply Forall_inv in Hall.
      exists issue. split; [exact Hall|].
      assert (Hperm : Permutation
                        (flat_map snd
                           (fold_left
                              (fun d issue =>
                                 dict_set d (file_path issue)
                                   (dict_get_default d (file_path issue) []
                                    ++ [issue]))
                              issues []))
                        issues).
      { destruct (group_loop_spec issues [] (NoDup_nil _) (Forall_nil _))
          as (Hperm & _). exact Hperm. }
      apply (Permutation_in _ Hperm). apply in_flat_map.
      exists (f, issue :: file_issues). split; [exact Hin | left; reflexivity].
    - intros Hin. apply in_map_iff in Hin.
      destruct Hin as (issue & Hpath & Hin). subst f.
      apply (group_keys_cover issues [] issue Hin). }
  assert (Hlines :
            forall groups : list (string * list CodeIssue),
              List.length
                (flat_map
                   (fun entry : string * list CodeIssue =>
                      (newline ++ fst entry ++ ":")%string
                      :: flat_map issue_lines (sorted_by_line (snd entry)))
                   groups)
              = (List.length groups
                 + List.length
                     (flat_map issue_lines
                        (flat_map (fun entry => sorted_by_line (snd entry))
                           groups)))%nat).
  { induction groups as [|entry groups IH]; [reflexivity|].
    cbn [flat_map List.length app]. rewrite flat_map_app, !length_app, IH.
    lia. }
  rewrite Hlines, issue_lines_length, Hkeys.
  assert (Hperm : Permutation
                    (flat_map (fun entry => sorted_by_line (snd entry))
                       (group_by_file issues))
                    issues).
  { unfold group_by_file.
    destruct (group_loop_spec issues [] (NoDup_nil _) (Forall_nil _))
      as (Hperm & _). cbn zeta in Hperm. cbn [flat_map app] in Hperm.
    etransitivity; [|exact Hperm]. clear.
    induction (fold_left _ issues []) as [|[f file_issues] groups IH];
      [reflexivity|].
    cbn [flat_map snd]. apply Permutation_app; [|exact IH].
    apply sorted_by_line_permutation. }
  rewrite (Permutation_length Hperm).
  rewrite (Permutation_length (filter_permutation has_suggestion _ _ Hperm)).
  lia.
Qed.

(** ** The checker as [main] runs it *)

Section CliFind.

Variable path_str : string -> string -> string.
Variable walk_join : string -> string -> string.
Variable cfg : config_dict.

Lemma ignored_dirs_given (patterns : list string) (root : string)
  (dirs : list string) :
  given_ignore_patterns cfg = Some patterns ->
  Cli.ignored_dirs path_str cfg root dirs
  = Returned
      (map (fun d => _should_ignore_file patterns (path_str root d)) dirs).
Proof.
  intros Hgiven. induction dirs as [|d dirs IH]; [reflexivity|].
  cbn [Cli.ignored_dirs map]. unfold Cli._should_ignore_file at 1.
  rewrite Hgiven, IH. reflexivity.
Qed.

Lemma files_loop_given (patterns : list string) (root : string)
  (files : list string) :
  given_ignore_patterns cfg = Some patterns ->
  Cli.files_loop path_str cfg root files
  = Returned
      (map (path_str root)
         (filter
            (fun file =>
               endswith file ".py"
               && negb (_should_ignore_file patterns (path_str root file)))
            files)).
Proof.
  intros Hgiven. induction files as [|file files IH]; [reflexivity|].
  cbn [Cli.files_loop filter].
  destruct (endswith file ".py"); cbn [andb]; [|exact IH].
  unfold Cli._should_ignore_file at 1. rewrite Hgiven, IH.
  destruct (_should_ignore_file patterns (path_str root file));
    reflexivity.
Qed.

Lemma find_python_files_given (patterns : list string) (tree : dir_tree) :
  given_ignore_patterns cfg = Some patterns ->
  forall root : string,
    Cli.find_python_files path_str walk_join cfg root tree
    = Returned (find_python_files path_str walk_join patterns root tree).
Proof.
  intros Hgiven.
  induction tree as [dirs files IH] using dir_tree_induction. intros root.
  cbn [Cli.find_python_files find_python_files].
  rewrite (ignored_dirs_given patterns), (files_loop_given patterns)
    by exact Hgiven.
  match goal with
  | |- match ?inner with _ => _ end = _ =>
      assert (Hbelow : inner
                       = Returned
                           ((fix below (dirs : list (string * dir_tree))
                               : list string :=
                               match dirs with
                               | [] => []
                               | (d, subtree) :: dirs' =>
                                   (if _should_ignore_file patterns
                                         (path_str root d)
                                    then []
                                    else find_python_files path_str walk_join
                                           patterns (walk_join root d) subtree)
                                   ++ below dirs'
                               end) dirs))
  end.
  { induction IH as [|[d subtree] dirs Hsub _ IHdirs]; [reflexivity|].
    cbn [map fst snd] in *.
    destruct (_should_ignore_file patterns (path_str root d)).
    - rewrite IHdirs. reflexivity.
    - rewrite Hsub, IHdirs. reflexivity. }
  rewrite Hbelow. reflexivity.
Qed.

Lemma find_python_files_not_given (root : string) (tree : dir_tree) :
  given_ignore_patterns cfg = None ->
  Cli.find_python_files path_str walk_join cfg root tree
  = if nothing_to_check tree then Returned []
    else Raised "'ignore_patterns'".
Proof.
  intros Hgiven. destruct tree as [dirs files].
  cbn [Cli.find_python_files nothing_to_check].
  destruct dirs as [|[d subtree] dirs].
  - cbn [map Cli.ignored_dirs andb].
    assert (Hfiles :
              Cli.files_loop path_str cfg root files
              = if forallb (fun file => negb (endswith file ".py")) files
                then Returned [] else Raised "'ignore_patterns'").
    { induction files as [|file files IH]; [reflexivity|].
      cbn [Cli.files_loop forallb].
      destruct (endswith file ".py"); cbn [negb andb]; [|exact IH].
      unfold Cli._should_ignore_file. rewrite Hgiven. reflexivity. }
    rewrite Hfiles.
    destruct (forallb _ files); reflexivity.
  - cbn [map fst Cli.ignored_dirs andb].
    unfold Cli._should_ignore_file. rewrite Hgiven. reflexivity.
Qed.

End CliFind.

(** With [ignore_patterns] in the configuration the search of [main]'s
    checker returns what the patterns leave; without the key it raises
    [KeyError] as soon as the top directory has a sub-directory or an
    entry whose name ends in [.py], whatever else the project holds,
    and returns no file otherwise. *)
Theorem find_python_files_needs_patterns :
  forall (path_str walk_join : string -> string -> string)
         (cfg : config_dict) (root : string) (tree : dir_tree),
    match given_ignore_patterns cfg with
    | Some patterns =>
        Cli.find_python_files path_str walk_join cfg root tree
        = Returned (find_python_files path_str walk_join patterns root tree)
    | None =>
        Cli.find_python_files path_str walk_join cfg root tree
        = if nothing_to_check tree then Returned []
          else Raised "'ignore_patterns'"
    end.
Proof.
  intros path_str walk_join cfg root tree.
  destruct (given_ignore_patterns cfg) as [patterns|] eqn:Hgiven.
  - apply find_python_files_given. exact Hgiven.
  - apply find_python_files_not_given. exact Hgiven.
Qed.

(** Run with no [--config], the checker has no [ignore_patterns]:
    [main] returns 0 for a project whose top directory has no
    sub-directory and no entry whose name ends in [.py] (nothing is
    analysed), and 1 for every other project, whatever its files hold. *)
Theorem main_without_config_file :
  forall (ast_parse : string -> parse_result)
         (flake8 : string -> tool_outcome)
         (path_str walk_join : string -> string -> string)
         (open_file : string -> read_result)
         (json_load : string -> loaded_config)
         (str_Path : string -> string) (os_walk : string -> dir_tree)
         (args : Namespace),
    args_config args = None ->
    Cli.main ast_parse flake8 path_str walk_join open_file json_load
      str_Path os_walk args
    = Returns
        (if nothing_to_check (os_walk (args_project_path args)) then 0
         else 1).
Proof.
  intros ast_parse flake8 path_str walk_join open_file json_load str_Path
    os_walk args Hconfig.
  unfold Cli.main, Cli.run_checker, Cli.run_analysis. rewrite Hconfig.
  rewrite find_python_files_not_given by reflexivity.
  destruct (nothing_to_check (os_walk (args_project_path args)));
    reflexivity.
Qed.

Lemma main_without_config_file_witness :
  Cli.main sample_parse no_flake8 slash_join slash_join plain_open full_json
    same_path sample_walk plain_args
  = Returns 1
  /\ Cli.main sample_parse no_flake8 slash_join slash_join plain_open
       full_json same_path (fun _ => Directory [] ["README.md"]) plain_args
     = Returns 0.
Proof.
  split.
  - apply (main_without_config_file sample_parse no_flake8 slash_join
             slash_join plain_open full_json same_path sample_walk
             plain_args).
    reflexivity.
  - apply (main_without_config_file sample_parse no_flake8 slash_join
             slash_join plain_open full_json same_path
             (fun _ => Directory [] ["README.md"]) plain_args).
    reflexivity.
Defined.

Lemma cli_complexity_loop_no_class (cfg : config_dict) (file : source_file)
  (nodes : list ast) :
  forallb (fun node => negb (is_ClassDef node)) nodes = true ->
  Cli.complexity_loop cfg file nodes
  = (flat_map (complexity_step (config_of cfg) file) nodes, None).
Proof.
  induction nodes as [|node nodes IH]; [reflexivity|].
  cbn [forallb]. intros H. apply andb_prop in H. destruct H as [Hnode Hnodes].
  cbn [Cli.complexity_loop flat_map]. rewrite (IH Hnodes).
  destruct node; try discriminate; reflexivity.
Qed.

(** When the configuration has no [max_class_complexity], the
    complexity check of a file that parses stops at the first class
    that [ast.walk] meets: the functions met before it are checked, one
    error issue reports the missing key, and nothing after the class is
    checked.  A file without a class is checked as with the key. *)
Theorem missing_class_limit_stops_check :
  forall (ast_parse : string -> parse_result) (cfg : config_dict)
         (file : source_file) (tree : ast),
    given_max_class_complexity cfg = None ->
    read_and_parse ast_parse file = Returned tree ->
    (forallb (fun node => negb (is_ClassDef node)) (walk tree) = true ->
     Cli.analyze_complexity ast_parse cfg file
     = analyze_complexity ast_parse (config_of cfg) file)
    /\ (forall (before after : list ast) (node : ast),
          walk tree = before ++ node :: after ->
          is_ClassDef node = true ->
          forallb (fun node => negb (is_ClassDef node)) before = true ->
          Cli.analyze_complexity ast_parse cfg file
          = flat_map (complexity_step (config_of cfg) file) before
            ++ [mkCodeIssue (path file) 0 "complexity_analysis_error" "error"
                  "Failed to analyze complexity: 'max_class_complexity'"
                  None]).
Proof.
  intros ast_parse cfg file tree Hgiven Hparse.
  unfold Cli.analyze_complexity, analyze_complexity. rewrite Hparse.
  split.
  - intros Hnone. rewrite (cli_complexity_loop_no_class _ _ _ Hnone).
    reflexivity.
  - intros before after node -> Hclass Hbefore.
    assert (Hloop : Cli.complexity_loop cfg file (before ++ node :: after)
                    = (flat_map (complexity_step (config_of cfg) file) before,
                       Some "'max_class_complexity'"%string)).
    { clear Hparse. induction before as [|first before IH].
      - cbn [app Cli.complexity_loop flat_map].
        destruct node; try discriminate.
        unfold Cli.complexity_step. rewrite Hgiven. reflexivity.
      - cbn [forallb] in Hbefore. apply andb_prop in Hbefore.
        destruct Hbefore as [Hfirst Hbefore].
        cbn [app Cli.complexity_loop flat_map]. rewrite (IH Hbefore).
        destruct first; try discriminate; reflexivity. }
    rewrite Hloop. reflexivity.
Qed.

Lemma missing_class_limit_stops_check_witness :
  Cli.analyze_complexity extra_parse (mkConfigDict 79 10 None None None)
    class_file
  = [mkCodeIssue (path class_file) 0 "complexity_analysis_error" "error"
       "Failed to analyze complexity: 'max_class_complexity'" None].
Proof.
  apply (proj2 (missing_class_limit_stops_check extra_parse
                  (mkConfigDict 79 10 None None None) class_file
                  (Module [sample_class]) eq_refl eq_refl)
           [Module [sample_class]]
           (tl (tl (walk (Module [sample_class])))) sample_class);
    reflexivity.
Defined.

Lemma line_length_loop_limit (c1 c2 : Config) (file : source_file)
  (lines : list string) :
  max_line_length c1 = max_line_length c2 ->
  forall line_num : Z,
    line_length_loop c1 file line_num lines
    = line_length_loop c2 file line_num lines.
Proof.
  intros Hlimit. induction lines as [|line lines IH]; intros line_num;
    [reflexivity|].
  cbn [line_length_loop]. unfold line_too_long. rewrite Hlimit, IH.
  reflexivity.
Qed.

Lemma check_line_length_limit (c1 c2 : Config) (file : source_file) :
  max_line_length c1 = max_line_length c2 ->
  check_line_length c1 file = check_line_length c2 file.
Proof.
  intros Hlimit. unfold check_line_length.
  destruct (contents file) as [lines|yielded msg];
    rewrite (line_length_loop_limit c1 c2) by exact Hlimit; reflexivity.
Qed.

Lemma complexity_step_limits (c1 c2 : Config) (file : source_file)
  (node : ast) :
  max_function_complexity c1 = max_function_complexity c2 ->
  max_class_complexity c1 = max_class_complexity c2 ->
  complexity_step c1 file node = complexity_step c2 file node.
Proof.
  intros Hfunction Hclass. unfold complexity_step.
  rewrite Hfunction, Hclass. reflexivity.
Qed.

Lemma cli_analyze_file_limits (ast_parse : string -> parse_result)
  (flake8 : string -> tool_outcome) (cfg cfg' : config_dict)
  (d : list (string * CodeMetrics)) (file : source_file) :
  same_limits cfg cfg' ->
  Cli.analyze_file ast_parse flake8 cfg d file
  = Cli.analyze_file ast_parse flake8 cfg' d file.
Proof.
  intros (Hline & Hfunction & Hclass). unfold Cli.analyze_file.
  assert (Hstep : forall node,
             Cli.complexity_step cfg file node
             = Cli.complexity_step cfg' file node).
  { intros node. unfold Cli.complexity_step. rewrite Hclass.
    rewrite (complexity_step_limits (config_of cfg) (config_of cfg'));
      [reflexivity | exact Hfunction |].
    cbn [config_of max_class_complexity]. rewrite Hclass. reflexivity. }
  assert (Hloop : forall nodes,
             Cli.complexity_loop cfg file nodes
             = Cli.complexity_loop cfg' file nodes).
  { induction nodes as [|node nodes IH]; [reflexivity|].
    cbn [Cli.complexity_loop]. rewrite Hstep, IH. reflexivity. }
  unfold Cli.analyze_complexity.
  rewrite (check_line_length_limit (config_of cfg) (config_of cfg'))
    by exact Hline.
  destruct (read_and_parse ast_parse file) as [tree|str_e];
    [rewrite Hloop|]; reflexivity.
Qed.

Lemma cli_analysis_loop_limits (ast_parse : string -> parse_result)
  (flake8 : string -> tool_outcome) (open_file : string -> read_result)
  (cfg cfg' : config_dict) (python_files : list string) :
  same_limits cfg cfg' ->
  forall all_issues total d,
    Cli.analysis_loop ast_parse flake8 open_file cfg python_files all_issues
      total d
    = Cli.analysis_loop ast_parse flake8 open_file cfg' python_files
        all_issues total d.
Proof.
  intros Hsame. induction python_files as [|file_path python_files IH];
    intros all_issues total d; [reflexivity|].
  cbn [Cli.analysis_loop].
  rewrite (cli_analyze_file_limits _ _ cfg cfg') by exact Hsame.
  destruct (Cli.analyze_file ast_parse flake8 cfg' d _)
    as [[file_issues d']|msg]; [apply IH | reflexivity].
Qed.

Lemma cli_analysis_loop_count (ast_parse : string -> parse_result)
  (flake8 : string -> tool_outcome) (open_file : string -> read_result)
  (cfg : config_dict) (python_files : list string) :
  forall all_issues total d all_issues' total' d',
    Cli.analysis_loop ast_parse flake8 open_file cfg python_files all_issues
      total d
    = Returned (all_issues', total', d') ->
    total' - Z.of_nat (List.length all_issues')
    = total - Z.of_nat (List.length all_issues).
Proof.
  induction python_files as [|file_path python_files IH];
    intros all_issues total d all_issues' total' d' Hloop;
    cbn [Cli.analysis_loop] in Hloop.
  - inversion Hloop. reflexivity.
  - destruct (Cli.analyze_file ast_parse flake8 cfg d _)
      as [[file_issues d0]|msg]; [|discriminate].
    apply IH in Hloop. rewrite Hloop, length_app. lia.
Qed.

Section CliStatus.

Variable ast_parse : string -> parse_result.
Variable flake8 : string -> tool_outcome.
Variable path_str : string -> string -> string.
Variable walk_join : string -> string -> string.
Variable open_file : string -> read_result.
Variable str_Path : string -> string.
Variable os_walk : string -> dir_tree.

Lemma find_python_files_same_patterns (cfg cfg' : config_dict)
  (root : string) (tree : dir_tree) :
  given_ignore_patterns cfg = given_ignore_patterns cfg' ->
  Cli.find_python_files path_str walk_join cfg root tree
  = Cli.find_python_files path_str walk_join cfg' root tree.
Proof.
  intros Hsame.
  destruct (given_ignore_patterns cfg) as [patterns|] eqn:Hgiven.
  - rewrite (find_python_files_given _ _ cfg patterns) by exact Hgiven.
    rewrite (find_python_files_given _ _ cfg' patterns) by congruence.
    reflexivity.
  - rewrite !find_python_files_not_given by congruence. reflexivity.
Qed.

(** The status of the run does not depend on the weights. *)
Lemma run_checker_weights (args : Namespace) (cfg cfg' : config_dict) :
  same_limits cfg cfg' ->
  given_ignore_patterns cfg = given_ignore_patterns cfg' ->
  Cli.run_checker ast_parse flake8 path_str walk_join open_file str_Path
    os_walk args cfg
  = Cli.run_checker ast_parse flake8 path_str walk_join open_file str_Path
      os_walk args cfg'.
Proof.
  intros Hlimits Hpatterns. unfold Cli.run_checker, Cli.run_analysis.
  rewrite (find_python_files_same_patterns cfg cfg') by exact Hpatterns.
  destruct (Cli.find_python_files path_str walk_join cfg' _ _)
    as [python_files|str_e]; [|reflexivity].
  rewrite (cli_analysis_loop_limits _ _ _ cfg cfg') by exact Hlimits.
  destruct (Cli.analysis_loop ast_parse flake8 open_file cfg' python_files
              [] 0 []) as [[[all_issues total] d]|msg] eqn:Hloop;
    [|reflexivity].
  apply cli_analysis_loop_count in Hloop. cbn [List.length] in Hloop.
  unfold Cli._calculate_quality_score.
  destruct all_issues as [|issue all_issues]; [reflexivity|].
  cbn [List.length] in Hloop.
  assert (Htotal : (total =? 0) = false) by (apply Z.eqb_neq; lia).
  destruct (given_severity_weights cfg), (given_severity_weights cfg');
    cbn [total_issues]; rewrite ?Htotal; reflexivity.
Qed.

End CliStatus.

(** The status that [main] returns does not depend on
    [severity_weights]: two configuration files that differ only there,
    one of them maybe without the key, give the same status. *)
Theorem exit_status_ignores_weights :
  forall (ast_parse : string -> parse_result)
         (flake8 : string -> tool_outcome)
         (path_str walk_join : string -> string -> string)
         (open_file : string -> read_result)
         (json_load json_load' : string -> loaded_config)
         (str_Path : string -> string) (os_walk : string -> dir_tree)
         (args : Namespace) (config_path : string)
         (max_class_complexity : option Z)
         (ignore_patterns : option (list string))
         (severity_weights severity_weights' : option (list (string * Z))),
    args_config args = Some config_path ->
    json_load config_path
    = LoadedObject max_class_complexity ignore_patterns severity_weights ->
    json_load' config_path
    = LoadedObject max_class_complexity ignore_patterns severity_weights' ->
    Cli.main ast_parse flake8 path_str walk_join open_file json_load
      str_Path os_walk args
    = Cli.main ast_parse flake8 path_str walk_join open_file json_load'
        str_Path os_walk args.
Proof.
  intros ast_parse flake8 path_str walk_join open_file json_load json_load'
    str_Path os_walk args config_path max_class_complexity ignore_patterns
    severity_weights severity_weights' Hargs Hload Hload'.
  unfold Cli.main. rewrite Hargs.
  destruct (is_empty config_path); [reflexivity|].
  rewrite Hload, Hload'. apply run_checker_weights.
  - repeat split.
  - reflexivity.
Qed.

Lemma exit_status_ignores_weights_witness :
  Cli.main sample_parse no_flake8 slash_join slash_join long_open full_json
    same_path sample_walk config_args
  = Cli.main sample_parse no_flake8 slash_join slash_join long_open
      no_weights_json same_path sample_walk config_args.
Proof.
  apply (exit_status_ignores_weights sample_parse no_flake8 slash_join
           slash_join long_open full_json no_weights_json same_path
           sample_walk config_args "quality.json" (Some 20)
           (Some default_ignore_patterns)
           (Some [("error", 3); ("warning", 2); ("info", 1)]) None);
    reflexivity.
Defined.

Lemma analyze_file_limits (ast_parse : string -> parse_result)
  (flake8 : string -> tool_outcome) (c1 c2 : Config)
  (d : list (string * CodeMetrics)) (file : source_file) :
  max_line_length c1 = max_line_length c2 ->
  max_function_complexity c1 = max_function_complexity c2 ->
  max_class_complexity c1 = max_class_complexity c2 ->
  analyze_file ast_parse flake8 c1 d file
  = analyze_file ast_parse flake8 c2 d file.
Proof.
  intros Hline Hfunction Hclass. unfold analyze_file, analyze_complexity.
  rewrite (check_line_length_limit c1 c2) by exact Hline.
  destruct (read_and_parse ast_parse file) as [tree|str_e]; [|reflexivity].
  rewrite (flat_map_ext (complexity_step c1 file) (complexity_step c2 file));
    [reflexivity|].
  intros node. apply complexity_step_limits; assumption.
Qed.

Lemma cli_analyze_file_full (ast_parse : string -> parse_result)
  (flake8 : string -> tool_outcome) (cfg : config_dict) (limit : Z)
  (d : list (string * CodeMetrics)) (file : source_file) :
  given_max_class_complexity cfg = Some limit ->
  Cli.analyze_file ast_parse flake8 cfg d file
  = analyze_file ast_parse flake8 (config_of cfg) d file.
Proof.
  intros Hgiven. unfold Cli.analyze_file, analyze_file.
  assert (Hloop : forall nodes,
             Cli.complexity_loop cfg file nodes
             = (flat_map (complexity_step (config_of cfg) file) nodes, None)).
  { induction nodes as [|node nodes IH]; [reflexivity|].
    cbn [Cli.complexity_loop flat_map]. unfold Cli.complexity_step.
    rewrite Hgiven, IH. destruct node; reflexivity. }
  unfold Cli.analyze_complexity, analyze_complexity.
  destruct (read_and_parse ast_parse file) as [tree|str_e];
    [rewrite Hloop|]; reflexivity.
Qed.

Lemma cli_analysis_loop_full (ast_parse : string -> parse_result)
  (flake8 : string -> tool_outcome) (open_file : string -> read_result)
  (cfg : config_dict) (limit : Z) (python_files : list string) :
  given_max_class_complexity cfg = Some limit ->
  forall all_issues total d,
    Cli.analysis_loop ast_parse flake8 open_file cfg python_files all_issues
      total d
    = analysis_loop ast_parse flake8 (config_of cfg)
        (map (file_at open_file) python_files) all_issues total d.
Proof.
  intros Hgiven. induction python_files as [|file_path python_files IH];
    intros all_issues total d; [reflexivity|].
  cbn [Cli.analysis_loop analysis_loop map].
  rewrite (cli_analyze_file_full _ _ cfg limit) by exact Hgiven.
  unfold file_at at 1.
  destruct (analyze_file ast_parse flake8 (config_of cfg) d _)
    as [[file_issues d']|msg]; [apply IH | reflexivity].
Qed.

(** How the first loop of [run_analysis] ends, by the files. *)
Lemma analysis_loop_status (ast_parse : string -> parse_result)
  (flake8 : string -> tool_outcome) (config : Config)
  (files : list source_file) (d : list (string * CodeMetrics)) :
  match analysis_loop ast_parse flake8 config files [] 0 d with
  | Returned (all_issues, total, _) =>
      total = Z.of_nat (List.length all_issues)
      /\ (forallb (clean_file ast_parse flake8 config) files = true
          <-> all_issues = [])
  | Raised _ => forallb (clean_file ast_parse flake8 config) files = false
  end.
Proof.
  destruct (analysis_loop ast_parse flake8 config files [] 0 d)
    as [[[all_issues total] d']|msg] eqn:Hloop.
  - apply analysis_loop_returned in Hloop.
    destruct Hloop as (Hissues & Htotal & _ & Htool).
    cbn [app] in Hissues. subst all_issues total.
    split; [rewrite Z.add_0_l; symmetry; apply flat_map_length_sum|].
    clear d d'. induction Htool as [|file files Hfile _ IH];
      [split; reflexivity|].
    cbn [forallb flat_map]. unfold clean_file at 1. rewrite Hfile.
    cbn [negb andb].
    destruct (issues_of_file ast_parse flake8 config file) as [|issue found].
    + cbn [app andb]. exact IH.
    + cbn [app andb]. split; discriminate.
  - apply analysis_loop_raised in Hloop.
    destruct Hloop as (before & file & after & -> & _ & Hraised).
    rewrite forallb_app. cbn [forallb]. unfold clean_file at 2.
    unfold tool_raises. rewrite Hraised. cbn [negb andb].
    apply andb_false_r.
Qed.

Lemma forallb_on_map {A B : Type} (f : A -> B) (p : B -> bool)
  (l : list A) :
  forallb p (map f l) = forallb (fun a => p (f a)) l.
Proof.
  induction l as [|a l IH]; [reflexivity|].
  cbn [map forallb]. rewrite IH. reflexivity.
Qed.

(** With a configuration file that gives [ignore_patterns] and
    [max_class_complexity], [main] returns 0 when [analyze_file] returns
    no issue for every file that [find_python_files] finds, and 1 when
    some file has an issue or the decoding of the tool's output raises;
    the weights have no part in it. *)
Theorem main_returns_zero_iff_clean :
  forall (ast_parse : string -> parse_result)
         (flake8 : string -> tool_outcome)
         (path_str walk_join : string -> string -> string)
         (open_file : string -> read_result)
         (json_load : string -> loaded_config)
         (str_Path : string -> string) (os_walk : string -> dir_tree)
         (args : Namespace) (config_path : string) (limit : Z)
         (patterns : list string)
         (severity_weights : option (list (string * Z)))
         (weights : list (string * Z)),
    args_config args = Some config_path ->
    is_empty config_path = false ->
    json_load config_path
    = LoadedObject (Some limit) (Some patterns) severity_weights ->
    Cli.main ast_parse flake8 path_str walk_join open_file json_load
      str_Path os_walk args
    = Returns
        (if forallb
              (fun file_path =>
                 clean_file ast_parse flake8
                   (mkConfig (args_max_line_length args)
                      (args_max_function_complexity args) limit weights)
                   (file_at open_file file_path))
              (find_python_files path_str walk_join patterns
                 (str_Path (args_project_path args))
                 (os_walk (args_project_path args)))
         then 0 else 1).
Proof.
  intros ast_parse flake8 path_str walk_join open_file json_load str_Path
    os_walk args config_path limit patterns severity_weights weights Hargs
    Hpath Hload.
  unfold Cli.main. rewrite Hargs, Hpath, Hload.
  unfold Cli.run_checker, Cli.run_analysis.
  rewrite (find_python_files_given _ _ _ patterns) by reflexivity.
  set (python_files :=
         find_python_files path_str walk_join patterns
           (str_Path (args_project_path args))
           (os_walk (args_project_path args))).
  set (cfg := mkConfigDict (args_max_line_length args)
                (args_max_function_complexity args) (Some limit)
                (Some patterns) severity_weights).
  rewrite (cli_analysis_loop_full _ _ _ cfg limit) by reflexivity.
  rewrite <- (forallb_on_map (file_at open_file)
                (clean_file ast_parse flake8
                   (mkConfig (args_max_line_length args)
                      (args_max_function_complexity args) limit weights))).
  assert (Hclean : forall files,
             forallb
               (clean_file ast_parse flake8
                  (mkConfig (args_max_line_length args)
                     (args_max_function_complexity args) limit weights))
               files
             = forallb (clean_file ast_parse flake8 (config_of cfg)) files).
  { intros files. induction files as [|file files IH]; [reflexivity|].
    cbn [forallb]. rewrite IH.
    apply (f_equal (fun b : bool => b && _)).
    unfold clean_file, issues_of_file.
    apply (f_equal
             (fun r : outcome (list CodeIssue * list (string * CodeMetrics)) =>
                negb (tool_raises flake8 file)
                && match match r with
                         | Returned (found, _) => found
                         | Raised _ => []
                         end with
                   | [] => true
                   | _ :: _ => false
                   end)).
    apply analyze_file_limits; reflexivity. }
  rewrite Hclean.
  pose proof (analysis_loop_status ast_parse flake8 (config_of cfg)
                (map (file_at open_file) python_files) []) as Hstatus.
  destruct (analysis_loop ast_parse flake8 (config_of cfg)
              (map (file_at open_file) python_files) [] 0 [])
    as [[[all_issues total] d]|msg].
  - destruct Hstatus as [Htotal Hclean'].
    destruct all_issues as [|issue all_issues].
    + rewrite (proj2 Hclean' eq_refl). subst total. reflexivity.
    + destruct (forallb _ (map (file_at open_file) python_files)).
      * destruct Hclean' as [Hnone _]. discriminate (Hnone eq_refl).
      * assert (Hnonzero : (total =? 0) = false).
        { apply Z.eqb_neq. subst total. cbn [List.length]. lia. }
        unfold Cli._calculate_quality_score.
        destruct (given_severity_weights cfg); cbn [total_issues];
          rewrite ?Hnonzero; reflexivity.
  - rewrite Hstatus. reflexivity.
Qed.

Lemma main_returns_zero_iff_clean_witness :
  Cli.main sample_parse no_flake8 slash_join slash_join plain_open full_json
    same_path sample_walk config_args
  = Returns 0
  /\ Cli.main sample_parse no_flake8 slash_join slash_join long_open
       full_json same_path sample_walk config_args
     = Returns 1.
Proof.
  split.
  - apply (main_returns_zero_iff_clean sample_parse no_flake8 slash_join
             slash_join plain_open full_json same_path sample_walk
             config_args "quality.json" 20 default_ignore_patterns
             (Some [("error", 3); ("warning", 2); ("info", 1)]) []);
      reflexivity.
  - apply (main_returns_zero_iff_clean sample_parse no_flake8 slash_join
             slash_join long_open full_json same_path sample_walk
             config_args "quality.json" 20 default_ignore_patterns
             (Some [("error", 3); ("warning", 2); ("info", 1)]) []);
      reflexivity.
Defined.

(** ** The naming check *)





(** ** Instances *)

Lemma detailed_issues_cover_report_witness :
  Permutation
    (flat_map (fun entry => sorted_by_line (snd entry))
       (group_by_file mixed_issues))
    mixed_issues.
Proof.
  exact (proj1 (detailed_issues_cover_report mixed_issues)).
Defined.

Lemma detailed_issues_line_count_witness :
  List.length (detailed_issues mixed_report) = 9%nat.
Proof.
  rewrite (proj2 (detailed_issues_line_count mixed_report));
    [reflexivity | discriminate].
Defined.

Lemma find_python_files_needs_patterns_witness :
  Cli.find_python_files slash_join slash_join
    (mkConfigDict 79 10 None None None) "project" sample_project
  = Raised "'ignore_patterns'"
  /\ Cli.find_python_files slash_join slash_join
       (mkConfigDict 79 10 None (Some default_ignore_patterns) None)
       "project" sample_project
     = Returned
         ["project/setup.py"; "project/pkg/__init__.py";
          "project/pkg/core.py"].
Proof.
  split.
  - exact (find_python_files_needs_patterns slash_join slash_join
             (mkConfigDict 79 10 None None None) "project" sample_project).
  - exact (find_python_files_needs_patterns slash_join slash_join
             (mkConfigDict 79 10 None (Some default_ignore_patterns) None)
             "project" sample_project).
Defined.

(** ** Asynchronous definitions in the sums *)

(** Claim C9, as stated, fails: an [async def] with an [if] inside,
    nested in an ordinary function, raises the complexity sum of the file
    from 1, which the function alone gives, to 2. *)
Lemma async_def_in_function_is_counted :
  functions_complexity (Module [function_with_async_def]) = 2
  /\ functions_complexity (Module [function_without_async_def]) = 1
  /\ complexity (calculate_metrics nested_async_parse nested_async_file)
     = PInt 2
  /\ complexity (calculate_metrics nested_async_parse plain_outer_file)
     = PInt 1
  /\ function_count (calculate_metrics nested_async_parse nested_async_file)
     = 1.
Proof. repeat split; reflexivity. Qed.

Lemma filter_none {A : Type} (p : A -> bool) (l : list A) :
  forallb (fun a => negb (p a)) l = true -> filter p l = [].
Proof.
  induction l as [|a l IH]; [reflexivity|].
  cbn [forallb filter]. intros H. apply andb_prop in H.
  destruct H as [Ha Hl]. apply negb_true_iff in Ha. rewrite Ha.
  apply IH, Hl.
Qed.

(** The complexity sum of a tree from the sums of the children of its
    root. *)
Lemma functions_complexity_children (node : ast) :
  functions_complexity node
  = (if is_FunctionDef node then _calculate_complexity node else 0)
    + sum_Z (map functions_complexity (iter_child_nodes node)).
Proof.
  rewrite functions_complexity_subtree, subtree_nodes_children.
  cbn [filter].
  assert (Hforest :
            forall l : list ast,
              sum_Z (map _calculate_complexity
                       (filter is_FunctionDef (flat_map subtree_nodes l)))
              = sum_Z (map functions_complexity l)).
  { induction l as [|child l IH]; [reflexivity|].
    cbn [flat_map map]. rewrite filter_app, map_app, sum_Z_app, IH.
    rewrite sum_Z_cons, functions_complexity_subtree. reflexivity. }
  destruct (is_FunctionDef node); cbn [map];
    rewrite ?sum_Z_cons, Hforest; lia.
Qed.

Lemma async_is_no_function (node : ast) :
  is_AsyncFunctionDef node = true -> is_FunctionDef node = false.
Proof. destruct node; try discriminate. reflexivity. Qed.

(** What a statement in the body of a function adds to the score of
    the function and to the complexity sum. *)
Lemma body_item_in_function (name : string) (lineno : Z) (args : ast)
  (before : list ast) (inner : ast) (after decorator_list : list ast)
  (returns : option ast) :
  _calculate_complexity
    (FunctionDef name lineno args (before ++ inner :: after) decorator_list
       returns)
  = _calculate_complexity
      (FunctionDef name lineno args (before ++ after) decorator_list returns)
    + (_calculate_complexity inner - 1)
  /\ functions_complexity
       (FunctionDef name lineno args (before ++ inner :: after)
          decorator_list returns)
     = functions_complexity
         (FunctionDef name lineno args (before ++ after) decorator_list
            returns)
       + (_calculate_complexity inner - 1) + functions_complexity inner.
Proof.
  assert (Hscore :
            _calculate_complexity
              (FunctionDef name lineno args (before ++ inner :: after)
                 decorator_list returns)
            = _calculate_complexity
                (FunctionDef name lineno args (before ++ after)
                   decorator_list returns)
              + (_calculate_complexity inner - 1)).
  { rewrite !(complexity_children (FunctionDef _ _ _ _ _ _)).
    cbn [iter_child_nodes complexity_increment map].
    rewrite !map_app, !sum_Z_cons, !sum_Z_app. cbn [map].
    rewrite ?sum_Z_cons, ?sum_Z_app. lia. }
  split; [exact Hscore|].
  rewrite !(functions_complexity_children (FunctionDef _ _ _ _ _ _)).
  cbn [is_FunctionDef iter_child_nodes map]. rewrite Hscore.
  rewrite !map_app, !sum_Z_cons, !sum_Z_app. cbn [map].
  rewrite ?sum_Z_cons, ?sum_Z_app. lia.
Qed.

(** Claim C9, amended.  An [async def] is never itself counted or
    checked: the metrics of a file, the issues of the naming detector
    and the issues of the complexity detector are what they would be
    with a node of no particular class in the place of each [async def],
    holding the same children; an [async def] is no function definition
    for the count and draws no issue from either detector; as a method
    it adds nothing to the complexity of its class, and a class with no
    ordinary [def] in its body has class complexity 0.  Its body is
    walked all the same: nested in an ordinary function, it adds its
    own score less the base value to the score of that function, and so
    to the complexity sum of the file; at the top of a module, or
    wherever no ordinary function encloses it, it adds only what the
    ordinary functions inside it give, which is nothing when there is
    none.  An [async for] loop in an ordinary function adds 1 to the
    complexity of that function. *)
Theorem async_definitions_not_counted :
  forall (ast_parse : string -> parse_result) (config : Config)
         (file : source_file),
    calculate_metrics (erased_parse ast_parse) file
    = calculate_metrics ast_parse file
    /\ check_naming_conventions (erased_parse ast_parse) file
       = check_naming_conventions ast_parse file
    /\ analyze_complexity (erased_parse ast_parse) config file
       = analyze_complexity ast_parse config file
    /\ (forall name lineno args body decorator_list returns,
          is_FunctionDef
            (AsyncFunctionDef name lineno args body decorator_list returns)
          = false
          /\ naming_step file
               (AsyncFunctionDef name lineno args body decorator_list returns)
             = Returned []
          /\ complexity_step config file
               (AsyncFunctionDef name lineno args body decorator_list returns)
             = [])
    /\ (forall name lineno bases keywords before method after
               decorator_list,
          is_AsyncFunctionDef method = true ->
          _calculate_class_complexity
            (ClassDef name lineno bases keywords (before ++ method :: after)
               decorator_list)
          = _calculate_class_complexity
              (ClassDef name lineno bases keywords (before ++ after)
                 decorator_list))
    /\ (forall name lineno bases keywords body decorator_list,
          forallb (fun item => negb (is_FunctionDef item)) body = true ->
          _calculate_class_complexity
            (ClassDef name lineno bases keywords body decorator_list) = 0)
    /\ (forall name lineno args before inner after decorator_list returns,
          is_AsyncFunctionDef inner = true ->
          _calculate_complexity
            (FunctionDef name lineno args (before ++ inner :: after)
               decorator_list returns)
          = _calculate_complexity
              (FunctionDef name lineno args (before ++ after) decorator_list
                 returns)
            + (_calculate_complexity inner - 1)
          /\ functions_complexity
               (FunctionDef name lineno args (before ++ inner :: after)
                  decorator_list returns)
             = functions_complexity
                 (FunctionDef name lineno args (before ++ after)
                    decorator_list returns)
               + (_calculate_complexity inner - 1)
               + functions_complexity inner)
    /\ (forall before inner after,
          is_AsyncFunctionDef inner = true ->
          functions_complexity (Module (before ++ inner :: after))
          = functions_complexity (Module (before ++ after))
            + functions_complexity inner)
    /\ (forall inner,
          is_AsyncFunctionDef inner = true ->
          forallb (fun node => negb (is_FunctionDef node))
            (flat_map subtree_nodes (iter_child_nodes inner)) = true ->
          functions_complexity inner = 0)
    /\ (forall name lineno args before target iter body orelse after
               decorator_list returns,
          _calculate_complexity
            (FunctionDef name lineno args
               (before ++ AsyncFor target iter body orelse :: after)
               decorator_list returns)
          = 1 + _calculate_complexity
                  (FunctionDef name lineno args
                     (before ++ Other (target :: iter :: body ++ orelse)
                      :: after)
                     decorator_list returns)).
Proof.
  intros ast_parse config file.
  split; [|split; [|split; [|split; [|split; [|split; [|split; [|split;
    [|split]]]]]]]].
  - unfold calculate_metrics, erased_parse.
    destruct (contents file) as [lines|yielded msg]; [|reflexivity].
    destruct (ast_parse (join_lines lines)) as [tree| |]; try reflexivity.
    rewrite erase_async_functions_complexity,
      (erase_async_count is_FunctionDef) by exact erase_async_is_FunctionDef.
    rewrite (erase_async_count is_ClassDef) by exact erase_async_is_ClassDef.
    reflexivity.
  - unfold check_naming_conventions. rewrite erased_parse_tree.
    destruct (read_and_parse ast_parse file) as [tree|str_e]; [|reflexivity].
    rewrite erase_async_walk, erase_async_naming_loop. reflexivity.
  - unfold analyze_complexity. rewrite erased_parse_tree.
    destruct (read_and_parse ast_parse file) as [tree|str_e]; [|reflexivity].
    rewrite erase_async_walk, erase_async_complexity_issues. reflexivity.
  - intros. repeat split.
  - intros name lineno bases keywords before method after decorator_list
      Hasync.
    rewrite !class_complexity_sum. cbn [class_body].
    rewrite !filter_app. cbn [filter].
    rewrite (async_is_no_function method Hasync). reflexivity.
  - intros name lineno bases keywords body decorator_list Hnone.
    rewrite class_complexity_sum. cbn [class_body].
    rewrite (filter_none is_FunctionDef body Hnone). reflexivity.
  - intros name lineno args before inner after decorator_list returns _.
    apply body_item_in_function.
  - intros before inner after Hasync.
    rewrite !(functions_complexity_children (Module _)).
    cbn [is_FunctionDef iter_child_nodes].
    rewrite !map_app. cbn [map]. rewrite !sum_Z_app, sum_Z_cons. lia.
  - intros inner Hasync Hnone.
    rewrite functions_complexity_subtree, subtree_nodes_children.
    cbn [filter]. rewrite (async_is_no_function inner Hasync).
    rewrite (filter_none is_FunctionDef _ Hnone). reflexivity.
  - intros.
    rewrite !(complexity_children (FunctionDef _ _ _ _ _ _)).
    cbn [iter_child_nodes complexity_increment map].
    rewrite !map_app, !sum_Z_cons, !sum_Z_app. cbn [map].
    rewrite !sum_Z_cons.
    rewrite (complexity_children (AsyncFor _ _ _ _)),
      (complexity_children (Other _)).
    cbn [iter_child_nodes complexity_increment]. lia.
Qed.

Lemma async_definitions_not_counted_witness :
  _calculate_class_complexity async_class = 0
  /\ _calculate_class_complexity
       (ClassDef "Client" 1 [] [] [method_three; async_function] [])
     = _calculate_class_complexity
         (ClassDef "Client" 1 [] [] [method_three] [])
  /\ functions_complexity function_with_async_def
     = functions_complexity (FunctionDef "outer" 1 leaf [] [] None) + 1
  /\ functions_complexity (Module [nested_async_def]) = 0
  /\ _calculate_complexity function_with_async_for = 2.
Proof.
  destruct (async_definitions_not_counted sample_parse _get_default_config
              empty_file)
    as (_ & _ & _ & _ & Hmethod & Hclass & Hnested & Hmodule & Hnone & Hloop).
  split; [|split; [|split; [|split]]].
  - apply Hclass. reflexivity.
  - apply (Hmethod "Client" 1 [] [] [method_three] async_function [] []).
    reflexivity.
  - etransitivity;
      [exact (proj2 (Hnested "outer" 1 leaf [] nested_async_def [] [] None
                       eq_refl))|].
    rewrite (Hnone nested_async_def eq_refl eq_refl). reflexivity.
  - etransitivity; [exact (Hmodule [] nested_async_def [] eq_refl)|].
    rewrite (Hnone nested_async_def eq_refl eq_refl). reflexivity.
  - apply (Hloop "drain" 1 (Other [leaf]) [] (Name "item" Store 2)
             (load "queue" 2) [leaf] [] [] [] None).
Defined.
